(** * Mini net stack: header codec, segmentation, reassembly and link model

    A shallow embedding of [src/unnamed/part_002] (the client/network/server
    simulation): [ipChecksum], [IPv4Header], [TCPHeader], [NetworkLink],
    [Server.onFrame], [Client.send], [segment], [cat] and [concat].

    Conventions.
    - A JavaScript number that the code only ever uses as an integer (header
      fields, lengths, indices) is a [Z]; the 32-bit wrap-around of the bit
      operators is written out in [Js.to_int32] and [Js.to_uint32].
    - A [Uint8Array] is a [list Z]; every store goes through [Js.to_uint8],
      a store out of range is ignored and a read out of range is [None]
      (JavaScript's [undefined]).
    - A function of the source that can throw returns a [Js.result].
    - [NetworkLink] takes the link's rates, distances and delays as exact
      rationals ([Q]), for what [connect] and [send] accept, drop and
      schedule; [DoubleLink] takes them as the IEEE 754 binary64 values the
      source computes with, for the delay that [send] hands to the timer. *)

From Stdlib Require Import ZArith QArith Lia Lqa Ascii String.
From Stdlib Require Floats.
From stdpp Require Import base list strings pretty.
From Equations Require Import Equations.

Local Open Scope Z_scope.

(** ** JavaScript primitives *)

Module Js.

(** The exceptions the source can raise: [throw new TypeError(..)],
    [throw new Error(..)], and the [RangeError] of the typed-array
    built-ins. *)
Inductive exn : Type :=
| TypeError
| RangeError
| Error.

Inductive result (A : Type) : Type :=
| Ok (a : A)
| Throw (e : exn).
Arguments Ok {A} a.
Arguments Throw {A} e.

Definition bind {A B} (r : result A) (k : A -> result B) : result B :=
  match r with
  | Ok a => k a
  | Throw e => Throw e
  end.

Definition is_ok {A} (r : result A) : bool :=
  match r with Ok _ => true | Throw _ => false end.

(** ToInt32 and ToUint32 on an integral number. *)
Definition to_uint32 (x : Z) : Z := x mod 2 ^ 32.
Definition to_int32 (x : Z) : Z :=
  let m := x mod 2 ^ 32 in if m <? 2 ^ 31 then m else m - 2 ^ 32.

(** [a & b], [a | b], [~a], [a << k], [a >> k], [a >>> k]. *)
Definition band (a b : Z) : Z := Z.land (to_int32 a) (to_int32 b).
Definition bor (a b : Z) : Z := Z.lor (to_int32 a) (to_int32 b).
Definition bnot (a : Z) : Z := Z.lnot (to_int32 a).
Definition shl (a k : Z) : Z := to_int32 (Z.shiftl (to_int32 a) (k mod 32)).
Definition sar (a k : Z) : Z := Z.shiftr (to_int32 a) (k mod 32).
Definition shr (a k : Z) : Z := Z.shiftr (to_uint32 a) (k mod 32).

(** [x ? 1 : 0] on the truth value of [x]. *)
Definition bit (x : bool) : Z := if x then 1 else 0.

(** [Math.ceil(n / 4)] for a length [n] (a non-negative integer). *)
Definition ceil_div4 (n : Z) : Z := (n + 3) / 4.

(** *** Uint8Array *)

Definition to_uint8 (v : Z) : Z := v mod 256.

(** [new Uint8Array(n)]: [n] zero bytes; a negative length is a
    [RangeError]. An engine also raises a [RangeError] for a length beyond
    what it allocates; that limit is not represented. The lengths passed
    here are sums of lengths of arrays that exist and, in [TCPHeader.pack],
    four times the base data offset, a number of the caller: the
    numbered theorems on [TCPHeader.pack] keep that base at 15 words at
    most. *)
Definition new_Uint8Array (n : Z) : result (list Z) :=
  if n <? 0 then Throw RangeError else Ok (replicate (Z.to_nat n) 0).

(** [b[i] = v]. *)
Definition store (b : list Z) (i : nat) (v : Z) : list Z :=
  <[ i := to_uint8 v ]> b.

(** [b[i] = v] where [v] may be [undefined], which is stored as 0. *)
Definition store_opt (b : list Z) (i : nat) (v : option Z) : list Z :=
  store b i (default 0 v).

(** [b[i]] used as an operand of a bit operator: [undefined] counts as 0. *)
Definition at0 (b : list Z) (i : nat) : Z := default 0 (b !! i).

(** [b.set(src, off)]: a [RangeError] when [src] does not fit; each
    element is stored as a byte. *)
Definition set_at (b src : list Z) (off : nat) : result (list Z) :=
  if (length b <? off + length src)%nat then Throw RangeError
  else Ok (take off b ++ map to_uint8 src ++ drop (off + length src) b).

(** [bytes.slice(a, b)] for [0 <= a] and [0 <= b]: both ends are clamped to
    the length. *)
Definition slice (bytes : list Z) (a b : nat) : list Z :=
  take (b - a) (drop a bytes).

(** [bytes.slice(a)]. *)
Definition slice_from (bytes : list Z) (a : nat) : list Z := drop a bytes.

End Js.

Notation "'do' x <- r ; k" := (Js.bind r (fun x => k))
  (at level 10, x name, r at level 100, k at level 200).

(** A byte buffer whose elements are all in [0, 256). *)
Definition bytes_ok (b : list Z) : Prop := Forall (fun x => 0 <= x < 256) b.

(** ** Segmentation and concatenation helpers *)

(** [segment(bytes, mss)]:
    [for (let i=0; i<bytes.length; i+=mss) out.push(bytes.slice(i, i+mss))].
    The loop runs on fuel; [None] means the fuel ran out. *)
Fixpoint segment_loop (fuel : nat) (bytes : list Z) (mss i : nat)
    (out : list (list Z)) : option (list (list Z)) :=
  match fuel with
  | O => None
  | S fuel' =>
      if (i <? length bytes)%nat
      then segment_loop fuel' bytes mss (i + mss)
             (out ++ [Js.slice bytes i (i + mss)])
      else Some out
  end.

(** With [mss > 0] the loop needs at most [length bytes] iterations and one
    last test; with [mss = 0] and a non-empty input the source never returns,
    which is [None] here. *)
Definition segment (bytes : list Z) (mss : nat) : option (list (list Z)) :=
  segment_loop (S (length bytes)) bytes mss 0 [].

(** [cat(a, b)]: a fresh array holding [a] then [b]. *)
Definition cat (a b : list Z) : Js.result (list Z) :=
  do out <- Js.new_Uint8Array (Z.of_nat (length a + length b));
  do out <- Js.set_at out a 0;
  Js.set_at out b (length a).

(** [concat(arr)]: the arrays of [arr] copied one after the other. *)
Fixpoint concat_loop (arr : list (list Z)) (o : nat) (out : list Z)
    : Js.result (list Z) :=
  match arr with
  | [] => Js.Ok out
  | b :: rest =>
      do out <- Js.set_at out b o;
      concat_loop rest (o + length b) out
  end.

Definition concat (arr : list (list Z)) : Js.result (list Z) :=
  let len := foldl (fun n b => (n + length b)%nat) 0%nat arr in
  do out <- Js.new_Uint8Array (Z.of_nat len);
  concat_loop arr 0 out.

(** ** Internet checksum *)

(** One round of the loop of [ipChecksum]:
    [word = ((hi<<8) | lo) >>> 0; sum += word;
     sum = (sum & 0xFFFF) + (sum >>> 16)]. *)
Definition ipChecksum_step (sum hi lo : Z) : Z :=
  let word := Js.shr (Js.bor (Js.shl hi 8) lo) 0 in
  let sum := sum + word in
  Js.band sum 0xFFFF + Js.shr sum 16.

(** The loop [for (let i=0; i<bytes.length; i+=2)], as a recursion on the
    bytes from index [i] on; a last byte without a partner is paired with 0
    ([bytes[i+1] ?? 0]). *)
Fixpoint ipChecksum_loop (bytes : list Z) (sum : Z) : Z :=
  match bytes with
  | [] => sum
  | [hi] => ipChecksum_step sum hi 0
  | hi :: lo :: rest => ipChecksum_loop rest (ipChecksum_step sum hi lo)
  end.

Definition ipChecksum (bytes : list Z) : Z :=
  Js.band (Js.bnot (ipChecksum_loop bytes 0)) 0xFFFF.

(** The checksum as the specification words it: the sum of all 16-bit
    big-endian words, carries above bit 15 folded back until none remains,
    then the complement of the low 16 bits. *)
Module ChecksumSpec.

Fixpoint words_be (bytes : list Z) : list Z :=
  match bytes with
  | [] => []
  | [hi] => [hi * 256]
  | hi :: lo :: rest => (hi * 256 + lo) :: words_be rest
  end.

Definition sum_words (bytes : list Z) : Z := foldr Z.add 0 (words_be bytes).

Equations fold_carries (s : Z) : Z by wf (Z.to_nat s) lt :=
  fold_carries s with Z_lt_dec s 65536 := {
    | left _ => s
    | right _ => fold_carries (s mod 65536 + s / 65536)
  }.
Next Obligation.
  assert (0 < s / 65536) by (apply Z.div_str_pos; lia).
  pose proof (Z.div_mod s 65536 ltac:(lia)).
  pose proof (Z.mod_pos_bound s 65536 ltac:(lia)).
  lia.
Qed.

Definition ones_sum (bytes : list Z) : Z := fold_carries (sum_words bytes).

Definition complement16 (s : Z) : Z := 65535 - s mod 65536.

Definition checksum (bytes : list Z) : Z := complement16 (ones_sum bytes).

End ChecksumSpec.

(** ** Dotted addresses *)

(** [ip.split('.')]. *)
Fixpoint split_dot (s : string) : list string :=
  match s with
  | EmptyString => [EmptyString]
  | String c rest =>
      if Ascii.eqb c "."%char then EmptyString :: split_dot rest
      else match split_dot rest with
           | x :: xs => String c x :: xs
           | [] => [String c EmptyString]
           end
  end.

(** [ipToBytes(ip) = ip.split('.').map(n => Number(n) & 255)].
    [Number] is the built-in conversion of a string to a number, taken here
    with the integer its result contributes to a bit operation (0 for NaN). *)
Definition ipToBytes (Number : string -> Z) (ip : string) : list Z :=
  map (fun n => Js.band (Number n) 255) (split_dot ip).

(** [Number] for the concrete inputs below, which are strings of decimal
    digits (read in base ten) and words without digits (NaN, that is 0 under
    [&]); it is not meant for other numeric literals. *)
Fixpoint decimal_digits (s : string) (acc : Z) : option Z :=
  match s with
  | EmptyString => Some acc
  | String c rest =>
      let d := Z.of_nat (Ascii.nat_of_ascii c) - 48 in
      if (0 <=? d) && (d <=? 9) then decimal_digits rest (10 * acc + d)
      else None
  end.

Definition Number_decimal (s : string) : Z := default 0 (decimal_digits s 0).

(** ** Hexadecimal rendering *)

Definition hex_digit (d : Z) : ascii :=
  if d <? 10 then ascii_of_nat (Z.to_nat (48 + d))
  else ascii_of_nat (Z.to_nat (65 + (d - 10))).

(** [n.toString(16).toUpperCase()] for [0 <= n < 2^32] (at most eight
    digits). *)
Fixpoint toString16_go (fuel : nat) (n : Z) (acc : string) : string :=
  match fuel with
  | O => acc
  | S fuel' =>
      let acc' := String (hex_digit (n mod 16)) acc in
      if n / 16 =? 0 then acc' else toString16_go fuel' (n / 16) acc'
  end.

Definition toString16 (n : Z) : string := toString16_go 8 n EmptyString.

(** [s.padStart(w, '0')]. *)
Fixpoint zeros (k : nat) : string :=
  match k with
  | O => EmptyString
  | S k' => String "0"%char (zeros k')
  end.

Definition padStart0 (s : string) (w : nat) : string :=
  (zeros (w - String.length s) ++ s)%string.

(** [hex(n, w) = '0x' + (n>>>0).toString(16).toUpperCase().padStart(w,'0')];
    [n] may be [undefined]. *)
Definition hex (n : option Z) (w : nat) : string :=
  ("0x" ++ padStart0 (toString16 (Js.shr (default 0 n) 0)) w)%string.

(** A byte inside a template literal: its decimal digits, or the word
    [undefined]. *)
Definition show_byte (o : option Z) : string :=
  match o with
  | Some z => pretty z
  | None => "undefined"%string
  end.

(** ** IPv4 header *)

Module IPv4Header.

(** The argument object of the constructor, defaults filled in. *)
Record opts : Type := {
  o_src : string; o_dst : string; o_dscp : Z; o_ecn : Z;
  o_id : Z; o_df : bool; o_mf : bool; o_fragOffset : Z;
  o_ttl : Z; o_protocol : Z; o_optionsBytes : list Z
}.

Definition defaults : opts := {|
  o_src := "10.0.0.2"; o_dst := "104.18.32.47"; o_dscp := 0; o_ecn := 0;
  o_id := 0x1000; o_df := true; o_mf := false; o_fragOffset := 0;
  o_ttl := 64; o_protocol := 6; o_optionsBytes := []
|}.

Record t : Type := {
  version : Z; ihl : Z; dscp : Z; ecn : Z; totalLength : Z;
  id : Z; df : bool; mf : bool; fragOffset : Z;
  ttl : Z; protocol : Z; headerChecksum : Z;
  src : string; dst : string; optionsBytes : list Z
}.

(** [constructor]. *)
Definition new (o : opts) : t := {|
  version := 4;
  ihl := 5 + Js.ceil_div4 (Z.of_nat (length (o_optionsBytes o)));
  dscp := Js.band (o_dscp o) 0x3F;
  ecn := Js.band (o_ecn o) 0x03;
  totalLength := 0;
  id := Js.band (o_id o) 0xFFFF;
  df := o_df o; mf := o_mf o;
  fragOffset := Js.band (o_fragOffset o) 0x1FFF;
  ttl := Js.band (o_ttl o) 0xFF;
  protocol := Js.band (o_protocol o) 0xFF;
  headerChecksum := 0;
  src := o_src o; dst := o_dst o;
  optionsBytes := o_optionsBytes o
|}.

Section Pack.
Variable Number : string -> Z.

(** The header as [pack] has it just before the checksum is computed:
    every field written, bytes 10 and 11 still zero. *)
Definition pack_unsummed (h : t) (payload : list Z) : Js.result (list Z) :=
  let hdrLen := ihl h * 4 in
  do b <- Js.new_Uint8Array hdrLen;
  let b := Js.store b 0 (Js.bor (Js.shl 4 4) (Js.band (ihl h) 0x0F)) in
  let b := Js.store b 1 (Js.bor (Js.shl (dscp h) 2) (ecn h)) in
  let total := hdrLen + Z.of_nat (length payload) in
  let b := Js.store b 2 (Js.band (Js.sar total 8) 0xFF) in
  let b := Js.store b 3 (Js.band total 0xFF) in
  let b := Js.store b 4 (Js.band (Js.sar (id h) 8) 0xFF) in
  let b := Js.store b 5 (Js.band (id h) 0xFF) in
  let flags :=
    Js.band (Js.bor (Js.bor (Js.shl 0 2) (Js.shl (Js.bit (df h)) 1))
                    (Js.bit (mf h))) 0x7 in
  let fragField := Js.band (Js.bor (Js.shl flags 13) (fragOffset h)) 0xFFFF in
  let b := Js.store b 6 (Js.band (Js.sar fragField 8) 0xFF) in
  let b := Js.store b 7 (Js.band fragField 0xFF) in
  let b := Js.store b 8 (ttl h) in
  let b := Js.store b 9 (protocol h) in
  let b := Js.store b 10 0 in
  let b := Js.store b 11 0 in
  let s := ipToBytes Number (src h) in
  let d := ipToBytes Number (dst h) in
  let b := Js.store_opt b 12 (s !! 0%nat) in
  let b := Js.store_opt b 13 (s !! 1%nat) in
  let b := Js.store_opt b 14 (s !! 2%nat) in
  let b := Js.store_opt b 15 (s !! 3%nat) in
  let b := Js.store_opt b 16 (d !! 0%nat) in
  let b := Js.store_opt b 17 (d !! 1%nat) in
  let b := Js.store_opt b 18 (d !! 2%nat) in
  let b := Js.store_opt b 19 (d !! 3%nat) in
  if (5 <? ihl h) && negb (length (optionsBytes h) =? 0)%nat
  then Js.set_at b (optionsBytes h) 20
  else Js.Ok b.

(** [pack(payload)]. *)
Definition pack (h : t) (payload : list Z) : Js.result (list Z) :=
  do b <- pack_unsummed h payload;
  let sum := ipChecksum b in
  let b := Js.store b 10 (Js.band (Js.sar sum 8) 0xFF) in
  let b := Js.store b 11 (Js.band sum 0xFF) in
  Js.Ok b.
End Pack.

Module Parsed.
Record t : Type := {
  ver : Z; ihl : Z; dscp : Z; ecn : Z; totalLength : Z; id : Z;
  df : bool; mf : bool; fragOffset : Z;
  ttl : option Z; proto : option Z; src : string; dst : string
}.
End Parsed.

Definition dotted (b : list Z) (i : nat) : string :=
  (show_byte (b !! i) ++ "." ++ show_byte (b !! (i + 1)%nat) ++ "."
   ++ show_byte (b !! (i + 2)%nat) ++ "." ++ show_byte (b !! (i + 3)%nat))%string.

(** [static parse(b)]. *)
Definition parse (b : list Z) : Parsed.t :=
  let flagsFrag := Js.bor (Js.shl (Js.at0 b 6) 8) (Js.at0 b 7) in
  {|
    Parsed.ver := Js.sar (Js.at0 b 0) 4;
    Parsed.ihl := Js.band (Js.at0 b 0) 0x0F;
    Parsed.dscp := Js.sar (Js.at0 b 1) 2;
    Parsed.ecn := Js.band (Js.at0 b 1) 0x03;
    Parsed.totalLength := Js.bor (Js.shl (Js.at0 b 2) 8) (Js.at0 b 3);
    Parsed.id := Js.bor (Js.shl (Js.at0 b 4) 8) (Js.at0 b 5);
    Parsed.df := negb (Js.band (Js.sar flagsFrag 14) 1 =? 0);
    Parsed.mf := negb (Js.band (Js.sar flagsFrag 13) 1 =? 0);
    Parsed.fragOffset := Js.band flagsFrag 0x1FFF;
    Parsed.ttl := b !! 8%nat;
    Parsed.proto := b !! 9%nat;
    Parsed.src := dotted b 12;
    Parsed.dst := dotted b 16
  |}.

End IPv4Header.

(** ** TCP header *)

Module Flags.
(** The flag object; each field is the truth value the code tests with
    [f.x ? 1 : 0] (an absent field is false). *)
Record t : Type := {
  ns : bool; cwr : bool; ecn : bool; urg : bool; ack : bool;
  psh : bool; rst : bool; syn : bool; fin : bool
}.

Definition defaults : t := {|
  ns := false; cwr := false; ecn := false; urg := false; ack := true;
  psh := true; rst := false; syn := false; fin := false
|}.

Definition with_ns_cwr (f : t) (n c : bool) : t := {|
  ns := n; cwr := c; ecn := ecn f; urg := urg f; ack := ack f;
  psh := psh f; rst := rst f; syn := syn f; fin := fin f
|}.
End Flags.

Module TCPHeader.

Record opts : Type := {
  o_srcPort : Z; o_dstPort : Z; o_seq : Z; o_ack : Z;
  o_dataOffsetWords : Z; o_flags : Flags.t;
  o_windowSize : Z; o_urgentPtr : Z; o_optionsBytes : list Z
}.

Definition defaults : opts := {|
  o_srcPort := 53000; o_dstPort := 443; o_seq := 1; o_ack := 1;
  o_dataOffsetWords := 5; o_flags := Flags.defaults;
  o_windowSize := 65535; o_urgentPtr := 0; o_optionsBytes := []
|}.

Record t : Type := {
  srcPort : Z; dstPort : Z; seq : Z; ack : Z;
  dataOffsetWords : Z; flags : Flags.t;
  windowSize : Z; checksum : Z; urgentPtr : Z; optionsBytes : list Z
}.

(** [constructor]. *)
Definition new (o : opts) : t := {|
  srcPort := o_srcPort o; dstPort := o_dstPort o;
  seq := Js.shr (o_seq o) 0; ack := Js.shr (o_ack o) 0;
  dataOffsetWords :=
    o_dataOffsetWords o + Js.ceil_div4 (Z.of_nat (length (o_optionsBytes o)));
  flags := o_flags o;
  windowSize := Js.band (o_windowSize o) 0xFFFF;
  checksum := 0;
  urgentPtr := Js.band (o_urgentPtr o) 0xFFFF;
  optionsBytes := o_optionsBytes o
|}.

(** The value stored in [b[13]]. *)
Definition flags_byte (f : Flags.t) : Z :=
  Js.bor (Js.bor (Js.bor (Js.bor (Js.bor (Js.bor (Js.bor (Js.bor
    (Js.shl (Js.bit (Flags.ns f)) 7)
    (Js.shl (Js.bit (Flags.cwr f)) 7))
    (Js.shl (Js.bit (Flags.ecn f)) 6))
    (Js.shl (Js.bit (Flags.urg f)) 5))
    (Js.shl (Js.bit (Flags.ack f)) 4))
    (Js.shl (Js.bit (Flags.psh f)) 3))
    (Js.shl (Js.bit (Flags.rst f)) 2))
    (Js.shl (Js.bit (Flags.syn f)) 1))
    (Js.shl (Js.bit (Flags.fin f)) 0).

(** [for (let i=0;i<4;i++) b[off+i] = (x >>> (24-8*i)) & 0xFF]. *)
Definition store_be32 (b : list Z) (off : nat) (x : Z) : list Z :=
  foldl (fun b i =>
           Js.store b (off + i) (Js.band (Js.shr x (24 - 8 * Z.of_nat i)) 0xFF))
        b [0; 1; 2; 3]%nat.

(** [pack(payload)]. *)
Definition pack (h : t) (payload : list Z) : Js.result (list Z) :=
  let hdrBytes := dataOffsetWords h * 4 in
  do b <- Js.new_Uint8Array hdrBytes;
  let b := Js.store b 0 (Js.band (Js.sar (srcPort h) 8) 0xFF) in
  let b := Js.store b 1 (Js.band (srcPort h) 0xFF) in
  let b := Js.store b 2 (Js.band (Js.sar (dstPort h) 8) 0xFF) in
  let b := Js.store b 3 (Js.band (dstPort h) 0xFF) in
  let b := store_be32 b 4 (seq h) in
  let b := store_be32 b 8 (ack h) in
  let b := Js.store b 12 (Js.band (Js.shl (dataOffsetWords h) 4) 0xF0) in
  let b := Js.store b 13 (flags_byte (flags h)) in
  let b := Js.store b 14 (Js.band (Js.sar (windowSize h) 8) 0xFF) in
  let b := Js.store b 15 (Js.band (windowSize h) 0xFF) in
  let b := Js.store b 16 0 in
  let b := Js.store b 17 0 in
  let b := Js.store b 18 (Js.band (Js.sar (urgentPtr h) 8) 0xFF) in
  let b := Js.store b 19 (Js.band (urgentPtr h) 0xFF) in
  if (5 <? dataOffsetWords h) && negb (length (optionsBytes h) =? 0)%nat
  then Js.set_at b (optionsBytes h) 20
  else Js.Ok b.

Module Parsed.
Record t : Type := {
  srcPort : Z; dstPort : Z; dataOffsetBytes : Z;
  flagsHex : string; windowSize : Z
}.
End Parsed.

(** [static parse(b)]. *)
Definition parse (b : list Z) : Parsed.t :=
  let dataOffsetWords := Js.band (Js.sar (Js.at0 b 12) 4) 0x0F in
  let flags := b !! 13%nat in
  {|
    Parsed.srcPort := Js.bor (Js.shl (Js.at0 b 0) 8) (Js.at0 b 1);
    Parsed.dstPort := Js.bor (Js.shl (Js.at0 b 2) 8) (Js.at0 b 3);
    Parsed.dataOffsetBytes := dataOffsetWords * 4;
    Parsed.flagsHex := hex flags 2;
    Parsed.windowSize := Js.bor (Js.shl (Js.at0 b 14) 8) (Js.at0 b 15)
  |}.

End TCPHeader.

(** ** The simulated link *)

Module NetworkLink.

Definition ACCEPTED_MEDIA : list string :=
  ["twisted-pair"; "fiber"; "coax"; "wireless"; "arcnet"; "token-ring";
   "localtalk"]%string.

(** [array.includes(s)] on an array of strings. *)
Definition includes (l : list string) (s : string) : bool :=
  existsb (String.eqb s) l.

Record media : Type := { v : Q; legacyGbps : option Q }.

(** [this.mediaDB]: propagation speed in m/s and, for the historical
    media, a default rate. *)
Definition mediaDB : list (string * media) :=
  [ ("twisted-pair", {| v := 200000000; legacyGbps := None |});
    ("fiber",        {| v := 205000000; legacyGbps := None |});
    ("coax",         {| v := 200000000; legacyGbps := None |});
    ("wireless",     {| v := 300000000; legacyGbps := None |});
    ("arcnet",       {| v := 200000000; legacyGbps := Some (10 # 1000) |});
    ("token-ring",   {| v := 200000000; legacyGbps := Some (16 # 1000) |});
    ("localtalk",    {| v := 200000000; legacyGbps := Some (29 # 10000) |})
  ]%string.

(** [this.mediaDB[m]]. *)
Definition mediaDB_get (m : string) : option media :=
  match find (fun e => String.eqb (fst e) m) mediaDB with
  | Some e => Some (snd e)
  | None => None
  end.

(** [Math.max(a, b)]. *)
Definition Math_max (a b : Q) : Q := if Qle_bool a b then b else a.

(** [a < b]. *)
Definition Qlt_bool (a b : Q) : bool := negb (Qle_bool b a).

(** What the console receives. *)
Inductive log_entry : Type :=
| LogConnected
| WarnNoReceiver (len : nat)
| WarnDropped (len : nat)
| LogSend (len : nat) (txDelay : Q).

Section Link.
(** The type of receiver callbacks. *)
Variable R : Type.
(** The values that successive calls of [Math.random()] return. *)
Variable random : nat -> Q.

(** The argument of [connect]: a function or anything else. *)
Inductive value : Type :=
| Function (f : R)
| NotFunction.

(** The value of [this.rx]: the callback handed to the constructor, or
    the logging wrapper that [connect] builds around its receiver. *)
Inductive handler : Type :=
| Direct (f : R)
| Wrapped (f : R).

Definition receiver_of (h : handler) : R :=
  match h with Direct f => f | Wrapped f => f end.

Record t : Type := {
  name : string; medium : string; rateGbps : Q; distanceMeters : Q;
  fullDuplex : bool; baseLatencyMs : Q; jitterMs : Q; lossRate : Q;
  rx : option handler
}.

(** [constructor]: copies its options; a historical medium left at the
    default rate of 1 gets its legacy rate. *)
Definition new (o : t) : t :=
  let rate :=
    if includes ["arcnet"; "token-ring"; "localtalk"]%string (medium o)
       && Qeq_bool (rateGbps o) 1
    then default (1 # 100)
           (match mediaDB_get (medium o) with
            | Some e => legacyGbps e
            | None => None
            end)
    else rateGbps o in
  {| name := name o; medium := medium o; rateGbps := rate;
     distanceMeters := distanceMeters o; fullDuplex := fullDuplex o;
     baseLatencyMs := baseLatencyMs o; jitterMs := jitterMs o;
     lossRate := lossRate o; rx := rx o |}.

Definition set_rx (l : t) (h : handler) : t :=
  {| name := name l; medium := medium l; rateGbps := rateGbps l;
     distanceMeters := distanceMeters l; fullDuplex := fullDuplex l;
     baseLatencyMs := baseLatencyMs l; jitterMs := jitterMs l;
     lossRate := lossRate l; rx := Some h |}.

(** What lies outside the link object: how many random numbers were
    drawn, the console, and the pending timers (delay and frame). *)
Record world : Type := {
  rng_pos : nat;
  console : list log_entry;
  timers : list (Q * list Z)
}.

Definition Math_random (w : world) : Q * world :=
  (random (rng_pos w),
   {| rng_pos := S (rng_pos w); console := console w; timers := timers w |}).

Definition console_put (e : log_entry) (w : world) : world :=
  {| rng_pos := rng_pos w; console := console w ++ [e]; timers := timers w |}.

Definition setTimeout (frame : list Z) (delay : Q) (w : world) : world :=
  {| rng_pos := rng_pos w; console := console w;
     timers := timers w ++ [(delay, frame)] |}.

(** [connect(receiver)]. *)
Definition connect (l : t) (receiver : value) (w : world)
    : Js.result (t * world) :=
  match receiver with
  | NotFunction => Js.Throw Js.TypeError
  | Function f =>
      if String.eqb (medium l) EmptyString then Js.Throw Js.Error
      else if negb (includes ACCEPTED_MEDIA (medium l)) then Js.Throw Js.Error
      else if Qle_bool (rateGbps l) 0 then Js.Throw Js.Error
      else Js.Ok (set_rx l (Wrapped f), console_put LogConnected w)
  end.

(** The delay that [send] computes once the frame has survived the loss
    draw, with the world after the draws. *)
Definition txDelay (l : t) (frameBytes : list Z) (w : world) : Q * world :=
  let lenBytes := inject_Z (Z.of_nat (length frameBytes)) in
  let bits := (lenBytes * 8)%Q in
  let bitratebps := (rateGbps l * 1000000000)%Q in
  let tSerializationMs := ((bits / bitratebps) * 1000)%Q in
  let v :=
    match mediaDB_get (medium l) with
    | Some e => v e
    | None => 200000000%Q
    end in
  let tPropagationMs := ((distanceMeters l / v) * 1000)%Q in
  let (u, w) := Math_random w in
  let jitter := ((u * 2 * jitterMs l) - jitterMs l)%Q in
  let totalDelayMs :=
    Math_max 0
      (baseLatencyMs l + tSerializationMs + tPropagationMs + jitter)%Q in
  let (duplexPenaltyMs, w) :=
    if negb (fullDuplex l)
    then let (u, w) := Math_random w in ((u * (2 # 10))%Q, w)
    else (0%Q, w) in
  ((totalDelayMs + duplexPenaltyMs)%Q, w).

(** [send(frameBytes)]. *)
Definition send (l : t) (frameBytes : list Z) (w : world)
    : Js.result world :=
  match rx l with
  | None => Js.Ok (console_put (WarnNoReceiver (length frameBytes)) w)
  | Some _ =>
      let (u, w) := Math_random w in
      if Qlt_bool u (lossRate l)
      then Js.Ok (console_put (WarnDropped (length frameBytes)) w)
      else
        let (d, w) := txDelay l frameBytes w in
        let w := console_put (LogSend (length frameBytes) d) w in
        Js.Ok (setTimeout frameBytes d w)
  end.

(** A timer of [send] firing: [this.rx && this.rx(frameBytes)]; the
    receiver that is called and the bytes it is called with. *)
Definition fire (l : t) (tm : Q * list Z) : option (R * list Z) :=
  match rx l with
  | Some h => Some (receiver_of h, snd tm)
  | None => None
  end.
End Link.

Arguments Function {R} f.
Arguments NotFunction {R}.
Arguments Direct {R} f.
Arguments Wrapped {R} f.
Arguments receiver_of {R} h.
Arguments name {R} t.
Arguments medium {R} t.
Arguments rateGbps {R} t.
Arguments distanceMeters {R} t.
Arguments fullDuplex {R} t.
Arguments baseLatencyMs {R} t.
Arguments jitterMs {R} t.
Arguments lossRate {R} t.
Arguments rx {R} t.
Arguments new {R} o.
Arguments set_rx {R} l h.
Arguments connect {R} l receiver w.
Arguments txDelay {R} random l frameBytes w.
Arguments send {R} random l frameBytes w.
Arguments fire {R} l tm.

End NetworkLink.

(** ** Endpoints *)

(** [pat] occurs in [l] as a run of consecutive bytes. *)
Fixpoint starts_with (pat l : list Z) : bool :=
  match pat, l with
  | [], _ => true
  | p :: ps, x :: xs => (p =? x) && starts_with ps xs
  | _ :: _, [] => false
  end.

Fixpoint includes_bytes (pat l : list Z) : bool :=
  starts_with pat l ||
  match l with
  | [] => false
  | _ :: xs => includes_bytes pat xs
  end.

(** [safeDecode(all).includes('\r\n\r\n')]: the decoder maps every ASCII byte
    to itself and nothing else to an ASCII character, so the test is a search
    for the four bytes CR LF CR LF. *)
Definition has_blank_line (all : list Z) : bool :=
  includes_bytes [13; 10; 13; 10] all.

Module Server.

Record t : Type := {
  ip : string; port : Z;
  reassembly : list (list Z)
}.

(** [onFrame(bytes)]: the server afterwards and, when the accumulated text
    holds a blank line, the address and port the response goes to. The
    console output is left out. *)
Definition onFrame (s : t) (bytes : list Z)
    : Js.result (t * option (string * Z)) :=
  let ip := IPv4Header.parse bytes in
  let ipHdrLen := IPv4Header.Parsed.ihl ip * 4 in
  let tcpBytes := Js.slice_from bytes (Z.to_nat ipHdrLen) in
  let tcp := TCPHeader.parse tcpBytes in
  let payload :=
    Js.slice_from tcpBytes (Z.to_nat (TCPHeader.Parsed.dataOffsetBytes tcp)) in
  let s := {| ip := Server.ip s; port := port s;
              reassembly := reassembly s ++ [payload] |} in
  do all <- concat (reassembly s);
  if has_blank_line all
  then Js.Ok (s, Some (IPv4Header.Parsed.src ip, TCPHeader.Parsed.srcPort tcp))
  else Js.Ok (s, None).

(** The frames of [arrivals] handed to [onFrame] one after the other. *)
Fixpoint onFrames (s : t) (arrivals : list (list Z)) : Js.result t :=
  match arrivals with
  | [] => Js.Ok s
  | f :: rest =>
      do r <- onFrame s f;
      onFrames (fst r) rest
  end.

End Server.

Module Client.

Record t : Type := { ip : string; port : Z }.

Section Send.
Variable Number : string -> Z.

(** The body of [segments.forEach((pl, i) => ..)] up to the frame. *)
Definition frame (c : t) (dstHostIp : string) (dstPort : Z)
    (nsegments i : nat) (pl : list Z) : Js.result (list Z) :=
  do tcpHdr <-
    TCPHeader.pack
      (TCPHeader.new {|
         TCPHeader.o_srcPort := port c; TCPHeader.o_dstPort := dstPort;
         TCPHeader.o_seq := 20000; TCPHeader.o_ack := 10000;
         TCPHeader.o_dataOffsetWords := 5;
         TCPHeader.o_flags := {|
           Flags.ns := false; Flags.cwr := false; Flags.ecn := false;
           Flags.urg := false; Flags.ack := true; Flags.psh := true;
           Flags.rst := false; Flags.syn := false;
           Flags.fin := (i =? nsegments - 1)%nat |};
         TCPHeader.o_windowSize := 65535; TCPHeader.o_urgentPtr := 0;
         TCPHeader.o_optionsBytes := [] |}) pl;
  do tcpPacket <- cat tcpHdr pl;
  do ipHdr <-
    IPv4Header.pack Number
      (IPv4Header.new {|
         IPv4Header.o_src := ip c; IPv4Header.o_dst := dstHostIp;
         IPv4Header.o_dscp := 0; IPv4Header.o_ecn := 0;
         IPv4Header.o_id := 0xA000 + Z.of_nat i;
         IPv4Header.o_df := true; IPv4Header.o_mf := false;
         IPv4Header.o_fragOffset := 0;
         IPv4Header.o_ttl := 64; IPv4Header.o_protocol := 6;
         IPv4Header.o_optionsBytes := [] |}) tcpPacket;
  cat ipHdr tcpPacket.

Fixpoint frames_from (c : t) (dstHostIp : string) (dstPort : Z)
    (nsegments i : nat) (segments : list (list Z))
    : Js.result (list (list Z)) :=
  match segments with
  | [] => Js.Ok []
  | pl :: rest =>
      do f <- frame c dstHostIp dstPort nsegments i pl;
      do fs <- frames_from c dstHostIp dstPort nsegments (S i) rest;
      Js.Ok (f :: fs)
  end.

(** [send(devtoolsH2, dstHostIp, dstPort)] from the bytes of the request
    text on: the frames in the order they are handed to the link (frame
    [i] through a timer of [i] ms). [None]: [segment] did not return. *)
Definition send (c : t) (bytes : list Z) (dstHostIp : string) (dstPort : Z)
    : option (Js.result (list (list Z))) :=
  let mss := 600%nat in
  match segment bytes mss with
  | None => None
  | Some segments =>
      Some (frames_from c dstHostIp dstPort (length segments) 0 segments)
  end.
End Send.

End Client.

(** ** Definitions used in the statements *)

(** The value in [0, 65535] that a non-negative total folds to. *)
Definition fold_norm (t : Z) : Z :=
  if t =? 0 then 0 else (t - 1) mod 65535 + 1.

(** Bytes 10-11 of a header, big-endian. *)
Definition checksum_field (b : list Z) : Z := Js.at0 b 10 * 256 + Js.at0 b 11.

(** The header with its checksum field zeroed ([b[10] = 0; b[11] = 0]). *)
Definition zero_checksum (b : list Z) : list Z :=
  Js.store (Js.store b 10 0) 11 0.

(** A field set with 44 option bytes: eleven words of options. *)
Definition opts_44_options : IPv4Header.opts := {|
  IPv4Header.o_src := "10.0.0.2"; IPv4Header.o_dst := "104.18.32.47";
  IPv4Header.o_dscp := 0; IPv4Header.o_ecn := 0;
  IPv4Header.o_id := 0x1000; IPv4Header.o_df := true; IPv4Header.o_mf := false;
  IPv4Header.o_fragOffset := 0; IPv4Header.o_ttl := 64; IPv4Header.o_protocol := 6;
  IPv4Header.o_optionsBytes := replicate 44 1
|}.

(** A field set whose source address is no dotted quad. *)
Definition opts_bad_address : IPv4Header.opts := {|
  IPv4Header.o_src := "not.an.address"; IPv4Header.o_dst := "104.18.32.47";
  IPv4Header.o_dscp := 0; IPv4Header.o_ecn := 0;
  IPv4Header.o_id := 0x1000; IPv4Header.o_df := true; IPv4Header.o_mf := false;
  IPv4Header.o_fragOffset := 0; IPv4Header.o_ttl := 64; IPv4Header.o_protocol := 6;
  IPv4Header.o_optionsBytes := []
|}.

(** A field set with its flags, its sequence and acknowledgment numbers, or
    its source port replaced. *)
Definition set_flags (o : TCPHeader.opts) (f : Flags.t) : TCPHeader.opts := {|
  TCPHeader.o_srcPort := TCPHeader.o_srcPort o;
  TCPHeader.o_dstPort := TCPHeader.o_dstPort o;
  TCPHeader.o_seq := TCPHeader.o_seq o; TCPHeader.o_ack := TCPHeader.o_ack o;
  TCPHeader.o_dataOffsetWords := TCPHeader.o_dataOffsetWords o;
  TCPHeader.o_flags := f;
  TCPHeader.o_windowSize := TCPHeader.o_windowSize o;
  TCPHeader.o_urgentPtr := TCPHeader.o_urgentPtr o;
  TCPHeader.o_optionsBytes := TCPHeader.o_optionsBytes o
|}.

Definition set_seq_ack (o : TCPHeader.opts) (s a : Z) : TCPHeader.opts := {|
  TCPHeader.o_srcPort := TCPHeader.o_srcPort o;
  TCPHeader.o_dstPort := TCPHeader.o_dstPort o;
  TCPHeader.o_seq := s; TCPHeader.o_ack := a;
  TCPHeader.o_dataOffsetWords := TCPHeader.o_dataOffsetWords o;
  TCPHeader.o_flags := TCPHeader.o_flags o;
  TCPHeader.o_windowSize := TCPHeader.o_windowSize o;
  TCPHeader.o_urgentPtr := TCPHeader.o_urgentPtr o;
  TCPHeader.o_optionsBytes := TCPHeader.o_optionsBytes o
|}.

Definition set_srcPort (o : TCPHeader.opts) (p : Z) : TCPHeader.opts := {|
  TCPHeader.o_srcPort := p;
  TCPHeader.o_dstPort := TCPHeader.o_dstPort o;
  TCPHeader.o_seq := TCPHeader.o_seq o; TCPHeader.o_ack := TCPHeader.o_ack o;
  TCPHeader.o_dataOffsetWords := TCPHeader.o_dataOffsetWords o;
  TCPHeader.o_flags := TCPHeader.o_flags o;
  TCPHeader.o_windowSize := TCPHeader.o_windowSize o;
  TCPHeader.o_urgentPtr := TCPHeader.o_urgentPtr o;
  TCPHeader.o_optionsBytes := TCPHeader.o_optionsBytes o
|}.

(** Four bytes from [off] on, read big-endian. *)
Definition be32 (b : list Z) (off : nat) : Z :=
  Js.at0 b off * 2 ^ 24 + Js.at0 b (off + 1) * 2 ^ 16
  + Js.at0 b (off + 2) * 2 ^ 8 + Js.at0 b (off + 3).

(** The flags byte by bit weights, NS and CWR sharing the top bit. *)
Definition flags_value (f : Flags.t) : Z :=
  128 * Js.bit (Flags.ns f || Flags.cwr f) + 64 * Js.bit (Flags.ecn f)
  + 32 * Js.bit (Flags.urg f) + 16 * Js.bit (Flags.ack f)
  + 8 * Js.bit (Flags.psh f) + 4 * Js.bit (Flags.rst f)
  + 2 * Js.bit (Flags.syn f) + Js.bit (Flags.fin f).

(** Reading back the text that [hex] produces: the value of the hexadecimal
    digits after the two characters [0x]. *)
Definition hex_digit_value (c : ascii) : Z :=
  let n := Z.of_nat (nat_of_ascii c) in
  if n <? 58 then n - 48 else n - 55.

Fixpoint hex_digits_value (s : string) (acc : Z) : Z :=
  match s with
  | EmptyString => acc
  | String c rest => hex_digits_value rest (16 * acc + hex_digit_value c)
  end.

Definition hex_value (s : string) : Z :=
  match s with
  | String _ (String _ digits) => hex_digits_value digits 0
  | _ => 0
  end.

(** The server after [payload] was pushed on its reassembly buffer. *)
Definition pushed (s : Server.t) (payload : list Z) : Server.t :=
  {| Server.ip := Server.ip s; Server.port := Server.port s;
     Server.reassembly := Server.reassembly s ++ [payload] |}.

(** [onFrame] takes the payload [pl] out of the frame [f]. *)
Definition carries (f pl : list Z) : Prop :=
  forall s : Server.t, Forall bytes_ok (Server.reassembly s) ->
    exists r, Server.onFrame s f = Js.Ok (pushed s pl, r).

(** The client and the server of the demonstration in [main]. *)
Definition demo_client : Client.t :=
  {| Client.ip := "10.0.0.2"; Client.port := 53000 |}.

Definition demo_server : Server.t :=
  {| Server.ip := "104.18.32.47"; Server.port := 443; Server.reassembly := [] |}.
(** A message of 601 bytes: 600 times [A], then [B]. *)
Definition msg_601 : list Z := replicate 600 65 ++ [66].

(** A message of 1500 bytes, three segments at 600 bytes each: 600 times
    [A], 600 times [B], 300 times [C]. *)
Definition msg_1500 : list Z := replicate 600 65 ++ replicate 600 66 ++ replicate 300 67.

Module LinkSpec.
(** The delay terms as the specification names them, in milliseconds. *)
Definition velocity (m : string) : Q :=
  match NetworkLink.mediaDB_get m with
  | Some e => NetworkLink.v e
  | None => 200000000
  end.

Definition serializationDelay {R} (l : NetworkLink.t R) (frame : list Z) : Q :=
  (inject_Z (Z.of_nat (length frame)) * 8
   / (NetworkLink.rateGbps l * 1000000000) * 1000)%Q.

Definition propagationDelay {R} (l : NetworkLink.t R) : Q :=
  (NetworkLink.distanceMeters l / velocity (NetworkLink.medium l) * 1000)%Q.

Definition jitter {R} (l : NetworkLink.t R) (u : Q) : Q :=
  (u * 2 * NetworkLink.jitterMs l - NetworkLink.jitterMs l)%Q.

Definition duplexPenalty {R} (l : NetworkLink.t R) (u : Q) : Q :=
  if NetworkLink.fullDuplex l then 0%Q else (u * (2 # 10))%Q.

(** The number of random draws of a [send] that schedules its frame. *)
Definition draws {R} (l : NetworkLink.t R) : nat :=
  if NetworkLink.fullDuplex l then 2%nat else 3%nat.
End LinkSpec.

(** A link over the default medium at 1 Gbit/s with 1 ms of jitter and
    nothing else: no base latency, no distance, no loss, full duplex. *)
Definition jittery_link : NetworkLink.t unit := {|
  NetworkLink.name := "c->s"; NetworkLink.medium := "twisted-pair";
  NetworkLink.rateGbps := 1; NetworkLink.distanceMeters := 0;
  NetworkLink.fullDuplex := true; NetworkLink.baseLatencyMs := 0;
  NetworkLink.jitterMs := 1; NetworkLink.lossRate := 0;
  NetworkLink.rx := None
|}.

(** A link on a medium that is not supported, and a link with rate 0. *)
Definition pigeon_link : NetworkLink.t unit := {|
  NetworkLink.name := "x"; NetworkLink.medium := "carrier-pigeon";
  NetworkLink.rateGbps := 1; NetworkLink.distanceMeters := 10;
  NetworkLink.fullDuplex := true; NetworkLink.baseLatencyMs := 0;
  NetworkLink.jitterMs := 0; NetworkLink.lossRate := 0;
  NetworkLink.rx := None
|}.

Definition stalled_link : NetworkLink.t unit := {|
  NetworkLink.name := "x"; NetworkLink.medium := "fiber";
  NetworkLink.rateGbps := 0; NetworkLink.distanceMeters := 10;
  NetworkLink.fullDuplex := true; NetworkLink.baseLatencyMs := 0;
  NetworkLink.jitterMs := 0; NetworkLink.lossRate := 0;
  NetworkLink.rx := None
|}.

Definition empty_world : NetworkLink.world :=
  {| NetworkLink.rng_pos := 0; NetworkLink.console := []; NetworkLink.timers := [] |}.

(** [jittery_link] once connected. *)
Definition jittery_connected : NetworkLink.t unit :=
  NetworkLink.set_rx jittery_link (NetworkLink.Wrapped tt).

(** A connected link that loses every frame. *)
Definition lossy_connected : NetworkLink.t unit := {|
  NetworkLink.name := "c->s"; NetworkLink.medium := "twisted-pair";
  NetworkLink.rateGbps := 1; NetworkLink.distanceMeters := 10;
  NetworkLink.fullDuplex := true; NetworkLink.baseLatencyMs := 5 # 100;
  NetworkLink.jitterMs := 2 # 100; NetworkLink.lossRate := 1;
  NetworkLink.rx := Some (NetworkLink.Wrapped tt)
|}.

(** ** The link in double precision *)

(** [NetworkLink.send] once more, with its numbers as the IEEE 754 binary64
    values the source computes with: every [+], [-], [*], [/] and [<] below
    is the operation on doubles, in the order the source writes them.
    [NetworkLink] above has the same control flow over exact rationals. *)
Module DoubleLink.
Import Floats.PrimFloat.
#[local] Set Warnings "-inexact-float".
Local Open Scope float_scope.

(** [this.mediaDB]: the propagation speed of each medium in m/s. *)
Definition mediaDB : list (string * float) :=
  [ ("twisted-pair", 2.00e8); ("fiber", 2.05e8); ("coax", 2.00e8);
    ("wireless", 3.00e8); ("arcnet", 2.00e8); ("token-ring", 2.00e8);
    ("localtalk", 2.00e8) ]%string.

(** [(this.mediaDB[m]?.v) ?? 2.00e8]. *)
Definition velocity (m : string) : float :=
  match find (fun e => String.eqb (fst e) m) mediaDB with
  | Some e => snd e
  | None => 2.00e8
  end.

(** The length of an array as a number: exact, a length being an integer
    below 2^53. *)
Definition Number_of_length (n : nat) : float :=
  of_uint63 (Uint63.of_Z (Z.of_nat n)).

(** [Math.max(a, b)]: NaN when an argument is NaN, the larger argument
    otherwise, and +0 rather than -0 when both are zero. *)
Definition Math_max (a b : float) : float :=
  if is_nan a || is_nan b then nan
  else if a <? b then b
  else if b <? a then a
  else if a =? 0 then a + b
  else a.

(** What the console receives. *)
Inductive log_entry : Type :=
| WarnNoReceiver (len : nat)
| WarnDropped (len : nat)
| LogSend (len : nat) (txDelay : float).

Section Link.
(** The type of receiver callbacks. *)
Variable R : Type.
(** The values that successive calls of [Math.random()] return. *)
Variable random : nat -> float.

(** The fields of a link that [send] reads, as the constructor or
    [connect] left them. *)
Record t : Type := {
  name : string; medium : string; rateGbps : float; distanceMeters : float;
  fullDuplex : bool; baseLatencyMs : float; jitterMs : float; lossRate : float;
  rx : option R
}.

(** How many random numbers were drawn, the console, and the pending
    timers (delay and frame). *)
Record world : Type := {
  rng_pos : nat;
  console : list log_entry;
  timers : list (float * list Z)
}.

Definition Math_random (w : world) : float * world :=
  (random (rng_pos w),
   {| rng_pos := S (rng_pos w); console := console w; timers := timers w |}).

Definition console_put (e : log_entry) (w : world) : world :=
  {| rng_pos := rng_pos w; console := console w ++ [e]; timers := timers w |}.

Definition setTimeout (frame : list Z) (delay : float) (w : world) : world :=
  {| rng_pos := rng_pos w; console := console w;
     timers := timers w ++ [(delay, frame)] |}.

(** The delay that [send] computes once the frame has survived the loss
    draw, with the world after the draws. *)
Definition txDelay (l : t) (frameBytes : list Z) (w : world) : float * world :=
  let lenBytes := Number_of_length (length frameBytes) in
  let bits := lenBytes * 8 in
  let bitratebps := rateGbps l * 1e9 in
  let tSerializationMs := (bits / bitratebps) * 1000 in
  let v := velocity (medium l) in
  let tPropagationMs := (distanceMeters l / v) * 1000 in
  let (u, w) := Math_random w in
  let jitter := (u * 2 * jitterMs l) - jitterMs l in
  let totalDelayMs :=
    Math_max 0 (baseLatencyMs l + tSerializationMs + tPropagationMs + jitter) in
  let (duplexPenaltyMs, w) :=
    if negb (fullDuplex l)
    then let (u, w) := Math_random w in (u * 0.2, w)
    else (0, w) in
  (totalDelayMs + duplexPenaltyMs, w).

(** [send(frameBytes)]. *)
Definition send (l : t) (frameBytes : list Z) (w : world) : Js.result world :=
  match rx l with
  | None => Js.Ok (console_put (WarnNoReceiver (length frameBytes)) w)
  | Some _ =>
      let (u, w) := Math_random w in
      if u <? lossRate l
      then Js.Ok (console_put (WarnDropped (length frameBytes)) w)
      else
        let (d, w) := txDelay l frameBytes w in
        let w := console_put (LogSend (length frameBytes) d) w in
        Js.Ok (setTimeout frameBytes d w)
  end.
End Link.

Arguments name {R} t.
Arguments medium {R} t.
Arguments rateGbps {R} t.
Arguments distanceMeters {R} t.
Arguments fullDuplex {R} t.
Arguments baseLatencyMs {R} t.
Arguments jitterMs {R} t.
Arguments lossRate {R} t.
Arguments rx {R} t.
Arguments txDelay {R} random l frameBytes w.
Arguments send {R} random l frameBytes w.

(** The delay terms as the specification names them, in milliseconds and
    in double precision. *)
Definition serializationDelay {R} (l : t R) (frame : list Z) : float :=
  Number_of_length (length frame) * 8 / (rateGbps l * 1e9) * 1000.

Definition propagationDelay {R} (l : t R) : float :=
  distanceMeters l / velocity (medium l) * 1000.

Definition jitter {R} (l : t R) (u : float) : float :=
  u * 2 * jitterMs l - jitterMs l.

Definition duplexPenalty {R} (l : t R) (u : float) : float :=
  if fullDuplex l then 0 else u * 0.2.

Definition empty_world : world :=
  {| rng_pos := 0; console := []; timers := [] |}.



(** A full-duplex link with 1 ms of jitter and no other delay than the
    serialization, with a receiver. *)
Definition jittery_link : t unit := {|
  name := "c->s"; medium := "twisted-pair"; rateGbps := 1; distanceMeters := 0;
  fullDuplex := true; baseLatencyMs := 0; jitterMs := 1;
  lossRate := 0; rx := Some tt
|}.

End DoubleLink.

(** The twenty fixed bytes that [IPv4Header.pack] writes, before the
    conversion of each to a byte, with [ck] in the checksum field. *)
Definition ipv4_fixed (Number : string -> Z) (h : IPv4Header.t)
    (payload : list Z) (ck : Z) : list Z :=
  let total := IPv4Header.ihl h * 4 + Z.of_nat (length payload) in
  let flags :=
    Js.band (Js.bor (Js.bor (Js.shl 0 2) (Js.shl (Js.bit (IPv4Header.df h)) 1))
                    (Js.bit (IPv4Header.mf h))) 0x7 in
  let fragField :=
    Js.band (Js.bor (Js.shl flags 13) (IPv4Header.fragOffset h)) 0xFFFF in
  let s := ipToBytes Number (IPv4Header.src h) in
  let d := ipToBytes Number (IPv4Header.dst h) in
  [ Js.bor (Js.shl 4 4) (Js.band (IPv4Header.ihl h) 0x0F);
    Js.bor (Js.shl (IPv4Header.dscp h) 2) (IPv4Header.ecn h);
    Js.band (Js.sar total 8) 0xFF; Js.band total 0xFF;
    Js.band (Js.sar (IPv4Header.id h) 8) 0xFF; Js.band (IPv4Header.id h) 0xFF;
    Js.band (Js.sar fragField 8) 0xFF; Js.band fragField 0xFF;
    IPv4Header.ttl h; IPv4Header.protocol h;
    Js.band (Js.sar ck 8) 0xFF; Js.band ck 0xFF;
    default 0 (s !! 0%nat); default 0 (s !! 1%nat);
    default 0 (s !! 2%nat); default 0 (s !! 3%nat);
    default 0 (d !! 0%nat); default 0 (d !! 1%nat);
    default 0 (d !! 2%nat); default 0 (d !! 3%nat) ].

(** The option bytes as they lie in a header, padded with zeros to whole
    words. *)
Definition padded_options (opts : list Z) : list Z :=
  map Js.to_uint8 opts
  ++ replicate (Z.to_nat (4 * Js.ceil_div4 (Z.of_nat (length opts))) - length opts) 0.

(** The four address bytes that [pack] writes for the address text [ip]:
    the low byte of each of the first four components, 0 for a missing one. *)
Definition address_bytes (Number : string -> Z) (ip : string) : list Z :=
  map (fun i => Js.to_uint8 (default 0 (ipToBytes Number ip !! i))) [0; 1; 2; 3]%nat.

(** A field set with its source address replaced. *)
Definition set_src (o : IPv4Header.opts) (ip : string) : IPv4Header.opts := {|
  IPv4Header.o_src := ip; IPv4Header.o_dst := IPv4Header.o_dst o;
  IPv4Header.o_dscp := IPv4Header.o_dscp o; IPv4Header.o_ecn := IPv4Header.o_ecn o;
  IPv4Header.o_id := IPv4Header.o_id o; IPv4Header.o_df := IPv4Header.o_df o;
  IPv4Header.o_mf := IPv4Header.o_mf o;
  IPv4Header.o_fragOffset := IPv4Header.o_fragOffset o;
  IPv4Header.o_ttl := IPv4Header.o_ttl o;
  IPv4Header.o_protocol := IPv4Header.o_protocol o;
  IPv4Header.o_optionsBytes := IPv4Header.o_optionsBytes o
|}.

(** The text [a.b.c.d] of four numbers. *)
Definition dotted_quad (a b c d : Z) : string :=
  (pretty a ++ "." ++ pretty b ++ "." ++ pretty c ++ "." ++ pretty d)%string.

(** [s] holds no dot. *)
Fixpoint no_dot (s : string) : bool :=
  match s with
  | EmptyString => true
  | String c rest => negb (Ascii.eqb c "."%char) && no_dot rest
  end.

(** A field set with its base data offset and its option bytes replaced. *)
Definition set_offset_options (o : TCPHeader.opts) (d : Z) (opts : list Z)
    : TCPHeader.opts := {|
  TCPHeader.o_srcPort := TCPHeader.o_srcPort o;
  TCPHeader.o_dstPort := TCPHeader.o_dstPort o;
  TCPHeader.o_seq := TCPHeader.o_seq o; TCPHeader.o_ack := TCPHeader.o_ack o;
  TCPHeader.o_dataOffsetWords := d; TCPHeader.o_flags := TCPHeader.o_flags o;
  TCPHeader.o_windowSize := TCPHeader.o_windowSize o;
  TCPHeader.o_urgentPtr := TCPHeader.o_urgentPtr o;
  TCPHeader.o_optionsBytes := opts
|}.

(** The offset at which [onFrame] finds the payload of a frame: the length
    that the network header announces plus the length that the transport
    header behind it announces. *)
Definition payload_offset (bytes : list Z) : nat :=
  let ipHdrLen := Z.to_nat (IPv4Header.Parsed.ihl (IPv4Header.parse bytes) * 4) in
  let tcpBytes := Js.slice_from bytes ipHdrLen in
  (ipHdrLen + Z.to_nat (TCPHeader.Parsed.dataOffsetBytes (TCPHeader.parse tcpBytes)))%nat.

(** A frame with the four bytes CR LF CR LF as payload behind two 20-byte
    headers. *)
Definition blank_line_frame : list Z :=
  [69; 0; 0; 44; 160; 0; 64; 0; 64; 6; 0; 0; 10; 0; 0; 2; 104; 18; 32; 47]
  ++ [207; 8; 1; 187; 0; 0; 78; 32; 0; 0; 39; 16; 80; 25; 255; 255; 0; 0; 0; 0]
  ++ [13; 10; 13; 10].

(** ** Application text *)

(** [toBytes(s)], the UTF-8 encoding of [s]: a text is held here as the
    sequence of its UTF-8 bytes, so the encoding lists them. *)
Definition toBytes (s : string) : list Z :=
  map (fun c => Z.of_nat (nat_of_ascii c)) (list_ascii_of_string s).

Definition CRLF : string :=
  String (ascii_of_nat 13) (String (ascii_of_nat 10) EmptyString).

(** [lines.join(sep)]. *)
Fixpoint join (sep : string) (lines : list string) : string :=
  match lines with
  | [] => EmptyString
  | [l] => l
  | l :: rest => (l ++ sep ++ join sep rest)%string
  end.

(** A value inside a template literal: the text itself, or the word
    [undefined] for a field that the object lacks. *)
Definition interpolate (v : option string) : string :=
  match v with
  | Some s => s
  | None => "undefined"%string
  end.

(** [h2ToHttp11(dev)]; [dev] maps a field name to its text, if it has one. *)
Definition h2ToHttp11 (dev : string -> option string) : string :=
  let host := dev ":authority"%string in
  let method := dev ":method"%string in
  let path := dev ":path"%string in
  let headers : list (string * option string) :=
    [ ("Host", host);
      ("Connection", Some "keep-alive");
      ("Accept", dev "accept");
      ("Accept-Encoding", dev "accept-encoding");
      ("Accept-Language", dev "accept-language");
      ("Origin", dev "origin");
      ("Referer", dev "referer");
      ("User-Agent", dev "user-agent");
      ("Content-Type", dev "content-type");
      ("Content-Length", dev "content-length") ]%string in
  let lines := [(interpolate method ++ " " ++ interpolate path ++ " HTTP/1.1")%string] in
  let lines :=
    lines ++ map (fun kv => (fst kv ++ ": " ++ interpolate (snd kv))%string) headers in
  let lines := lines ++ [EmptyString; EmptyString] in
  join CRLF lines.

(** [buildHttpResponse({status, reason, headers, body})]; [headers] lists
    the entries of the header object in the order of [Object.entries]. *)
Definition buildHttpResponse (status : Z) (reason : string)
    (headers : list (string * string)) (body : string) : string :=
  let head := [("HTTP/1.1 " ++ pretty status ++ " " ++ reason)%string] in
  let head := head ++ map (fun kv => (fst kv ++ ": " ++ snd kv)%string) headers in
  let head := head ++ [EmptyString; body] in
  join CRLF head.

(** ** The response path *)

Module ServerSend.

Section Send.
Variable Number : string -> Z.

(** The body of [segments.forEach((pl, i) => ..)] in [sendResponse], up to
    the frame. *)
Definition frame (s : Server.t) (dstIp : string) (dstPort : Z)
    (nsegments i : nat) (pl : list Z) : Js.result (list Z) :=
  do tcpHdr <-
    TCPHeader.pack
      (TCPHeader.new {|
         TCPHeader.o_srcPort := Server.port s; TCPHeader.o_dstPort := dstPort;
         TCPHeader.o_seq := 50000; TCPHeader.o_ack := 20000;
         TCPHeader.o_dataOffsetWords := 5;
         TCPHeader.o_flags := {|
           Flags.ns := false; Flags.cwr := false; Flags.ecn := false;
           Flags.urg := false; Flags.ack := true; Flags.psh := true;
           Flags.rst := false; Flags.syn := false;
           Flags.fin := (i =? nsegments - 1)%nat |};
         TCPHeader.o_windowSize := 65535; TCPHeader.o_urgentPtr := 0;
         TCPHeader.o_optionsBytes := [] |}) pl;
  do tcpPacket <- cat tcpHdr pl;
  do ipHdr <-
    IPv4Header.pack Number
      (IPv4Header.new {|
         IPv4Header.o_src := Server.ip s; IPv4Header.o_dst := dstIp;
         IPv4Header.o_dscp := 0; IPv4Header.o_ecn := 0;
         IPv4Header.o_id := 0xB000 + Z.of_nat i;
         IPv4Header.o_df := true; IPv4Header.o_mf := false;
         IPv4Header.o_fragOffset := 0;
         IPv4Header.o_ttl := 64; IPv4Header.o_protocol := 6;
         IPv4Header.o_optionsBytes := [] |}) tcpPacket;
  cat ipHdr tcpPacket.

Fixpoint frames_from (s : Server.t) (dstIp : string) (dstPort : Z)
    (nsegments i : nat) (segments : list (list Z))
    : Js.result (list (list Z)) :=
  match segments with
  | [] => Js.Ok []
  | pl :: rest =>
      do f <- frame s dstIp dstPort nsegments i pl;
      do fs <- frames_from s dstIp dstPort nsegments (S i) rest;
      Js.Ok (f :: fs)
  end.

(** [sendResponse(httpText, dstIp, dstPort)]: the frames in the order they
    are handed to the return link (frame [i] through a timer of [1 + i] ms).
    [None]: [segment] did not return. *)
Definition sendResponse (s : Server.t) (httpText : string) (dstIp : string)
    (dstPort : Z) : option (Js.result (list (list Z))) :=
  let bytes := toBytes httpText in
  let mss := 700%nat in
  match segment bytes mss with
  | None => None
  | Some segments =>
      Some (frames_from s dstIp dstPort (length segments) 0 segments)
  end.
End Send.

End ServerSend.

Module ClientRx.

(** A client together with the chunks it has received. *)
Record t : Type := { client : Client.t; inbox : list (list Z) }.

(** [Client.onFrame(bytes)]: the client afterwards, and whether the
    response view is printed (the accumulated text holds a blank line). The
    console output itself is left out. *)
Definition onFrame (c : t) (bytes : list Z) : Js.result (t * bool) :=
  let ip := IPv4Header.parse bytes in
  let ipHdrLen := IPv4Header.Parsed.ihl ip * 4 in
  let tcpBytes := Js.slice_from bytes (Z.to_nat ipHdrLen) in
  let tcp := TCPHeader.parse tcpBytes in
  let payload :=
    Js.slice_from tcpBytes (Z.to_nat (TCPHeader.Parsed.dataOffsetBytes tcp)) in
  let c := {| client := client c; inbox := inbox c ++ [payload] |} in
  do all <- concat (inbox c);
  Js.Ok (c, has_blank_line all).

(** The frames of [arrivals] handed to [onFrame] one after the other; the
    flags tell after which of them the view is printed. *)
Fixpoint onFrames (c : t) (arrivals : list (list Z)) : Js.result (t * list bool) :=
  match arrivals with
  | [] => Js.Ok (c, [])
  | f :: rest =>
      do r <- onFrame c f;
      do rs <- onFrames (fst r) rest;
      Js.Ok (fst rs, snd r :: snd rs)
  end.

End ClientRx.

(** ** A link with numbered receivers *)

(** A half-duplex link over fiber whose receivers are named by numbers,
    with a base latency below zero. *)
Definition numbered_link : NetworkLink.t nat := {|
  NetworkLink.name := "s->c"; NetworkLink.medium := "fiber";
  NetworkLink.rateGbps := 10; NetworkLink.distanceMeters := 100;
  NetworkLink.fullDuplex := false; NetworkLink.baseLatencyMs := -5;
  NetworkLink.jitterMs := 2 # 100; NetworkLink.lossRate := 0;
  NetworkLink.rx := None
|}.

(** ** The response of the server *)

Definition QUOTE : string := String (ascii_of_nat 34) EmptyString.

(** [JSON.stringify({ok:true, ts: Date.now()})], [now] being the value of
    [Date.now()]. *)
Definition response_body (now : Z) : string :=
  ("{" ++ QUOTE ++ "ok" ++ QUOTE ++ ":true," ++ QUOTE ++ "ts" ++ QUOTE ++ ":"
   ++ pretty now ++ "}")%string.

(** The text that [Server.onFrame] hands to [sendResponse]. *)
Definition response_text (now : Z) : string :=
  let body := response_body now in
  buildHttpResponse 202 "Accepted"
    [ ("content-type", "application/json");
      ("content-length", pretty (Z.of_nat (String.length body)));
      ("access-control-allow-origin", "*");
      ("strict-transport-security", "max-age=31536000; includeSubDomains; preload")
    ]%string
    body.

(** ** The wiring of [main] *)

Module Main.

(** The receiver callbacks of [main]: [(bytes) => this.onFrame(bytes)] of
    the server and of the client. *)
Inductive endpoint : Type := ServerEndpoint | ClientEndpoint.

(** The two link objects of [main]. The parties hold references to them,
    so a link is named here and looked up in the store of links. *)
Inductive link_id : Type := LinkClientToServer | LinkServerToClient.

Definition links : Type := link_id -> NetworkLink.t endpoint.

Definition link_id_eqb (a b : link_id) : bool :=
  match a, b with
  | LinkClientToServer, LinkClientToServer => true
  | LinkServerToClient, LinkServerToClient => true
  | _, _ => false
  end.

Definition update (ls : links) (i : link_id) (l : NetworkLink.t endpoint) : links :=
  fun j => if link_id_eqb i j then l else ls j.

(** [new NetworkLink('c->s')]: the constructor takes its options out of
    the string, which has none of them, so every option is at its default
    and the name is undefined. *)
Definition fresh_link : NetworkLink.t endpoint :=
  NetworkLink.new {|
    NetworkLink.name := "undefined"; NetworkLink.medium := "twisted-pair";
    NetworkLink.rateGbps := 1; NetworkLink.distanceMeters := 10;
    NetworkLink.fullDuplex := true; NetworkLink.baseLatencyMs := 5 # 100;
    NetworkLink.jitterMs := 2 # 100; NetworkLink.lossRate := 0;
    NetworkLink.rx := None |}.

(** The references that the server and the client hold: the server's
    [link] and [linkBack], the client's [link], on which it sends. *)
Record parties : Type := {
  server_link : link_id; server_linkBack : link_id; client_link : link_id
}.

(** [main] up to the call of [client.send]: two links, the server
    constructed on the first and given the second as return link, the
    client constructed on the second. Each constructor connects its
    [onFrame] to its link. *)
Definition setup (w : NetworkLink.world)
    : Js.result (links * parties * NetworkLink.world) :=
  let ls : links := fun _ => fresh_link in
  do r <- NetworkLink.connect (ls LinkClientToServer)
            (NetworkLink.Function ServerEndpoint) w;
  let ls := update ls LinkClientToServer (fst r) in
  do r <- NetworkLink.connect (ls LinkServerToClient)
            (NetworkLink.Function ClientEndpoint) (snd r);
  let ls := update ls LinkServerToClient (fst r) in
  Js.Ok (ls,
         {| server_link := LinkClientToServer;
            server_linkBack := LinkServerToClient;
            client_link := LinkServerToClient |},
         snd r).

End Main.

(** * Theorems *)

(** ** Bit operators on integers in range *)

Lemma to_int32_eq (x : Z) : exists q, Js.to_int32 x = x + 2 ^ 32 * q.
Proof.
  unfold Js.to_int32.
  pose proof (Z.div_mod x (2 ^ 32) ltac:(lia)) as Hx.
  destruct (x mod 2 ^ 32 <? 2 ^ 31).
  - exists (- (x / 2 ^ 32)). lia.
  - exists (- (x / 2 ^ 32) - 1). lia.
Qed.

Lemma to_int32_range (x : Z) : - 2 ^ 31 <= Js.to_int32 x < 2 ^ 31.
Proof.
  unfold Js.to_int32.
  pose proof (Z.mod_pos_bound x (2 ^ 32) ltac:(lia)).
  destruct (Z.ltb_spec (x mod 2 ^ 32) (2 ^ 31)); lia.
Qed.

Lemma to_int32_small (x : Z) : - 2 ^ 31 <= x < 2 ^ 31 -> Js.to_int32 x = x.
Proof.
  intros Hx. unfold Js.to_int32.
  destruct (Z.le_gt_cases 0 x).
  - rewrite Z.mod_small by lia.
    destruct (Z.ltb_spec x (2 ^ 31)); lia.
  - replace (x mod 2 ^ 32) with (x + 2 ^ 32).
    + destruct (Z.ltb_spec (x + 2 ^ 32) (2 ^ 31)); lia.
    + apply (Z.mod_unique _ _ (-1)); lia.
Qed.

Lemma to_uint32_small (x : Z) : 0 <= x < 2 ^ 32 -> Js.to_uint32 x = x.
Proof. intros Hx. unfold Js.to_uint32. by rewrite Z.mod_small. Qed.

(** [(x >> k) & (2^n - 1)] selects the [n] bits of [x] from bit [k] on, as
    long as they lie within the low 32 bits. *)
Lemma sar_band_ones (x k n : Z) :
  0 <= k -> 0 <= n <= 31 -> k + n <= 32 -> k < 32 ->
  Js.band (Js.sar x k) (Z.ones n) = (x / 2 ^ k) mod 2 ^ n.
Proof.
  intros Hk Hn Hkn Hk32. unfold Js.band, Js.sar.
  rewrite (Z.mod_small k 32) by lia.
  rewrite Z.shiftr_div_pow2 by lia.
  assert (Hp : 0 < 2 ^ k) by (apply Z.pow_pos_nonneg; lia).
  pose proof (to_int32_range x) as Hr.
  assert (Hq : - 2 ^ 31 <= Js.to_int32 x / 2 ^ k < 2 ^ 31).
  { split.
    - apply Z.div_le_lower_bound; [lia|]. nia.
    - apply Z.div_lt_upper_bound; [lia|]. nia. }
  rewrite (to_int32_small (_ / _)) by exact Hq.
  assert (Hones : 0 <= Z.ones n < 2 ^ 31).
  { rewrite Z.ones_equiv. split.
    - pose proof (Z.pow_pos_nonneg 2 n ltac:(lia) ltac:(lia)). lia.
    - assert (2 ^ n <= 2 ^ 31) by (apply Z.pow_le_mono_r; lia). lia. }
  rewrite (to_int32_small (Z.ones n)) by lia.
  rewrite Z.land_ones by lia.
  destruct (to_int32_eq x) as [q ->].
  replace (2 ^ 32) with (2 ^ k * (2 ^ n * 2 ^ (32 - k - n))).
  2:{ rewrite <- !Z.pow_add_r by lia. f_equal. lia. }
  replace (x + 2 ^ k * (2 ^ n * 2 ^ (32 - k - n)) * q)
    with (x + (2 ^ n * 2 ^ (32 - k - n) * q) * 2 ^ k) by lia.
  rewrite Z.div_add by lia.
  replace (x / 2 ^ k + 2 ^ n * 2 ^ (32 - k - n) * q)
    with (x / 2 ^ k + (2 ^ (32 - k - n) * q) * 2 ^ n) by lia.
  apply Z.mod_add.
  pose proof (Z.pow_pos_nonneg 2 n ltac:(lia) ltac:(lia)). lia.
Qed.

Lemma band_ones (x n : Z) :
  0 <= n <= 31 -> Js.band x (Z.ones n) = x mod 2 ^ n.
Proof.
  intros Hn.
  pose proof (sar_band_ones x 0 n ltac:(lia) Hn ltac:(lia) ltac:(lia)) as H.
  unfold Js.sar in H. rewrite Z.mod_0_l, Z.shiftr_0_r in H by lia.
  unfold Js.band in *. 
  rewrite (to_int32_small (Js.to_int32 x)) in H by apply to_int32_range.
  rewrite H. by rewrite Z.pow_0_r, Z.div_1_r.
Qed.

Lemma band_255 (x : Z) : Js.band x 255 = x mod 256.
Proof. exact (band_ones x 8 ltac:(lia)). Qed.

Lemma band_65535 (x : Z) : Js.band x 65535 = x mod 65536.
Proof. exact (band_ones x 16 ltac:(lia)). Qed.

Lemma sar8_band_255 (x : Z) : Js.band (Js.sar x 8) 255 = (x / 256) mod 256.
Proof. exact (sar_band_ones x 8 8 ltac:(lia) ltac:(lia) ltac:(lia) ltac:(lia)). Qed.

(** [(hi << 8) | lo] on two bytes. *)
Lemma lor_shiftl8 (hi lo : Z) :
  0 <= lo < 256 -> Z.lor (Z.shiftl hi 8) lo = hi * 256 + lo.
Proof.
  intros Hlo.
  assert (Hdisj : Z.land (Z.shiftl hi 8) lo = 0).
  { apply Z.bits_inj'. intros i Hi.
    rewrite Z.land_spec, Z.shiftl_spec, Z.bits_0 by lia.
    destruct (Z.ltb_spec i 8).
    - by rewrite (Z.testbit_neg_r hi) by lia.
    - rewrite <- (Z.mod_small lo (2 ^ 8)) by lia.
      rewrite Z.mod_pow2_bits_high by lia. apply andb_false_r. }
  rewrite <- Z.lxor_lor by exact Hdisj.
  rewrite <- Z.add_nocarry_lxor by exact Hdisj.
  rewrite Z.shiftl_mul_pow2 by lia. lia.
Qed.

Lemma word_of_bytes (hi lo : Z) :
  0 <= hi < 256 -> 0 <= lo < 256 ->
  Js.bor (Js.shl hi 8) lo = hi * 256 + lo.
Proof.
  intros Hhi Hlo. unfold Js.bor, Js.shl.
  rewrite (Z.mod_small 8 32) by lia.
  rewrite (to_int32_small hi) by lia.
  assert (Hs : Z.shiftl hi 8 = hi * 256) by (rewrite Z.shiftl_mul_pow2; lia).
  rewrite !(to_int32_small (Z.shiftl hi 8)) by lia.
  rewrite (to_int32_small lo) by lia.
  by apply lor_shiftl8.
Qed.

(** ** The checksum loop against its specification *)

Lemma fold_norm_range (t : Z) : 0 <= fold_norm t <= 65535.
Proof.
  unfold fold_norm. destruct (t =? 0); [lia|].
  pose proof (Z.mod_pos_bound (t - 1) 65535 ltac:(lia)). lia.
Qed.

Lemma fold_norm_unique (t r k : Z) :
  0 <= t -> 0 <= r <= 65535 -> (r = 0 <-> t = 0) -> r = t + 65535 * k ->
  r = fold_norm t.
Proof.
  intros Ht Hr Hz Hk. unfold fold_norm.
  destruct (Z.eqb_spec t 0) as [->|Hne]; [tauto|].
  assert (r <> 0) by tauto.
  assert (r - 1 = (t - 1) mod 65535); [|lia].
  apply (Z.mod_unique _ _ (- k)); lia.
Qed.

Lemma fold_norm_step (t w : Z) :
  0 <= t -> 0 <= w <= 65535 ->
  let u := fold_norm t + w in
  u mod 65536 + u / 65536 = fold_norm (t + w).
Proof.
  intros Ht Hw u.
  pose proof (fold_norm_range t) as Hr.
  pose proof (Z.div_mod u 65536 ltac:(lia)) as Hu.
  pose proof (Z.mod_pos_bound u 65536 ltac:(lia)) as Hm.
  assert (Hq : 0 <= u / 65536 <= 1).
  { split; [apply Z.div_pos; lia|].
    apply Z.lt_succ_r. apply Z.div_lt_upper_bound; lia. }
  assert (Hk : exists k, fold_norm t = t + 65535 * k).
  { unfold fold_norm. destruct (Z.eqb_spec t 0) as [->|Hne]; [by exists 0|].
    exists (- ((t - 1) / 65535)).
    pose proof (Z.div_mod (t - 1) 65535 ltac:(lia)). lia. }
  destruct Hk as [k Hk].
  assert (Hz : fold_norm t = 0 <-> t = 0).
  { unfold fold_norm. destruct (Z.eqb_spec t 0); [tauto|].
    pose proof (Z.mod_pos_bound (t - 1) 65535 ltac:(lia)). lia. }
  apply (fold_norm_unique _ _ (k - u / 65536)); lia.
Qed.

Lemma fold_carries_norm (t : Z) :
  0 <= t -> ChecksumSpec.fold_carries t = fold_norm t.
Proof.
  funelim (ChecksumSpec.fold_carries t); intros Ht.
  - unfold fold_norm. destruct (Z.eqb_spec s 0); [lia|].
    rewrite Z.mod_small by lia. lia.
  - pose proof (Z.div_mod s 65536 ltac:(lia)) as Hs.
    pose proof (Z.mod_pos_bound s 65536 ltac:(lia)) as Hm.
    assert (0 < s / 65536) by (apply Z.div_str_pos; lia).
    rewrite H by lia.
    pose proof (fold_norm_range (s mod 65536 + s / 65536)) as Hr.
    assert (Hk : exists k, fold_norm (s mod 65536 + s / 65536)
                           = s mod 65536 + s / 65536 + 65535 * k).
    { unfold fold_norm. destruct (Z.eqb_spec (s mod 65536 + s / 65536) 0); [lia|].
      exists (- ((s mod 65536 + s / 65536 - 1) / 65535)).
      pose proof (Z.div_mod (s mod 65536 + s / 65536 - 1) 65535 ltac:(lia)). lia. }
    destruct Hk as [k Hk].
    assert (fold_norm (s mod 65536 + s / 65536) <> 0).
    { unfold fold_norm. destruct (Z.eqb_spec (s mod 65536 + s / 65536) 0); [lia|].
      pose proof (Z.mod_pos_bound (s mod 65536 + s / 65536 - 1) 65535 ltac:(lia)). lia. }
    apply (fold_norm_unique _ _ (k - s / 65536)); lia.
Qed.

Lemma words_be_range (bytes : list Z) :
  bytes_ok bytes -> Forall (fun w => 0 <= w <= 65535) (ChecksumSpec.words_be bytes).
Proof.
  revert bytes. fix IH 1. intros [|hi [|lo rest]] Hb; simpl.
  - constructor.
  - inversion Hb; subst. constructor; [lia|constructor].
  - inversion Hb as [|? ? Hhi Hb']; subst. inversion Hb' as [|? ? Hlo Hb'']; subst.
    constructor; [lia|]. by apply IH.
Qed.

Lemma sum_words_nonneg (bytes : list Z) :
  bytes_ok bytes -> 0 <= ChecksumSpec.sum_words bytes.
Proof.
  intros Hb. unfold ChecksumSpec.sum_words.
  induction (words_be_range bytes Hb) as [|w ws Hw _ IH]; simpl; lia.
Qed.

Lemma shr_0 (x : Z) : 0 <= x < 2 ^ 32 -> Js.shr x 0 = x.
Proof.
  intros Hx. unfold Js.shr. rewrite to_uint32_small by lia.
  by rewrite Z.mod_0_l, Z.shiftr_0_r by lia.
Qed.

Lemma shr_16 (x : Z) : 0 <= x < 2 ^ 32 -> Js.shr x 16 = x / 65536.
Proof.
  intros Hx. unfold Js.shr. rewrite to_uint32_small by lia.
  rewrite (Z.mod_small 16 32) by lia. by rewrite Z.shiftr_div_pow2 by lia.
Qed.

Lemma ipChecksum_step_norm (t hi lo : Z) :
  0 <= t -> 0 <= hi < 256 -> 0 <= lo < 256 ->
  ipChecksum_step (fold_norm t) hi lo = fold_norm (t + (hi * 256 + lo)).
Proof.
  intros Ht Hhi Hlo. unfold ipChecksum_step.
  pose proof (fold_norm_range t).
  rewrite word_of_bytes by lia. rewrite shr_0 by lia.
  rewrite band_65535, shr_16 by lia.
  apply fold_norm_step; lia.
Qed.

Lemma ipChecksum_loop_norm (bytes : list Z) :
  forall t, 0 <= t -> bytes_ok bytes ->
    ipChecksum_loop bytes (fold_norm t)
    = fold_norm (t + ChecksumSpec.sum_words bytes).
Proof.
  revert bytes. fix IH 1. intros [|hi [|lo rest]] t Ht Hb.
  - simpl. f_equal; unfold ChecksumSpec.sum_words; simpl; lia.
  - inversion Hb; subst. simpl. rewrite ipChecksum_step_norm by lia.
    f_equal; unfold ChecksumSpec.sum_words; simpl; lia.
  - inversion Hb as [|? ? Hhi Hb']; subst. inversion Hb' as [|? ? Hlo Hb'']; subst.
    simpl. rewrite ipChecksum_step_norm by lia.
    rewrite IH by (try lia; assumption).
    f_equal; unfold ChecksumSpec.sum_words; simpl; lia.
Qed.

Lemma bnot_band_65535 (s : Z) :
  0 <= s <= 65535 -> Js.band (Js.bnot s) 65535 = 65535 - s.
Proof.
  intros Hs. rewrite band_65535. unfold Js.bnot.
  rewrite to_int32_small by lia. unfold Z.lnot.
  symmetry. apply (Z.mod_unique _ _ (-1)); lia.
Qed.

(** The loop of the code and the fold of the specification agree. *)
Lemma ipChecksum_loop_ones_sum (bytes : list Z) :
  bytes_ok bytes -> ipChecksum_loop bytes 0 = ChecksumSpec.ones_sum bytes.
Proof.
  intros Hb. unfold ChecksumSpec.ones_sum.
  rewrite fold_carries_norm by (by apply sum_words_nonneg).
  change 0 with (fold_norm 0) at 1.
  by rewrite ipChecksum_loop_norm.
Qed.

Lemma ones_sum_range (bytes : list Z) :
  bytes_ok bytes -> 0 <= ChecksumSpec.ones_sum bytes <= 65535.
Proof.
  intros Hb. unfold ChecksumSpec.ones_sum.
  rewrite fold_carries_norm by (by apply sum_words_nonneg).
  apply fold_norm_range.
Qed.

Lemma ipChecksum_spec (bytes : list Z) :
  bytes_ok bytes -> ipChecksum bytes = ChecksumSpec.checksum bytes.
Proof.
  intros Hb. unfold ipChecksum, ChecksumSpec.checksum, ChecksumSpec.complement16.
  pose proof (ones_sum_range bytes Hb).
  rewrite ipChecksum_loop_ones_sum by done.
  rewrite bnot_band_65535 by lia.
  by rewrite Z.mod_small by lia.
Qed.

(** ** Segmentation *)

Section Segment.
Variable bytes : list Z.
Variable mss : nat.
Hypothesis mss_pos : (0 < mss)%nat.

Lemma segment_loop_spec (n : nat) :
  forall (i : nat) (out : list (list Z)) (fuel : nat),
    (length bytes - i <= n)%nat -> (n < fuel)%nat ->
    exists tl,
      segment_loop fuel bytes mss i out = Some (out ++ tl)
      /\ List.concat tl = drop i bytes
      /\ length tl = ((length bytes - i + mss - 1) / mss)%nat
      /\ (forall j, (j < length tl)%nat ->
            tl !! j = Some (Js.slice bytes (i + j * mss) (i + (j + 1) * mss))).
Proof.
  induction n as [n IH] using lt_wf_ind.
  intros i out fuel Hn Hfuel.
  destruct fuel as [|fuel]; [lia|]. simpl.
  destruct (Nat.ltb_spec i (length bytes)) as [Hlt|Hge].
  - destruct (IH (length bytes - (i + mss))%nat ltac:(lia) (i + mss)%nat
                (out ++ [Js.slice bytes i (i + mss)]) fuel ltac:(lia) ltac:(lia))
      as (tl & Hrun & Hcat & Hlen & Hnth).
    exists (Js.slice bytes i (i + mss) :: tl).
    split; [by rewrite Hrun, <- app_assoc|].
    split.
    { simpl. rewrite Hcat. unfold Js.slice.
      replace (i + mss - i)%nat with mss by lia.
      rewrite <- drop_drop. apply take_drop. }
    split.
    { simpl. rewrite Hlen.
      destruct (Nat.le_gt_cases mss (length bytes - i)) as [Hbig|Hsmall].
      - replace (length bytes - i + mss - 1)%nat
          with (length bytes - (i + mss) + mss - 1 + 1 * mss)%nat by lia.
        rewrite Nat.div_add by lia. lia.
      - replace (length bytes - (i + mss))%nat with 0%nat by lia.
        rewrite (Nat.div_small (0 + mss - 1) mss) by lia.
        simpl. apply (Nat.div_unique _ _ 1%nat (length bytes - i - 1)%nat); lia. }
    intros [|j] Hj; simpl.
    + do 2 f_equal; lia.
    + rewrite Hnth by (simpl in Hj; lia). do 2 f_equal; lia.
  - exists []. rewrite app_nil_r. split; [done|].
    split; [by rewrite drop_ge by lia|].
    split; [|simpl; intros; lia].
    simpl. replace (length bytes - i)%nat with 0%nat by lia.
    symmetry. apply Nat.div_small. lia.
Qed.
End Segment.

Lemma slice_clamp (P : list Z) (a b : nat) :
  Js.slice P a (Nat.min (length P) b) = Js.slice P a b.
Proof.
  unfold Js.slice.
  destruct (Nat.le_gt_cases b (length P)) as [Hle|Hgt].
  - by rewrite Nat.min_r by lia.
  - rewrite Nat.min_l by lia.
    rewrite !take_ge; [done | rewrite length_drop; lia | rewrite length_drop; lia].
Qed.

(** [segment] with a positive segment size: the slices, their number, what
    they add up to and how long they are. *)
Lemma segment_spec (P : list Z) (M : nat) :
  (0 < M)%nat ->
  exists slices : list (list Z),
    segment P M = Some slices
    /\ (forall i, (i < length slices)%nat ->
          slices !! i = Some (Js.slice P (i * M) ((i + 1) * M)))
    /\ length slices = ((length P + M - 1) / M)%nat
    /\ List.concat slices = P.
Proof.
  intros HM.
  destruct (segment_loop_spec P M HM (length P) 0 [] (S (length P))
              ltac:(lia) ltac:(lia)) as (tl & Hrun & Hcat & Hlen & Hnth).
  simpl in Hrun. rewrite Nat.sub_0_r in Hlen. rewrite drop_0 in Hcat.
  exists tl. split; [exact Hrun|].
  split; [intros i Hi; rewrite (Hnth i Hi); done|].
  split; [exact Hlen | exact Hcat].
Qed.

(** C1. For a maximum segment size [M > 0], [segment] returns; slice [i] is
    the bytes [i*M, min(len P, (i+1)*M)) of the payload, there are
    ceil(len P / M) slices, their concatenation in order is the payload,
    every slice but the last has exactly [M] bytes, and the empty payload
    has no slice. *)
Theorem C1_segment_roundtrip (P : list Z) (M : nat) :
  (0 < M)%nat ->
  exists slices : list (list Z),
    segment P M = Some slices
    /\ (forall i, (i < length slices)%nat ->
          slices !! i = Some (Js.slice P (i * M) (Nat.min (length P) ((i + 1) * M))))
    /\ length slices = ((length P + M - 1) / M)%nat
    /\ List.concat slices = P
    /\ (forall i s, (S i < length slices)%nat -> slices !! i = Some s ->
          length s = M)
    /\ (P = [] -> slices = []).
Proof.
  intros HM.
  destruct (segment_spec P M HM) as (tl & Hrun & Hnth & Hlen & Hcat).
  exists tl. split; [exact Hrun|].
  split; [intros i Hi; rewrite slice_clamp; exact (Hnth i Hi)|].
  split; [exact Hlen|]. split; [exact Hcat|]. split.
  - intros i s Hi Hs.
    rewrite (Hnth i ltac:(lia)) in Hs. injection Hs as <-.
    unfold Js.slice. rewrite length_take, length_drop.
    pose proof (Nat.Div0.mul_div_le (length P + M - 1) M) as Hd.
    rewrite <- Hlen in Hd. nia.
  - intros ->. simpl in Hlen. rewrite Nat.div_small in Hlen by lia.
    by destruct tl.
Qed.

(** C1 at a five-byte payload and a segment size of two. *)
Lemma C1_segment_roundtrip_witness :
  (0 < 2)%nat
  /\ exists slices : list (list Z),
       segment [71; 69; 84; 32; 47] 2 = Some slices
       /\ List.concat slices = [71; 69; 84; 32; 47]
       /\ length slices = 3%nat.
Proof.
  split; [lia|].
  destruct (C1_segment_roundtrip [71; 69; 84; 32; 47] 2 ltac:(lia))
    as (slices & Hrun & _ & Hlen & Hcat & _).
  exists slices. split; [exact Hrun|]. split; [exact Hcat | exact Hlen].
Defined.

(** ** Typed-array stores on a buffer whose front is known *)

Lemma store_hd (x : Z) (l : list Z) (v : Z) :
  Js.store (x :: l) 0 v = Js.to_uint8 v :: l.
Proof. reflexivity. Qed.

Lemma store_tl (x : Z) (l : list Z) (i : nat) (v : Z) :
  Js.store (x :: l) (S i) v = x :: Js.store l i v.
Proof. reflexivity. Qed.

(** Moves the stores of [pack] through the known front of the buffer. *)
Ltac store_front := repeat (rewrite store_hd || rewrite store_tl).

Lemma to_uint8_range (v : Z) : 0 <= Js.to_uint8 v < 256.
Proof. unfold Js.to_uint8. apply Z.mod_pos_bound. lia. Qed.

Lemma to_uint8_id (v : Z) : 0 <= v < 256 -> Js.to_uint8 v = v.
Proof. intros Hv. unfold Js.to_uint8. by apply Z.mod_small. Qed.

Lemma bytes_ok_map_to_uint8 (l : list Z) : bytes_ok (map Js.to_uint8 l).
Proof.
  unfold bytes_ok. induction l as [|x l IH]; simpl; constructor.
  - apply to_uint8_range.
  - exact IH.
Qed.

Lemma map_to_uint8_id (l : list Z) : bytes_ok l -> map Js.to_uint8 l = l.
Proof.
  induction 1 as [|x l Hx _ IH]; simpl; [done|].
  by rewrite to_uint8_id, IH.
Qed.

Lemma bytes_ok_replicate0 (n : nat) : bytes_ok (replicate n 0).
Proof. unfold bytes_ok. apply Forall_replicate. lia. Qed.

Lemma bytes_ok_app (a b : list Z) : bytes_ok a -> bytes_ok b -> bytes_ok (a ++ b).
Proof. unfold bytes_ok. intros. by apply Forall_app. Qed.

Lemma ceil_div4_bounds (n : Z) :
  0 <= n -> 4 * (Js.ceil_div4 n - 1) < n <= 4 * Js.ceil_div4 n.
Proof.
  intros Hn. unfold Js.ceil_div4.
  pose proof (Z.div_mod (n + 3) 4 ltac:(lia)).
  pose proof (Z.mod_pos_bound (n + 3) 4 ltac:(lia)). lia.
Qed.

(** [set] of the option bytes behind twenty fixed bytes, into a buffer that
    is zero from byte 20 on. *)
Lemma set_at_options (front opts : list Z) (n : nat) :
  length front = 20%nat -> (length opts <= n)%nat ->
  Js.set_at (front ++ replicate n 0) opts 20
  = Js.Ok (front ++ map Js.to_uint8 opts ++ replicate (n - length opts) 0).
Proof.
  intros Hf Hn. unfold Js.set_at.
  rewrite length_app, length_replicate, Hf.
  destruct (Nat.ltb_spec (20 + n) (20 + length opts)) as [Hlt|_]; [lia|].
  f_equal. rewrite take_app_length' by done. f_equal. f_equal.
  rewrite drop_app_add' by done. by rewrite drop_replicate.
Qed.

Section IPv4Shape.
Variable Number : string -> Z.
Variable o : IPv4Header.opts.
Variable payload : list Z.

Let h := IPv4Header.new o.
Let optLen := length (IPv4Header.o_optionsBytes o).
Let total := IPv4Header.ihl h * 4 + Z.of_nat (length payload).
Let s := ipToBytes Number (IPv4Header.src h).
Let d := ipToBytes Number (IPv4Header.dst h).

(** The header before the checksum: twenty fixed bytes, the option bytes,
    zero padding up to a multiple of four. *)
Lemma pack_unsummed_shape :
  exists front : list Z,
    IPv4Header.pack_unsummed Number h payload
    = Js.Ok (front
             ++ map Js.to_uint8 (IPv4Header.o_optionsBytes o)
             ++ replicate (Z.to_nat (4 * Js.ceil_div4 (Z.of_nat optLen)) - optLen) 0)
    /\ length front = 20%nat
    /\ bytes_ok front
    /\ front !! 0%nat
       = Some (Js.to_uint8 (Js.bor (Js.shl 4 4) (Js.band (IPv4Header.ihl h) 0x0F)))
    /\ front !! 2%nat = Some (Js.to_uint8 (Js.band (Js.sar total 8) 0xFF))
    /\ front !! 3%nat = Some (Js.to_uint8 (Js.band total 0xFF))
    /\ front !! 10%nat = Some 0
    /\ front !! 11%nat = Some 0
    /\ (forall i, (i < 4)%nat ->
          front !! (12 + i)%nat = Some (Js.to_uint8 (default 0 (s !! i)))
          /\ front !! (16 + i)%nat = Some (Js.to_uint8 (default 0 (d !! i)))).
Proof.
  pose proof (ceil_div4_bounds (Z.of_nat optLen) ltac:(lia)) as Hc.
  unfold IPv4Header.pack_unsummed.
  assert (Hihl : IPv4Header.ihl h = 5 + Js.ceil_div4 (Z.of_nat optLen)) by reflexivity.
  assert (Hopts : IPv4Header.optionsBytes h = IPv4Header.o_optionsBytes o) by reflexivity.
  rewrite Hopts.
  set (c := Js.ceil_div4 (Z.of_nat optLen)) in *.
  unfold Js.new_Uint8Array.
  destruct (Z.ltb_spec (IPv4Header.ihl h * 4) 0) as [Hneg|_]; [lia|].
  replace (Z.to_nat (IPv4Header.ihl h * 4)) with (20 + Z.to_nat (4 * c))%nat by lia.
  rewrite replicate_add.
  change (replicate 20 0) with
    [0; 0; 0; 0; 0; 0; 0; 0; 0; 0; 0; 0; 0; 0; 0; 0; 0; 0; 0; 0].
  cbv beta zeta delta [Js.bind Js.store_opt]. cbn [app].
  store_front.
  eexists [_; _; _; _; _; _; _; _; _; _; _; _; _; _; _; _; _; _; _; _].
  split.
  - destruct ((5 <? IPv4Header.ihl h) && negb (length (IPv4Header.o_optionsBytes o) =? 0)%nat)
      eqn:Hset.
    + etransitivity;
        [apply (set_at_options
                  [_; _; _; _; _; _; _; _; _; _; _; _; _; _; _; _; _; _; _; _]);
         [reflexivity | fold optLen; lia]|].
      reflexivity.
    + assert (optLen = 0%nat) as Hz.
      { apply andb_false_iff in Hset as [Hset|Hset].
        - apply Z.ltb_ge in Hset. fold optLen. lia.
        - apply negb_false_iff, Nat.eqb_eq in Hset. exact Hset. }
      fold optLen. destruct (IPv4Header.o_optionsBytes o) eqn:Ho; [|simpl in *; subst optLen; simpl in Hz; lia].
      rewrite Hz. rewrite Nat.sub_0_r. cbn [map app]. reflexivity.
  - split; [reflexivity|].
    split; [unfold bytes_ok; repeat constructor; apply to_uint8_range|].
    repeat split; try reflexivity.
    all: destruct i as [|[|[|[|i]]]]; try lia; reflexivity.
Qed.
End IPv4Shape.

(** ** The packed network header *)

Lemma split_word (x : Z) :
  0 <= x < 65536 -> (x / 256) mod 256 = x / 256 /\ 0 <= x / 256 < 256.
Proof.
  intros Hx.
  assert (0 <= x / 256 < 256).
  { split; [apply Z.div_pos; lia | apply Z.div_lt_upper_bound; lia]. }
  split; [by apply Z.mod_small | done].
Qed.

Lemma join_word (x : Z) : (x / 256) mod 256 * 256 + x mod 256 = x mod 65536.
Proof.
  pose proof (Z.div_mod x 256 ltac:(lia)).
  pose proof (Z.mod_pos_bound x 256 ltac:(lia)).
  pose proof (Z.div_mod (x / 256) 256 ltac:(lia)).
  pose proof (Z.mod_pos_bound (x / 256) 256 ltac:(lia)).
  apply (Z.mod_unique _ _ (x / 256 / 256)); lia.
Qed.

Section IPv4Pack.
Variable Number : string -> Z.
Variable o : IPv4Header.opts.
Variable payload : list Z.

Let h := IPv4Header.new o.
Let optLen := length (IPv4Header.o_optionsBytes o).
Let total := IPv4Header.ihl h * 4 + Z.of_nat (length payload).

(** [pack] returns the unsummed header with the checksum of that header
    stored big-endian at bytes 10 and 11. *)
Lemma pack_shape :
  exists u b : list Z,
    IPv4Header.pack_unsummed Number h payload = Js.Ok u
    /\ IPv4Header.pack Number h payload = Js.Ok b
    /\ bytes_ok u
    /\ bytes_ok b
    /\ Z.of_nat (length b) = 4 * IPv4Header.ihl h
    /\ zero_checksum b = u
    /\ checksum_field b = ipChecksum u
    /\ (forall i, i <> 10%nat -> i <> 11%nat -> b !! i = u !! i)
    /\ u !! 0%nat
       = Some (Js.to_uint8 (Js.bor (Js.shl 4 4) (Js.band (IPv4Header.ihl h) 0x0F)))
    /\ u !! 2%nat = Some (Js.to_uint8 (Js.band (Js.sar total 8) 0xFF))
    /\ u !! 3%nat = Some (Js.to_uint8 (Js.band total 0xFF))
    /\ (forall i, (i < 4)%nat ->
          u !! (12 + i)%nat
          = Some (Js.to_uint8 (default 0 (ipToBytes Number (IPv4Header.o_src o) !! i)))
          /\ u !! (16 + i)%nat
          = Some (Js.to_uint8 (default 0 (ipToBytes Number (IPv4Header.o_dst o) !! i)))).
Proof.
  destruct (pack_unsummed_shape Number o payload)
    as (front & Hu & Hlen & Hok & H0 & H2 & H3 & H10 & H11 & Haddr).
  fold h optLen total in Hu, H0, H2, H3.
  set (rest := map Js.to_uint8 (IPv4Header.o_optionsBytes o)
               ++ replicate (Z.to_nat (4 * Js.ceil_div4 (Z.of_nat optLen)) - optLen) 0) in *.
  set (u := front ++ rest) in *.
  assert (Huok : bytes_ok u).
  { apply bytes_ok_app; [done|]. apply bytes_ok_app.
    - apply bytes_ok_map_to_uint8.
    - apply bytes_ok_replicate0. }
  assert (Hfront : forall i, (i < 20)%nat -> u !! i = front !! i).
  { intros i Hi. apply lookup_app_l. lia. }
  assert (Hulen : (20 <= length u)%nat) by (unfold u; rewrite length_app; lia).
  pose proof (ones_sum_range u Huok) as Hsum.
  assert (Hck : ipChecksum u = 65535 - ChecksumSpec.ones_sum u).
  { rewrite ipChecksum_spec by done.
    unfold ChecksumSpec.checksum, ChecksumSpec.complement16.
    by rewrite Z.mod_small by lia. }
  set (sum := ipChecksum u) in *.
  assert (Hsumr : 0 <= sum < 65536) by lia.
  destruct (split_word sum Hsumr) as [Hhi Hhir].
  pose proof (Z.mod_pos_bound sum 256 ltac:(lia)) as Hlor.
  exists u, (Js.store (Js.store u 10 (Js.band (Js.sar sum 8) 0xFF)) 11
               (Js.band sum 0xFF)).
  split; [exact Hu|]. split.
  { unfold IPv4Header.pack. fold h. rewrite Hu. reflexivity. }
  split; [exact Huok|].
  rewrite sar8_band_255, band_255, Hhi.
  unfold Js.store. rewrite !to_uint8_id by lia.
  split.
  { unfold bytes_ok. apply Forall_insert; [apply Forall_insert|]; [exact Huok|lia|lia]. }
  split.
  { rewrite !length_insert. unfold u, rest.
    rewrite !length_app, length_map, length_replicate, Hlen. fold optLen.
    pose proof (ceil_div4_bounds (Z.of_nat optLen) ltac:(lia)).
    change (IPv4Header.ihl h) with (5 + Js.ceil_div4 (Z.of_nat optLen)). lia. }
  split.
  { unfold zero_checksum, Js.store. rewrite !to_uint8_id by lia.
    rewrite (list_insert_insert_ne _ 10 11) by lia.
    rewrite !list_insert_insert_eq.
    rewrite (list_insert_id u 10 0) by (rewrite Hfront by lia; done).
    apply list_insert_id. rewrite Hfront by lia. done. }
  split.
  { unfold checksum_field, Js.at0.
    rewrite list_lookup_insert_ne by lia.
    rewrite list_lookup_insert_eq by lia.
    rewrite list_lookup_insert_eq by (rewrite length_insert; lia).
    simpl. pose proof (Z.div_mod sum 256 ltac:(lia)). lia. }
  split.
  { intros i Hi10 Hi11. by rewrite !list_lookup_insert_ne by lia. }
  rewrite !Hfront by lia.
  split; [exact H0|]. split; [exact H2|]. split; [exact H3|].
  intros i Hi. rewrite !Hfront by lia. exact (Haddr i Hi).
Qed.
End IPv4Pack.

Lemma version_ihl_nibble (x : Z) :
  Js.band (Js.to_uint8 (Js.bor (Js.shl 4 4) (Js.band x 0x0F))) 0x0F = x mod 16.
Proof.
  change 15 with (Z.ones 4). rewrite (band_ones x 4) by lia.
  change (2 ^ 4) with 16. change (Z.ones 4) with 15.
  pose proof (Z.mod_pos_bound x 16 ltac:(lia)) as Hn.
  assert (Hall : forallb (fun k => Js.band (Js.to_uint8
                                     (Js.bor (Js.shl 4 4) (Z.of_nat k))) 15
                                   =? Z.of_nat k)
                         (seq 0 16) = true) by (vm_compute; reflexivity).
  rewrite forallb_forall in Hall.
  specialize (Hall (Z.to_nat (x mod 16))).
  rewrite Z2Nat.id in Hall by lia.
  apply Z.eqb_eq, Hall. apply in_seq. lia.
Qed.

Lemma total_length_field (t : Z) :
  Js.bor (Js.shl (Js.to_uint8 (Js.band (Js.sar t 8) 0xFF)) 8)
         (Js.to_uint8 (Js.band t 0xFF))
  = t mod 65536.
Proof.
  rewrite sar8_band_255, band_255.
  pose proof (Z.mod_pos_bound (t / 256) 256 ltac:(lia)).
  pose proof (Z.mod_pos_bound t 256 ltac:(lia)).
  rewrite !to_uint8_id by lia.
  rewrite word_of_bytes by lia.
  apply join_word.
Qed.


(** The header of the specification's example: no options, [ihl = 5], total
    length 20 plus the payload, checksum 0x989E for a 3-byte payload. *)
Example pack_defaults :
  IPv4Header.pack Number_decimal (IPv4Header.new IPv4Header.defaults) [1; 2; 3]
  = Js.Ok [69; 0; 0; 23; 16; 0; 64; 0; 64; 6; 152; 158;
           10; 0; 0; 2; 104; 18; 32; 47].
Proof. vm_compute. reflexivity. Qed.

(** C5, as the code has it. [pack] never throws: for every field set it
    returns a buffer of 4 * (5 + ceil(options / 4)) bytes, also when that
    word count exceeds 15 or an address is no dotted quad; each address byte
    is the low byte of [Number] of the component, and 0 for a missing
    component. *)
Theorem C5_pack_never_fails
    (Number : string -> Z) (o : IPv4Header.opts) (payload : list Z) :
  exists b : list Z,
    IPv4Header.pack Number (IPv4Header.new o) payload = Js.Ok b
    /\ Z.of_nat (length b)
       = 4 * (5 + Js.ceil_div4 (Z.of_nat (length (IPv4Header.o_optionsBytes o))))
    /\ (forall i, (i < 4)%nat ->
          b !! (12 + i)%nat
          = Some (default 0 (ipToBytes Number (IPv4Header.o_src o) !! i) mod 256)
          /\ b !! (16 + i)%nat
          = Some (default 0 (ipToBytes Number (IPv4Header.o_dst o) !! i) mod 256)).
Proof.
  destruct (pack_shape Number o payload)
    as (u & b & _ & Hb & _ & _ & Hlen & _ & _ & Hsame & _ & _ & _ & Haddr).
  exists b. split; [exact Hb|]. split; [exact Hlen|].
  intros i Hi. rewrite !Hsame by lia. exact (Haddr i Hi).
Qed.

(** C5 fails as stated: a field set with 44 option bytes (16 header words,
    one more than the 4-bit field holds) and a field set whose source address
    is not a dotted quad are both packed without an error. *)
Lemma C5_counterexample :
  15 < IPv4Header.ihl (IPv4Header.new opts_44_options)
  /\ Js.is_ok (IPv4Header.pack Number_decimal
                 (IPv4Header.new opts_44_options) []) = true
  /\ IPv4Header.pack Number_decimal (IPv4Header.new opts_bad_address) []
     = Js.Ok [69; 0; 0; 20; 16; 0; 64; 0; 64; 6; 162; 163;
              0; 0; 0; 0; 104; 18; 32; 47].
Proof. split; [|split]; vm_compute; reflexivity. Qed.

(** C9, as the code has it. The low nibble of byte 0 is the header length
    in words modulo 16 and bytes 2-3 hold the total length modulo 65536; they
    are 5 + ceil(options / 4) and 4 * words + payload length when the options
    take at most 40 bytes and the total is below 65536. *)
Theorem C9_header_length_fields
    (Number : string -> Z) (o : IPv4Header.opts) (payload : list Z) :
  let words := 5 + Js.ceil_div4 (Z.of_nat (length (IPv4Header.o_optionsBytes o))) in
  let total := words * 4 + Z.of_nat (length payload) in
  exists b : list Z,
    IPv4Header.pack Number (IPv4Header.new o) payload = Js.Ok b
    /\ IPv4Header.Parsed.ihl (IPv4Header.parse b) = words mod 16
    /\ IPv4Header.Parsed.totalLength (IPv4Header.parse b) = total mod 65536
    /\ ((length (IPv4Header.o_optionsBytes o) <= 40)%nat ->
        IPv4Header.Parsed.ihl (IPv4Header.parse b) = words)
    /\ (total < 65536 ->
        IPv4Header.Parsed.totalLength (IPv4Header.parse b) = total).
Proof.
  intros words total.
  destruct (pack_shape Number o payload)
    as (u & b & _ & Hb & _ & _ & _ & _ & _ & Hsame & H0 & H2 & H3 & _).
  exists b. split; [exact Hb|].
  pose proof (ceil_div4_bounds
                (Z.of_nat (length (IPv4Header.o_optionsBytes o))) ltac:(lia)) as Hc.
  assert (Hihl : IPv4Header.Parsed.ihl (IPv4Header.parse b) = words mod 16).
  { unfold IPv4Header.parse, Js.at0. cbn [IPv4Header.Parsed.ihl].
    rewrite Hsame, H0 by lia. cbn [default]. apply version_ihl_nibble. }
  assert (Htot : IPv4Header.Parsed.totalLength (IPv4Header.parse b) = total mod 65536).
  { unfold IPv4Header.parse, Js.at0. cbn [IPv4Header.Parsed.totalLength].
    rewrite !Hsame, H2, H3 by lia. cbn [default]. apply total_length_field. }
  split; [exact Hihl|]. split; [exact Htot|]. split.
  - intros Hlen. rewrite Hihl. apply Z.mod_small. unfold words. lia.
  - intros Hlt. rewrite Htot. apply Z.mod_small. unfold total, words in *. lia.
Qed.

(** C9 at the default field set with a three-byte payload. *)
Lemma C9_header_length_fields_witness :
  (length (IPv4Header.o_optionsBytes IPv4Header.defaults) <= 40)%nat
  /\ 5 * 4 + 3 < 65536
  /\ exists b : list Z,
       IPv4Header.pack Number_decimal (IPv4Header.new IPv4Header.defaults) [1; 2; 3]
       = Js.Ok b
       /\ IPv4Header.Parsed.ihl (IPv4Header.parse b) = 5
       /\ IPv4Header.Parsed.totalLength (IPv4Header.parse b) = 23.
Proof.
  split; [simpl; lia|]. split; [lia|].
  destruct (C9_header_length_fields Number_decimal IPv4Header.defaults [1; 2; 3])
    as (b & Hb & _ & _ & Hihl & Htot).
  exists b. split; [exact Hb|]. split.
  - apply Hihl. simpl. lia.
  - apply Htot. vm_compute. reflexivity.
Defined.

(** C9 fails as stated: with 44 option bytes the header has 16 words and the
    nibble holds 0; with a payload of 65516 bytes the total is 65536 and bytes
    2-3 hold 0. *)
Lemma C9_counterexample :
  (exists b,
     IPv4Header.pack Number_decimal (IPv4Header.new opts_44_options) [] = Js.Ok b
     /\ 5 + Js.ceil_div4 44 = 16
     /\ IPv4Header.Parsed.ihl (IPv4Header.parse b) = 0)
  /\ (exists b,
        IPv4Header.pack Number_decimal (IPv4Header.new IPv4Header.defaults)
          (replicate (Z.to_nat 65516) 0) = Js.Ok b
        /\ IPv4Header.Parsed.ihl (IPv4Header.parse b) * 4 + 65516 = 65536
        /\ IPv4Header.Parsed.totalLength (IPv4Header.parse b) = 0).
Proof.
  split.
  - eexists. split; [vm_compute; reflexivity|]. split; reflexivity.
  - eexists. split; [vm_compute; reflexivity|]. split; reflexivity.
Qed.

(** ** The packed transport header *)

Lemma shr_band_255 (x k : Z) :
  0 <= x < 2 ^ 32 -> 0 <= k < 32 ->
  Js.band (Js.shr x k) 255 = (x / 2 ^ k) mod 256.
Proof.
  intros Hx Hk. rewrite band_255. unfold Js.shr.
  rewrite to_uint32_small by lia. rewrite (Z.mod_small k 32) by lia.
  by rewrite Z.shiftr_div_pow2 by lia.
Qed.

Section TCPShape.
Variable o : TCPHeader.opts.
Variable payload : list Z.
Hypothesis base_offset : 5 <= TCPHeader.o_dataOffsetWords o.

Let h := TCPHeader.new o.
Let optLen := length (TCPHeader.o_optionsBytes o).

(** The packed header: twenty fixed bytes, the option bytes, zeros. *)
Lemma tcp_pack_shape :
  exists front : list Z,
    TCPHeader.pack h payload
    = Js.Ok (front
             ++ map Js.to_uint8 (TCPHeader.o_optionsBytes o)
             ++ replicate (Z.to_nat (4 * (TCPHeader.dataOffsetWords h - 5)) - optLen) 0)
    /\ length front = 20%nat
    /\ bytes_ok front
    /\ front !! 0%nat = Some (Js.to_uint8 (Js.band (Js.sar (TCPHeader.srcPort h) 8) 0xFF))
    /\ front !! 1%nat = Some (Js.to_uint8 (Js.band (TCPHeader.srcPort h) 0xFF))
    /\ front !! 2%nat = Some (Js.to_uint8 (Js.band (Js.sar (TCPHeader.dstPort h) 8) 0xFF))
    /\ front !! 3%nat = Some (Js.to_uint8 (Js.band (TCPHeader.dstPort h) 0xFF))
    /\ (forall i, (i < 4)%nat ->
          front !! (4 + i)%nat
          = Some (Js.to_uint8 (Js.band (Js.shr (TCPHeader.seq h) (24 - 8 * Z.of_nat i)) 0xFF))
          /\ front !! (8 + i)%nat
          = Some (Js.to_uint8 (Js.band (Js.shr (TCPHeader.ack h) (24 - 8 * Z.of_nat i)) 0xFF)))
    /\ front !! 12%nat
       = Some (Js.to_uint8 (Js.band (Js.shl (TCPHeader.dataOffsetWords h) 4) 0xF0))
    /\ front !! 13%nat = Some (Js.to_uint8 (TCPHeader.flags_byte (TCPHeader.flags h)))
    /\ front !! 14%nat = Some (Js.to_uint8 (Js.band (Js.sar (TCPHeader.windowSize h) 8) 0xFF))
    /\ front !! 15%nat = Some (Js.to_uint8 (Js.band (TCPHeader.windowSize h) 0xFF)).
Proof.
  pose proof (ceil_div4_bounds (Z.of_nat optLen) ltac:(lia)) as Hc.
  unfold TCPHeader.pack.
  assert (Hdo : TCPHeader.dataOffsetWords h
                = TCPHeader.o_dataOffsetWords o + Js.ceil_div4 (Z.of_nat optLen))
    by reflexivity.
  assert (Hopts : TCPHeader.optionsBytes h = TCPHeader.o_optionsBytes o) by reflexivity.
  rewrite Hopts.
  set (c := Js.ceil_div4 (Z.of_nat optLen)) in *.
  set (w := TCPHeader.dataOffsetWords h) in *.
  unfold Js.new_Uint8Array.
  destruct (Z.ltb_spec (w * 4) 0) as [Hneg|_]; [lia|].
  replace (Z.to_nat (w * 4)) with (20 + Z.to_nat (4 * (w - 5)))%nat by lia.
  rewrite replicate_add.
  change (replicate 20 0) with
    [0; 0; 0; 0; 0; 0; 0; 0; 0; 0; 0; 0; 0; 0; 0; 0; 0; 0; 0; 0].
  cbv beta zeta delta [Js.bind TCPHeader.store_be32]. cbn [app foldl Nat.add].
  store_front.
  eexists [_; _; _; _; _; _; _; _; _; _; _; _; _; _; _; _; _; _; _; _].
  split.
  - destruct ((5 <? w) && negb (length (TCPHeader.o_optionsBytes o) =? 0)%nat)
      eqn:Hset.
    + etransitivity;
        [apply (set_at_options
                  [_; _; _; _; _; _; _; _; _; _; _; _; _; _; _; _; _; _; _; _]);
         [reflexivity | fold optLen; lia]|].
      reflexivity.
    + assert (optLen = 0%nat) as Hz.
      { apply andb_false_iff in Hset as [Hset|Hset].
        - apply Z.ltb_ge in Hset. lia.
        - apply negb_false_iff, Nat.eqb_eq in Hset. exact Hset. }
      fold optLen.
      destruct (TCPHeader.o_optionsBytes o) eqn:Ho;
        [|simpl in *; subst optLen; simpl in Hz; lia].
      rewrite Hz. rewrite Nat.sub_0_r. cbn [map app]. reflexivity.
  - split; [reflexivity|].
    split; [unfold bytes_ok; repeat constructor; apply to_uint8_range|].
    repeat split; try reflexivity.
    all: destruct i as [|[|[|[|i]]]]; try lia; reflexivity.
Qed.
End TCPShape.

Lemma flags_byte_value (f : Flags.t) : TCPHeader.flags_byte f = flags_value f.
Proof. destruct f as [[] [] [] [] [] [] [] [] []]; reflexivity. Qed.

Lemma flags_value_range (f : Flags.t) : 0 <= flags_value f < 256.
Proof. destruct f as [[] [] [] [] [] [] [] [] []]; vm_compute; split; congruence. Qed.

Lemma flags_byte_ns_cwr (f : Flags.t) (n c n' c' : bool) :
  n || c = n' || c' ->
  TCPHeader.flags_byte (Flags.with_ns_cwr f n c)
  = TCPHeader.flags_byte (Flags.with_ns_cwr f n' c').
Proof.
  intros H. rewrite !flags_byte_value. unfold flags_value. simpl. by rewrite H.
Qed.

Lemma hex_value_hex (a : Z) : 0 <= a < 256 -> hex_value (hex (Some a) 2) = a.
Proof.
  intros Ha.
  assert (Hall : forallb (fun n => hex_value (hex (Some (Z.of_nat n)) 2) =? Z.of_nat n)
                         (seq 0 256) = true) by (vm_compute; reflexivity).
  rewrite forallb_forall in Hall.
  specialize (Hall (Z.to_nat a)).
  rewrite Z2Nat.id in Hall by lia.
  apply Z.eqb_eq, Hall. apply in_seq. lia.
Qed.

Lemma be32_digits (s : Z) :
  0 <= s < 2 ^ 32 ->
  (s / 2 ^ 24) mod 256 * 2 ^ 24 + (s / 2 ^ 16) mod 256 * 2 ^ 16
  + (s / 2 ^ 8) mod 256 * 2 ^ 8 + (s / 2 ^ 0) mod 256 = s.
Proof.
  intros Hs.
  change (2 ^ 0) with 1. rewrite Z.div_1_r.
  change (2 ^ 8) with 256. change (2 ^ 16) with (256 * 256).
  change (2 ^ 24) with (256 * 256 * 256).
  rewrite <- !Z.div_div by lia.
  pose proof (Z.div_mod s 256 ltac:(lia)).
  pose proof (Z.mod_pos_bound s 256 ltac:(lia)).
  pose proof (Z.div_mod (s / 256) 256 ltac:(lia)).
  pose proof (Z.mod_pos_bound (s / 256) 256 ltac:(lia)).
  pose proof (Z.div_mod (s / 256 / 256) 256 ltac:(lia)).
  pose proof (Z.mod_pos_bound (s / 256 / 256) 256 ltac:(lia)).
  assert (0 <= s / 256 / 256 / 256 < 256).
  { split.
    - repeat apply Z.div_pos; lia.
    - repeat (apply Z.div_lt_upper_bound; [lia|]). lia. }
  rewrite (Z.mod_small (s / 256 / 256 / 256)) by lia.
  lia.
Qed.

Lemma shr0_uint32 (x : Z) : Js.shr x 0 = x mod 2 ^ 32.
Proof.
  unfold Js.shr, Js.to_uint32. by rewrite Z.mod_0_l, Z.shiftr_0_r by lia.
Qed.

Section TCPRoundTrip.
Variable o : TCPHeader.opts.
Variable payload : list Z.
Hypothesis base_offset : 5 <= TCPHeader.o_dataOffsetWords o.

Lemma tcp_be32 (b front rest : list Z) (off : nat) (x : Z) :
  b = front ++ rest -> length front = 20%nat -> (off + 3 < 20)%nat ->
  (forall i, (i < 4)%nat ->
     front !! (off + i)%nat
     = Some (Js.to_uint8 (Js.band (Js.shr (Js.shr x 0) (24 - 8 * Z.of_nat i)) 0xFF))) ->
  be32 b off = x mod 2 ^ 32.
Proof.
  intros -> Hlen Hoff Hbytes.
  rewrite shr0_uint32 in Hbytes.
  pose proof (Z.mod_pos_bound x (2 ^ 32) ltac:(lia)) as Hs.
  set (s := x mod 2 ^ 32) in *.
  assert (Hat : forall i, (i < 4)%nat ->
            Js.at0 (front ++ rest) (off + i)
            = (s / 2 ^ (24 - 8 * Z.of_nat i)) mod 256).
  { intros i Hi. unfold Js.at0.
    rewrite lookup_app_l by lia. rewrite (Hbytes i Hi). cbn [default].
    rewrite shr_band_255 by lia.
    apply to_uint8_id. apply Z.mod_pos_bound. lia. }
  unfold be32.
  rewrite <- (Nat.add_0_r off) at 1.
  rewrite !Hat by lia.
  change (24 - 8 * Z.of_nat 0) with 24. change (24 - 8 * Z.of_nat 1) with 16.
  change (24 - 8 * Z.of_nat 2) with 8. change (24 - 8 * Z.of_nat 3) with 0.
  by apply be32_digits.
Qed.

(** What [parse] reads back from a packed header. *)
Lemma tcp_parse_pack :
  exists b : list Z,
    TCPHeader.pack (TCPHeader.new o) payload = Js.Ok b
    /\ b !! 13%nat = Some (flags_value (TCPHeader.o_flags o))
    /\ TCPHeader.Parsed.srcPort (TCPHeader.parse b) = TCPHeader.o_srcPort o mod 65536
    /\ TCPHeader.Parsed.dstPort (TCPHeader.parse b) = TCPHeader.o_dstPort o mod 65536
    /\ TCPHeader.Parsed.windowSize (TCPHeader.parse b)
       = TCPHeader.o_windowSize o mod 65536
    /\ TCPHeader.Parsed.flagsHex (TCPHeader.parse b)
       = hex (Some (flags_value (TCPHeader.o_flags o))) 2
    /\ be32 b 4 = TCPHeader.o_seq o mod 2 ^ 32
    /\ be32 b 8 = TCPHeader.o_ack o mod 2 ^ 32.
Proof.
  destruct (tcp_pack_shape o payload base_offset)
    as (front & Hb & Hlen & Hok & H0 & H1 & H2 & H3 & Hsa & H12 & H13 & H14 & H15).
  eexists. split; [exact Hb|].
  set (rest := map Js.to_uint8 (TCPHeader.o_optionsBytes o) ++ _) in *.
  assert (Hfront : forall i, (i < 20)%nat -> (front ++ rest) !! i = front !! i).
  { intros i Hi. apply lookup_app_l. lia. }
  pose proof (flags_value_range (TCPHeader.o_flags o)) as Hfr.
  assert (Hb13 : (front ++ rest) !! 13%nat = Some (flags_value (TCPHeader.o_flags o))).
  { rewrite Hfront, H13 by lia. cbn [TCPHeader.new TCPHeader.flags].
    rewrite flags_byte_value. by rewrite to_uint8_id. }
  split; [exact Hb13|].
  unfold TCPHeader.parse, Js.at0.
  cbn [TCPHeader.Parsed.srcPort TCPHeader.Parsed.dstPort
       TCPHeader.Parsed.windowSize TCPHeader.Parsed.flagsHex].
  rewrite Hb13.
  rewrite !Hfront by lia. rewrite H0, H1, H2, H3, H14, H15. cbn [from_option id].
  rewrite !total_length_field.
  cbn [TCPHeader.new TCPHeader.srcPort TCPHeader.dstPort TCPHeader.windowSize].
  rewrite band_65535, Z.mod_mod by lia.
  repeat split.
  - apply (tcp_be32 _ front rest 4 (TCPHeader.o_seq o)); [done|done|lia|].
    intros i Hi. exact (proj1 (Hsa i Hi)).
  - apply (tcp_be32 _ front rest 8 (TCPHeader.o_ack o)); [done|done|lia|].
    intros i Hi. exact (proj2 (Hsa i Hi)).
Qed.
End TCPRoundTrip.

(** C2, as the code has it. For a field set with a base data offset of 5
    to 15 words and ports and window size in [0, 65535], decoding the
    encoded header gives back the source port, the destination port and the
    window size, and the flags byte as hexadecimal text, its top bit being
    NS or CWR. The sequence and acknowledgment numbers are written big-endian
    at bytes 4-7 and 8-11 (modulo 2^32); [parse] returns neither. The base
    is a number the caller chooses: one below 5 leaves no room for the fixed
    fields, and one that asks for more bytes than the engine allocates makes
    [pack] throw; the option bytes may be any array. *)
Theorem C2_decode_encode_transport (o : TCPHeader.opts) (payload : list Z) :
  5 <= TCPHeader.o_dataOffsetWords o <= 15 ->
  0 <= TCPHeader.o_srcPort o < 65536 ->
  0 <= TCPHeader.o_dstPort o < 65536 ->
  0 <= TCPHeader.o_windowSize o < 65536 ->
  exists b : list Z,
    TCPHeader.pack (TCPHeader.new o) payload = Js.Ok b
    /\ TCPHeader.Parsed.srcPort (TCPHeader.parse b) = TCPHeader.o_srcPort o
    /\ TCPHeader.Parsed.dstPort (TCPHeader.parse b) = TCPHeader.o_dstPort o
    /\ TCPHeader.Parsed.windowSize (TCPHeader.parse b) = TCPHeader.o_windowSize o
    /\ TCPHeader.Parsed.flagsHex (TCPHeader.parse b)
       = hex (Some (flags_value (TCPHeader.o_flags o))) 2
    /\ hex_value (TCPHeader.Parsed.flagsHex (TCPHeader.parse b))
       = flags_value (TCPHeader.o_flags o)
    /\ be32 b 4 = TCPHeader.o_seq o mod 2 ^ 32
    /\ be32 b 8 = TCPHeader.o_ack o mod 2 ^ 32.
Proof.
  intros [Hbase _] Hsrc Hdst Hwin.
  destruct (tcp_parse_pack o payload Hbase)
    as (b & Hb & _ & Hs & Hd & Hw & Hf & Hseq & Hack).
  exists b. split; [exact Hb|].
  rewrite Hs, Hd, Hw, Hf, !Z.mod_small by lia.
  repeat split; try assumption.
  apply hex_value_hex, flags_value_range.
Qed.

(** C2 at the default field set: base 5, ports 53000 and 443, window
    65535, flags ACK and PSH, sequence and acknowledgment number 1. *)
Lemma C2_decode_encode_transport_witness :
  5 <= TCPHeader.o_dataOffsetWords TCPHeader.defaults <= 15
  /\ exists b : list Z,
       TCPHeader.pack (TCPHeader.new TCPHeader.defaults) [] = Js.Ok b
       /\ TCPHeader.Parsed.srcPort (TCPHeader.parse b) = 53000
       /\ TCPHeader.Parsed.dstPort (TCPHeader.parse b) = 443
       /\ TCPHeader.Parsed.windowSize (TCPHeader.parse b) = 65535
       /\ TCPHeader.Parsed.flagsHex (TCPHeader.parse b) = "0x18"%string
       /\ be32 b 4 = 1 /\ be32 b 8 = 1.
Proof.
  assert (Hbase : 5 <= TCPHeader.o_dataOffsetWords TCPHeader.defaults <= 15)
    by (simpl; lia).
  split; [exact Hbase|].
  destruct (C2_decode_encode_transport TCPHeader.defaults [] Hbase)
    as (b & Hb & Hs & Hd & Hw & Hf & _ & Hseq & Hack); [simpl; lia ..|].
  exists b. repeat split; assumption.
Defined.

(** C2 fails as stated: two field sets that differ in the sequence and
    acknowledgment numbers decode to the same result, and so do two that
    differ in which of NS and CWR is set; a source port of 70000, which does
    not fit 16 bits, decodes as 4464. *)
Lemma C2_counterexample :
  let o1 := set_seq_ack TCPHeader.defaults 1 1 in
  let o2 := set_seq_ack TCPHeader.defaults 2 7 in
  let o3 := set_flags TCPHeader.defaults (Flags.with_ns_cwr Flags.defaults true false) in
  let o4 := set_flags TCPHeader.defaults (Flags.with_ns_cwr Flags.defaults false true) in
  (exists b1 b2,
     TCPHeader.pack (TCPHeader.new o1) [] = Js.Ok b1
     /\ TCPHeader.pack (TCPHeader.new o2) [] = Js.Ok b2
     /\ TCPHeader.o_seq o1 <> TCPHeader.o_seq o2
     /\ TCPHeader.o_ack o1 <> TCPHeader.o_ack o2
     /\ TCPHeader.parse b1 = TCPHeader.parse b2)
  /\ (exists b3 b4,
        TCPHeader.pack (TCPHeader.new o3) [] = Js.Ok b3
        /\ TCPHeader.pack (TCPHeader.new o4) [] = Js.Ok b4
        /\ TCPHeader.o_flags o3 <> TCPHeader.o_flags o4
        /\ TCPHeader.parse b3 = TCPHeader.parse b4)
  /\ (exists b5,
        TCPHeader.pack (TCPHeader.new (set_srcPort TCPHeader.defaults 70000)) []
        = Js.Ok b5
        /\ TCPHeader.Parsed.srcPort (TCPHeader.parse b5) = 4464).
Proof.
  split; [|split].
  - eexists _, _. split; [vm_compute; reflexivity|].
    split; [vm_compute; reflexivity|].
    split; [vm_compute; congruence|]. split; [vm_compute; congruence|].
    vm_compute. reflexivity.
  - eexists _, _. split; [vm_compute; reflexivity|].
    split; [vm_compute; reflexivity|].
    split; [vm_compute; congruence|].
    vm_compute. reflexivity.
  - eexists. split; [vm_compute; reflexivity|]. vm_compute. reflexivity.
Qed.

Lemma pack_flags_byte (o : TCPHeader.opts) (f f' : Flags.t) (payload : list Z) :
  TCPHeader.flags_byte f = TCPHeader.flags_byte f' ->
  TCPHeader.pack (TCPHeader.new (set_flags o f)) payload
  = TCPHeader.pack (TCPHeader.new (set_flags o f')) payload.
Proof.
  intros Hf. unfold TCPHeader.pack.
  cbn [TCPHeader.new set_flags TCPHeader.flags TCPHeader.dataOffsetWords
       TCPHeader.srcPort TCPHeader.dstPort TCPHeader.seq TCPHeader.ack
       TCPHeader.windowSize TCPHeader.urgentPtr TCPHeader.optionsBytes
       TCPHeader.o_srcPort TCPHeader.o_dstPort TCPHeader.o_seq TCPHeader.o_ack
       TCPHeader.o_dataOffsetWords TCPHeader.o_flags TCPHeader.o_windowSize
       TCPHeader.o_urgentPtr TCPHeader.o_optionsBytes].
  by rewrite Hf.
Qed.

(** C10. In a packed transport header, bit 7 of byte 13 is NS or CWR; any
    two settings of NS and CWR with the same disjunction give the same bytes,
    in particular NS alone and CWR alone. The base data offset is 5 to 15
    words (5 in the specification); the option bytes may be any array. *)
Theorem C10_ns_cwr_share_bit7 (o : TCPHeader.opts) (payload : list Z) :
  5 <= TCPHeader.o_dataOffsetWords o <= 15 ->
  let f := TCPHeader.o_flags o in
  exists (b : list Z) (b13 : Z),
    TCPHeader.pack (TCPHeader.new o) payload = Js.Ok b
    /\ b !! 13%nat = Some b13
    /\ Z.testbit b13 7 = Flags.ns f || Flags.cwr f
    /\ (forall n c n' c' : bool, n || c = n' || c' ->
          TCPHeader.pack (TCPHeader.new (set_flags o (Flags.with_ns_cwr f n c))) payload
          = TCPHeader.pack (TCPHeader.new (set_flags o (Flags.with_ns_cwr f n' c'))) payload)
    /\ TCPHeader.pack (TCPHeader.new (set_flags o (Flags.with_ns_cwr f true false))) payload
       = TCPHeader.pack (TCPHeader.new (set_flags o (Flags.with_ns_cwr f false true))) payload.
Proof.
  intros [Hbase _] f.
  destruct (tcp_parse_pack o payload Hbase) as (b & Hb & Hb13 & _).
  exists b, (flags_value f). split; [exact Hb|]. split; [exact Hb13|].
  split.
  { destruct f as [[] [] [] [] [] [] [] [] []]; reflexivity. }
  split.
  - intros n c n' c' Hnc. apply pack_flags_byte. by apply flags_byte_ns_cwr.
  - apply pack_flags_byte. by apply flags_byte_ns_cwr.
Qed.

(** C10 at the default field set with NS set and CWR clear: bit 7 of byte
    13 is set, the byte is 0x98, and the header is the one packed with NS
    clear and CWR set. *)
Lemma C10_ns_cwr_share_bit7_witness :
  let o_ns := set_flags TCPHeader.defaults (Flags.with_ns_cwr Flags.defaults true false) in
  let o_cwr := set_flags TCPHeader.defaults (Flags.with_ns_cwr Flags.defaults false true) in
  5 <= TCPHeader.o_dataOffsetWords o_ns <= 15
  /\ exists b : list Z,
       TCPHeader.pack (TCPHeader.new o_ns) [] = Js.Ok b
       /\ b !! 13%nat = Some 152
       /\ Z.testbit 152 7 = true
       /\ TCPHeader.pack (TCPHeader.new o_cwr) [] = Js.Ok b.
Proof.
  intros o_ns o_cwr.
  assert (Hbase : 5 <= TCPHeader.o_dataOffsetWords o_ns <= 15) by (simpl; lia).
  split; [exact Hbase|].
  destruct (C10_ns_cwr_share_bit7 o_ns [] Hbase)
    as (b & b13 & Hb & H13 & Hbit & _ & Hsame).
  exists b.
  assert (Hv : b = [207; 8; 1; 187; 0; 0; 0; 1; 0; 0; 0; 1; 80; 152; 255; 255;
                    0; 0; 0; 0]).
  { assert (Hc : TCPHeader.pack (TCPHeader.new o_ns) []
                 = Js.Ok [207; 8; 1; 187; 0; 0; 0; 1; 0; 0; 0; 1; 80; 152; 255; 255;
                          0; 0; 0; 0]) by (vm_compute; reflexivity).
    rewrite Hb in Hc. by injection Hc. }
  split; [exact Hb|]. split; [by rewrite Hv|]. split; [reflexivity|].
  rewrite <- Hb. symmetry. exact Hsame.
Defined.

(** ** Buffers built by [cat] and [concat] *)

Lemma cat_ok (a b : list Z) :
  cat a b = Js.Ok (map Js.to_uint8 a ++ map Js.to_uint8 b).
Proof.
  unfold cat, Js.new_Uint8Array.
  destruct (Z.ltb_spec (Z.of_nat (length a + length b)) 0) as [Hneg|_]; [lia|].
  rewrite Nat2Z.id. cbn [Js.bind]. unfold Js.set_at at 1.
  rewrite length_replicate.
  destruct (Nat.ltb_spec (length a + length b) (0 + length a)) as [Hlt|_]; [lia|].
  cbn [Js.bind Nat.add]. rewrite take_0, drop_replicate. cbn [app].
  replace (length a + length b - length a)%nat with (length b) by lia.
  unfold Js.set_at. rewrite length_app, length_map, length_replicate.
  destruct (Nat.ltb_spec (length a + length b) (length a + length b)) as [Hlt|_]; [lia|].
  f_equal. rewrite take_app_length' by (by rewrite length_map).
  f_equal. rewrite drop_ge; [by rewrite app_nil_r|].
  rewrite length_app, length_map, length_replicate. lia.
Qed.

Lemma cat_bytes (a b : list Z) :
  bytes_ok a -> bytes_ok b -> cat a b = Js.Ok (a ++ b).
Proof. intros Ha Hb. by rewrite cat_ok, !map_to_uint8_id. Qed.

Lemma concat_loop_ok (arr : list (list Z)) :
  forall (pre : list Z) (n : nat),
    n = length (List.concat arr) ->
    concat_loop arr (length pre) (pre ++ replicate n 0)
    = Js.Ok (pre ++ List.concat (map (map Js.to_uint8) arr)).
Proof.
  induction arr as [|b rest IH]; intros pre n Hn; simpl in *.
  - subst n. reflexivity.
  - rewrite length_app in Hn. unfold Js.set_at.
    rewrite length_app, length_replicate.
    destruct (Nat.ltb_spec (length pre + n) (length pre + length b)) as [Hlt|_]; [lia|].
    cbn [Js.bind]. rewrite take_app_length.
    rewrite drop_app_add' by done. rewrite drop_replicate.
    specialize (IH (pre ++ map Js.to_uint8 b) (n - length b)%nat ltac:(lia)).
    rewrite length_app, length_map in IH.
    rewrite <- app_assoc in IH. rewrite IH. by rewrite <- app_assoc.
Qed.

Lemma foldl_lengths (arr : list (list Z)) (n : nat) :
  foldl (fun n b => (n + length b)%nat) n arr = (n + length (List.concat arr))%nat.
Proof.
  revert n. induction arr as [|b rest IH]; intros n; simpl; [lia|].
  rewrite IH, length_app. lia.
Qed.

Lemma concat_ok (arr : list (list Z)) :
  concat arr = Js.Ok (List.concat (map (map Js.to_uint8) arr)).
Proof.
  unfold concat, Js.new_Uint8Array. rewrite foldl_lengths. simpl.
  destruct (Z.ltb_spec (Z.of_nat (length (List.concat arr))) 0) as [Hneg|_]; [lia|].
  rewrite Nat2Z.id. cbn [Js.bind].
  exact (concat_loop_ok arr [] _ eq_refl).
Qed.

Lemma concat_bytes (arr : list (list Z)) :
  Forall bytes_ok arr -> concat arr = Js.Ok (List.concat arr).
Proof.
  intros Harr. rewrite concat_ok. do 2 f_equal.
  induction Harr as [|b rest Hb _ IH]; simpl; [done|].
  by rewrite map_to_uint8_id, IH.
Qed.

(** ** Frames and reassembly *)

Section Frames.
Variable Number : string -> Z.
Variable c : Client.t.
Variable dstHostIp : string.
Variable dstPort : Z.

(** A frame of the client is a 20-byte network header that announces five
    words, a 20-byte transport header that announces five words, and the
    payload. *)
Lemma frame_shape (nsegments i : nat) (pl : list Z) :
  bytes_ok pl ->
  exists ipHdr tcpHdr : list Z,
    Client.frame Number c dstHostIp dstPort nsegments i pl
    = Js.Ok (ipHdr ++ tcpHdr ++ pl)
    /\ length ipHdr = 20%nat /\ length tcpHdr = 20%nat
    /\ ipHdr !! 0%nat = Some 69
    /\ tcpHdr !! 12%nat = Some 80.
Proof.
  intros Hpl. unfold Client.frame.
  match goal with
  | |- context [TCPHeader.pack (TCPHeader.new ?o) pl] =>
      destruct (tcp_pack_shape o pl ltac:(simpl; lia))
        as (tfront & Ht & Htlen & Htok & _ & _ & _ & _ & _ & Ht12 & _)
  end.
  rewrite Ht. cbn [Js.bind].
  match type of Ht with
  | _ = Js.Ok (tfront ++ ?rest) => change rest with (@nil Z) in *
  end.
  rewrite app_nil_r in *.
  rewrite (cat_bytes tfront pl) by done. cbn [Js.bind].
  match goal with
  | |- context [IPv4Header.pack Number (IPv4Header.new ?o) ?p] =>
      destruct (pack_shape Number o p)
        as (u & b & _ & Hb & _ & Hbok & Hblen & _ & _ & Hsame & Hu0 & _)
  end.
  rewrite Hb. cbn [Js.bind].
  rewrite cat_bytes; [|done|by apply bytes_ok_app].
  exists b, tfront. split; [reflexivity|].
  split; [|split; [exact Htlen|split]].
  - change (IPv4Header.ihl _) with 5 in Hblen. lia.
  - rewrite Hsame, Hu0 by lia. reflexivity.
  - rewrite Ht12. reflexivity.
Qed.

Lemma frame_carries (nsegments i : nat) (pl : list Z) :
  bytes_ok pl ->
  exists f, Client.frame Number c dstHostIp dstPort nsegments i pl = Js.Ok f
            /\ carries f pl.
Proof.
  intros Hpl.
  destruct (frame_shape nsegments i pl Hpl)
    as (ipHdr & tcpHdr & Hf & Hilen & Htlen & Hi0 & Ht12).
  eexists. split; [exact Hf|].
  intros s Hs. unfold Server.onFrame.
  assert (Hihl : IPv4Header.Parsed.ihl (IPv4Header.parse (ipHdr ++ tcpHdr ++ pl)) = 5).
  { unfold IPv4Header.parse, Js.at0. cbn [IPv4Header.Parsed.ihl].
    rewrite lookup_app_l by lia. rewrite Hi0. reflexivity. }
  rewrite Hihl. change (Z.to_nat (5 * 4)) with 20%nat.
  unfold Js.slice_from.
  rewrite (drop_app_length' ipHdr) by done.
  assert (Hoff : TCPHeader.Parsed.dataOffsetBytes (TCPHeader.parse (tcpHdr ++ pl)) = 20).
  { unfold TCPHeader.parse, Js.at0. cbn [TCPHeader.Parsed.dataOffsetBytes].
    rewrite lookup_app_l by lia. rewrite Ht12. reflexivity. }
  rewrite Hoff. change (Z.to_nat 20) with 20%nat.
  rewrite (drop_app_length' tcpHdr) by done.
  cbn [Server.reassembly].
  rewrite concat_bytes by (apply Forall_app; split; [done|by constructor]).
  cbn [Js.bind]. unfold pushed.
  destruct (has_blank_line _); eexists; reflexivity.
Qed.

Lemma frames_from_carries (nsegments : nat) (segments : list (list Z)) :
  Forall bytes_ok segments ->
  forall i, exists frames,
    Client.frames_from Number c dstHostIp dstPort nsegments i segments
    = Js.Ok frames
    /\ Forall2 carries frames segments.
Proof.
  induction 1 as [|pl rest Hpl _ IH]; intros i; cbn [Client.frames_from].
  - exists []. split; [done|constructor].
  - destruct (frame_carries nsegments i pl Hpl) as (f & Hf & Hc).
    destruct (IH (S i)) as (fs & Hfs & Hcs).
    rewrite Hf. cbn [Js.bind]. rewrite Hfs. cbn [Js.bind].
    exists (f :: fs). split; [done|by constructor].
Qed.
End Frames.

Lemma onFrames_carries (arrivals : list (list Z * list Z)) :
  Forall (fun a => carries (fst a) (snd a) /\ bytes_ok (snd a)) arrivals ->
  forall s, Forall bytes_ok (Server.reassembly s) ->
    Server.onFrames s (map fst arrivals)
    = Js.Ok {| Server.ip := Server.ip s; Server.port := Server.port s;
               Server.reassembly := Server.reassembly s ++ map snd arrivals |}.
Proof.
  induction 1 as [|[f pl] rest [Hc Hpl] _ IH]; intros s Hs; simpl.
  - rewrite app_nil_r. by destruct s.
  - destruct (Hc s Hs) as [r Hr]. simpl in Hr. rewrite Hr. cbn [Js.bind fst].
    rewrite IH by (simpl; apply Forall_app; split; [done|by constructor]).
    simpl. by rewrite <- app_assoc.
Qed.

Lemma slices_bytes_ok (P : list Z) (a b : nat) : bytes_ok P -> bytes_ok (Js.slice P a b).
Proof. intros HP. unfold bytes_ok, Js.slice. by apply Forall_take, Forall_drop. Qed.

(** C4, as the code has it. The buffer of a server, empty before the first
    arrival, holds the payloads in the order the frames arrived and [concat]
    joins them in that order: for every arrival order of the client's frames
    the result is the segments concatenated in arrival order, which is the
    message when the frames arrive in the order they were sent. *)
Theorem C4_reassembly_in_arrival_order
    (Number : string -> Z) (c : Client.t) (msg : list Z)
    (dstHostIp : string) (dstPort : Z) (s : Server.t) :
  bytes_ok msg -> Server.reassembly s = [] ->
  exists segments frames : list (list Z),
    segment msg 600 = Some segments
    /\ Client.send Number c msg dstHostIp dstPort = Some (Js.Ok frames)
    /\ length frames = length segments
    /\ List.concat segments = msg
    /\ (forall arrivals : list (list Z * list Z),
          arrivals ≡ₚ zip frames segments ->
          exists s',
            Server.onFrames s (map fst arrivals) = Js.Ok s'
            /\ Server.reassembly s' = map snd arrivals
            /\ concat (Server.reassembly s')
               = Js.Ok (List.concat (map snd arrivals)))
    /\ (exists s',
          Server.onFrames s frames = Js.Ok s'
          /\ concat (Server.reassembly s') = Js.Ok msg).
Proof.
  intros Hmsg Hs.
  destruct (segment_spec msg 600 ltac:(lia)) as (segs & Hseg & Hnth & _ & Hcat).
  assert (Hok : Forall bytes_ok segs).
  { apply Forall_lookup. intros i x Hx.
    rewrite (Hnth i) in Hx by (by eapply lookup_lt_Some).
    injection Hx as <-. by apply slices_bytes_ok. }
  destruct (frames_from_carries Number c dstHostIp dstPort (length segs) segs Hok 0%nat)
    as (frames & Hframes & Hcarry).
  pose proof (Forall2_length _ _ _ Hcarry) as Hlen.
  assert (Hall : Forall (fun a => carries (fst a) (snd a) /\ bytes_ok (snd a))
                        (zip frames segs)).
  { clear Hframes Hlen Hnth Hcat Hseg.
    induction Hcarry as [|f pl fs pls Hc _ IH]; simpl; [constructor|].
    inversion Hok; subst. constructor; [by split|by apply IH]. }
  assert (Hany : forall arrivals : list (list Z * list Z),
            arrivals ≡ₚ zip frames segs ->
            exists s',
              Server.onFrames s (map fst arrivals) = Js.Ok s'
              /\ Server.reassembly s' = map snd arrivals
              /\ concat (Server.reassembly s')
                 = Js.Ok (List.concat (map snd arrivals))).
  { intros arrivals Hperm.
    assert (Harr : Forall (fun a => carries (fst a) (snd a) /\ bytes_ok (snd a)) arrivals)
      by (by rewrite Hperm).
    eexists. split; [apply (onFrames_carries arrivals Harr s); by rewrite Hs|].
    cbn [Server.reassembly]. rewrite Hs. cbn [app]. split; [done|].
    apply concat_bytes.
    clear -Harr. induction Harr as [|a rest [_ Ha] _ IH]; simpl; by constructor. }
  exists segs, frames. split; [exact Hseg|].
  split; [unfold Client.send; by rewrite Hseg, Hframes|].
  split; [exact Hlen|]. split; [exact Hcat|]. split; [exact Hany|].
  destruct (Hany (zip frames segs) ltac:(done)) as (s' & Hrun & Hre & Hcc).
  exists s'. rewrite Hcc.
  assert (Hfst : map fst (zip frames segs) = frames).
  { clear -Hlen. revert segs Hlen.
    induction frames as [|f fs IH]; intros [|p ps] Hl; simpl in *; try lia; [done|].
    f_equal. apply IH. lia. }
  assert (Hsnd : map snd (zip frames segs) = segs).
  { clear -Hlen. revert segs Hlen.
    induction frames as [|f fs IH]; intros [|p ps] Hl; simpl in *; try lia; [done|].
    f_equal. apply IH. lia. }
  rewrite Hfst in Hrun. rewrite Hsnd, Hcat. by split.
Qed.

(** C4 at a message of 1500 bytes, which the client sends in three frames,
    at a fresh server: when the third frame arrives first the buffer joins to
    the last 300 bytes followed by the first 1200, and when the frames arrive
    as sent it joins to the message. *)
Lemma C4_reassembly_in_arrival_order_witness :
  bytes_ok msg_1500 /\ Server.reassembly demo_server = []
  /\ exists (f0 f1 f2 : list Z) (s' s'' : Server.t),
       Client.send Number_decimal demo_client msg_1500 "104.18.32.47" 443
       = Some (Js.Ok [f0; f1; f2])
       /\ Server.onFrames demo_server [f2; f0; f1] = Js.Ok s'
       /\ concat (Server.reassembly s')
          = Js.Ok (replicate 300 67 ++ replicate 600 65 ++ replicate 600 66)
       /\ Server.onFrames demo_server [f0; f1; f2] = Js.Ok s''
       /\ concat (Server.reassembly s'') = Js.Ok msg_1500.
Proof.
  assert (Hb : bytes_ok msg_1500).
  { unfold msg_1500. repeat apply bytes_ok_app; apply Forall_replicate; lia. }
  split; [exact Hb|]. split; [reflexivity|].
  destruct (C4_reassembly_in_arrival_order Number_decimal demo_client msg_1500
              "104.18.32.47" 443 demo_server Hb eq_refl)
    as (segs & frames & Hseg & Hsend & Hlen & _ & Hany & s'' & Hrun'' & Hcc'').
  assert (Hsegs : segment msg_1500 600
                  = Some [replicate 600 65; replicate 600 66; replicate 300 67])
    by (vm_compute; reflexivity).
  rewrite Hsegs in Hseg. injection Hseg as <-.
  destruct frames as [|f0 [|f1 [|f2 [|f3 rest]]]]; try discriminate Hlen.
  destruct (Hany [(f2, replicate 300 67); (f0, replicate 600 65); (f1, replicate 600 66)])
    as (s' & Hrun' & _ & Hcc').
  { apply (Permutation_cons_app
             [(f0, replicate 600 65); (f1, replicate 600 66)] []
             (f2, replicate 300 67)).
    reflexivity. }
  exists f0, f1, f2, s', s''.
  split; [exact Hsend|]. split; [exact Hrun'|].
  split; [rewrite Hcc'; vm_compute; reflexivity|].
  split; [exact Hrun'' | exact Hcc''].
Defined.

(** C4 fails as stated: the two frames of a 601-byte message, arriving in
    the reverse order, leave the last byte of the message at the front of the
    buffer. *)
Lemma C4_counterexample :
  exists f1 f2 s',
    Client.send Number_decimal demo_client msg_601 "104.18.32.47" 443
    = Some (Js.Ok [f1; f2])
    /\ Server.onFrames demo_server [f2; f1] = Js.Ok s'
    /\ concat (Server.reassembly s') = Js.Ok (66 :: replicate 600 65)
    /\ 66 :: replicate 600 65 <> msg_601.
Proof.
  eexists _, _, _.
  split; [vm_compute; reflexivity|].
  split; [vm_compute; reflexivity|].
  split; [vm_compute; reflexivity|].
  vm_compute. discriminate.
Qed.

(** ** The link *)

Lemma includes_In (l : list string) (s : string) :
  NetworkLink.includes l s = true <-> In s l.
Proof.
  unfold NetworkLink.includes. rewrite existsb_exists. split.
  - intros (x & Hx & Heq). apply String.eqb_eq in Heq. by subst.
  - intros Hs. exists s. split; [done|]. apply String.eqb_refl.
Qed.

Lemma Qle_bool_false (a b : Q) : Qle_bool a b = false <-> (b < a)%Q.
Proof.
  split.
  - intros H. apply Qnot_le_lt. intros Hle. apply Qle_bool_iff in Hle. congruence.
  - intros H. destruct (Qle_bool a b) eqn:E; [|done].
    apply Qle_bool_iff in E. lra.
Qed.

(** The constructor keeps the medium and the sign of the rate: it only
    replaces a rate of exactly 1 on a historical medium, by a positive rate. *)
Lemma new_medium (R : Type) (o : NetworkLink.t R) :
  NetworkLink.medium (NetworkLink.new o) = NetworkLink.medium o.
Proof. reflexivity. Qed.

Lemma legacy_rate_pos (m : string) :
  (0 < default (1 # 100)
         (match NetworkLink.mediaDB_get m with
          | Some e => NetworkLink.legacyGbps e
          | None => None
          end))%Q.
Proof.
  unfold NetworkLink.mediaDB_get, NetworkLink.mediaDB. cbn [find fst snd].
  repeat (destruct (String.eqb _ m); [reflexivity|]). reflexivity.
Qed.

Lemma new_rate_sign (R : Type) (o : NetworkLink.t R) :
  ((NetworkLink.rateGbps o <= 0)%Q ->
   NetworkLink.rateGbps (NetworkLink.new o) = NetworkLink.rateGbps o)
  /\ ((0 < NetworkLink.rateGbps o)%Q ->
      (0 < NetworkLink.rateGbps (NetworkLink.new o))%Q).
Proof.
  unfold NetworkLink.new. cbn [NetworkLink.rateGbps]. split.
  - intros Hle. destruct (NetworkLink.includes _ _); [|reflexivity].
    destruct (Qeq_bool (NetworkLink.rateGbps o) 1) eqn:E; [|reflexivity].
    apply Qeq_bool_iff in E. lra.
  - intros Hpos. destruct (_ && _); [apply legacy_rate_pos | exact Hpos].
Qed.

(** C6. For a link built by the constructor, [connect] throws an error when
    the requested medium is not one of the seven supported media or the
    configured rate is not positive; with a supported medium and a positive
    rate it succeeds and registers the receiver (inside its logging wrapper);
    every link that [connect] returns is connected, whatever it was before,
    and there is no operation that clears the receiver; a receiver that is
    no function is a type error. *)
Theorem C6_connect_validates (R : Type) (o : NetworkLink.t R) (f : R)
    (w : NetworkLink.world) :
  let l := NetworkLink.new o in
  (~ In (NetworkLink.medium o) NetworkLink.ACCEPTED_MEDIA ->
   NetworkLink.connect l (NetworkLink.Function f) w = Js.Throw Js.Error)
  /\ ((NetworkLink.rateGbps o <= 0)%Q ->
      NetworkLink.connect l (NetworkLink.Function f) w = Js.Throw Js.Error)
  /\ (In (NetworkLink.medium o) NetworkLink.ACCEPTED_MEDIA ->
      (0 < NetworkLink.rateGbps o)%Q ->
      exists l' w',
        NetworkLink.connect l (NetworkLink.Function f) w = Js.Ok (l', w')
        /\ NetworkLink.rx l' = Some (NetworkLink.Wrapped f)
        /\ NetworkLink.receiver_of (NetworkLink.Wrapped f) = f
        /\ l' = NetworkLink.set_rx l (NetworkLink.Wrapped f)
        /\ NetworkLink.timers w' = NetworkLink.timers w)
  /\ (forall (l0 : NetworkLink.t R) r l' w',
        NetworkLink.connect l0 r w = Js.Ok (l', w') ->
        NetworkLink.rx l' <> None)
  /\ NetworkLink.connect l NetworkLink.NotFunction w = Js.Throw Js.TypeError.
Proof.
  intros l. subst l. destruct (new_rate_sign R o) as [Hkeep Hpos].
  split; [|split; [|split; [|split]]].
  - intros Hnot. unfold NetworkLink.connect. rewrite new_medium.
    destruct (String.eqb _ _); [done|].
    destruct (NetworkLink.includes _ _) eqn:E; [|done].
    apply includes_In in E. contradiction.
  - intros Hrate. unfold NetworkLink.connect.
    destruct (String.eqb _ _); [done|].
    destruct (negb _); [done|].
    rewrite (Hkeep Hrate).
    apply Qle_bool_iff in Hrate. by rewrite Hrate.
  - intros Hin Hrate. unfold NetworkLink.connect. rewrite new_medium.
    destruct (String.eqb_spec (NetworkLink.medium o) EmptyString) as [He|_].
    { rewrite He in Hin. simpl in Hin.
      repeat (destruct Hin as [Hin|Hin]; [discriminate|]). contradiction. }
    apply includes_In in Hin. rewrite Hin. cbn [negb].
    specialize (Hpos Hrate). apply Qle_bool_false in Hpos.
    rewrite Hpos.
    eexists _, _. repeat split.
  - intros l0 r l' w' Hc. unfold NetworkLink.connect in Hc.
    destruct r as [g|]; [|discriminate].
    destruct (String.eqb _ _); [discriminate|].
    destruct (negb _); [discriminate|].
    destruct (Qle_bool _ _); [discriminate|].
    injection Hc as <- _. discriminate.
  - reflexivity.
Qed.

(** C6 at concrete links: fiber at 1 Gbit/s connects, an unknown medium and
    a zero rate are refused. *)
Lemma C6_connect_validates_witness :
  In "twisted-pair"%string NetworkLink.ACCEPTED_MEDIA
  /\ (0 < 1)%Q
  /\ ~ In "carrier-pigeon"%string NetworkLink.ACCEPTED_MEDIA
  /\ (0 <= 0)%Q
  /\ (exists l' w',
        NetworkLink.connect (NetworkLink.new jittery_link)
          (NetworkLink.Function tt) empty_world
        = Js.Ok (l', w')
        /\ NetworkLink.rx l' = Some (NetworkLink.Wrapped tt))
  /\ NetworkLink.connect (NetworkLink.new pigeon_link)
       (NetworkLink.Function tt) empty_world = Js.Throw Js.Error
  /\ NetworkLink.connect (NetworkLink.new stalled_link)
       (NetworkLink.Function tt) empty_world = Js.Throw Js.Error.
Proof.
  assert (Hin : In "twisted-pair"%string NetworkLink.ACCEPTED_MEDIA)
    by (simpl; tauto).
  assert (Hnot : ~ In "carrier-pigeon"%string NetworkLink.ACCEPTED_MEDIA).
  { simpl. intros H. repeat (destruct H as [H|H]; [discriminate|]). exact H. }
  split; [exact Hin|]. split; [reflexivity|]. split; [exact Hnot|].
  split; [discriminate|]. split; [|split].
  - destruct (C6_connect_validates unit jittery_link tt empty_world)
      as (_ & _ & Hok & _).
    destruct (Hok Hin ltac:(reflexivity)) as (l' & w' & Hc & Hrx & _).
    by exists l', w'.
  - exact (proj1 (C6_connect_validates unit pigeon_link tt empty_world) Hnot).
  - exact (proj1 (proj2 (C6_connect_validates unit stalled_link tt empty_world))
             ltac:(discriminate)).
Defined.

Lemma Qlt_bool_iff (a b : Q) : NetworkLink.Qlt_bool a b = true <-> (a < b)%Q.
Proof.
  unfold NetworkLink.Qlt_bool. rewrite negb_true_iff. apply Qle_bool_false.
Qed.

Lemma Qlt_bool_false (a b : Q) : NetworkLink.Qlt_bool a b = false <-> (b <= a)%Q.
Proof.
  unfold NetworkLink.Qlt_bool. rewrite negb_false_iff. apply Qle_bool_iff.
Qed.

Section LinkSend.
Variable R : Type.
Variable random : nat -> Q.
Hypothesis random_unit : forall n, (0 <= random n < 1)%Q.

(** What [txDelay] computes, and how many numbers it draws. *)
Lemma txDelay_spec (l : NetworkLink.t R) (frame : list Z) (w : NetworkLink.world) :
  let u_jitter := random (NetworkLink.rng_pos w) in
  let u_duplex := random (S (NetworkLink.rng_pos w)) in
  let d := fst (NetworkLink.txDelay random l frame w) in
  let w' := snd (NetworkLink.txDelay random l frame w) in
  d = (NetworkLink.Math_max 0
         (NetworkLink.baseLatencyMs l + LinkSpec.serializationDelay l frame
          + LinkSpec.propagationDelay l + LinkSpec.jitter l u_jitter)
       + LinkSpec.duplexPenalty l u_duplex)%Q
  /\ NetworkLink.rng_pos w'
     = (NetworkLink.rng_pos w + (if NetworkLink.fullDuplex l then 1 else 2))%nat
  /\ NetworkLink.console w' = NetworkLink.console w
  /\ NetworkLink.timers w' = NetworkLink.timers w.
Proof.
  unfold NetworkLink.txDelay, LinkSpec.duplexPenalty, LinkSpec.serializationDelay,
    LinkSpec.propagationDelay, LinkSpec.jitter, LinkSpec.velocity.
  cbn [NetworkLink.Math_random].
  destruct (NetworkLink.fullDuplex l); cbn; repeat split; lia.
Qed.

Lemma send_cases (l : NetworkLink.t R) (frame : list Z) (w : NetworkLink.world) :
  exists w',
    NetworkLink.send random l frame w = Js.Ok w'
    /\ (NetworkLink.rx l = None ->
        w' = NetworkLink.console_put (NetworkLink.WarnNoReceiver (length frame)) w)
    /\ (forall h, NetworkLink.rx l = Some h ->
        (random (NetworkLink.rng_pos w) < NetworkLink.lossRate l)%Q ->
        NetworkLink.timers w' = NetworkLink.timers w
        /\ NetworkLink.console w'
           = NetworkLink.console w ++ [NetworkLink.WarnDropped (length frame)])
    /\ (forall h, NetworkLink.rx l = Some h ->
        (NetworkLink.lossRate l <= random (NetworkLink.rng_pos w))%Q ->
        let w1 := snd (NetworkLink.Math_random random w) in
        let d := fst (NetworkLink.txDelay random l frame w1) in
        NetworkLink.timers w' = NetworkLink.timers w ++ [(d, frame)]
        /\ NetworkLink.rng_pos w'
           = (NetworkLink.rng_pos w + LinkSpec.draws l)%nat
        /\ NetworkLink.fire l (d, frame) = Some (NetworkLink.receiver_of h, frame)).
Proof.
  unfold NetworkLink.send.
  destruct (NetworkLink.rx l) as [h|] eqn:Hrx.
  - cbn [NetworkLink.Math_random].
    destruct (NetworkLink.Qlt_bool _ _) eqn:Hloss.
    + eexists. split; [reflexivity|]. split; [discriminate|]. split.
      * intros _ _ _. by split.
      * intros h' _ Hle. apply Qlt_bool_iff in Hloss. simpl in Hloss. lra.
    + destruct (NetworkLink.txDelay random l frame _) as [d w2] eqn:Htx.
      eexists. split; [reflexivity|]. split; [discriminate|]. split.
      * intros h' _ Hlt. apply Qlt_bool_false in Hloss. simpl in Hloss. lra.
      * intros h' Hh' _. cbn zeta. cbn [NetworkLink.Math_random snd].
        cbn [fst].
        pose proof (txDelay_spec l frame
                      {| NetworkLink.rng_pos := S (NetworkLink.rng_pos w);
                         NetworkLink.console := NetworkLink.console w;
                         NetworkLink.timers := NetworkLink.timers w |}) as Hspec.
        cbn zeta in Hspec. rewrite Htx in Hspec. cbn [fst snd] in Hspec.
        destruct Hspec as (_ & Hpos & _ & Htm).
        cbn [NetworkLink.setTimeout NetworkLink.console_put NetworkLink.timers
             NetworkLink.rng_pos NetworkLink.console].
        split; [by rewrite Htm|]. split.
        { rewrite Hpos. cbn. unfold LinkSpec.draws.
          destruct (NetworkLink.fullDuplex l); lia. }
        unfold NetworkLink.fire. rewrite Hrx. injection Hh' as ->. reflexivity.
  - eexists. split; [reflexivity|]. split; [done|]. split; discriminate.
Qed.
End LinkSend.

(** C7, as the code has it. [send] returns for every frame, link and world
    and never throws. Without a receiver the frame is dropped and a warning
    is logged; with a receiver, a draw below the loss probability drops the
    frame, again with a warning on the console, and sets no timer; with loss
    probability 0 the frame is scheduled and its timer hands it to the
    receiver; with loss probability 1 nothing is scheduled. *)
Theorem C7_send_never_throws (R : Type) (random : nat -> Q)
    (l : NetworkLink.t R) (frame : list Z) (w : NetworkLink.world) :
  (forall n, (0 <= random n < 1)%Q) ->
  exists w',
    NetworkLink.send random l frame w = Js.Ok w'
    /\ (NetworkLink.rx l = None ->
        w' = NetworkLink.console_put (NetworkLink.WarnNoReceiver (length frame)) w
        /\ NetworkLink.timers w' = NetworkLink.timers w)
    /\ (forall h, NetworkLink.rx l = Some h ->
        (random (NetworkLink.rng_pos w) < NetworkLink.lossRate l)%Q ->
        NetworkLink.timers w' = NetworkLink.timers w
        /\ NetworkLink.console w'
           = NetworkLink.console w ++ [NetworkLink.WarnDropped (length frame)])
    /\ (forall h, NetworkLink.rx l = Some h ->
        (NetworkLink.lossRate l == 0)%Q ->
        exists d,
          NetworkLink.timers w' = NetworkLink.timers w ++ [(d, frame)]
          /\ NetworkLink.fire l (d, frame) = Some (NetworkLink.receiver_of h, frame))
    /\ (forall h, NetworkLink.rx l = Some h ->
        (NetworkLink.lossRate l == 1)%Q ->
        NetworkLink.timers w' = NetworkLink.timers w).
Proof.
  intros Hrand.
  destruct (send_cases R random l frame w) as (w' & Hsend & Hnone & Hdrop & Hsched).
  pose proof (Hrand (NetworkLink.rng_pos w)) as Hu.
  exists w'. split; [exact Hsend|]. split; [|split; [|split]].
  - intros Hrx. rewrite (Hnone Hrx). by split.
  - exact Hdrop.
  - intros h Hrx Hzero.
    destruct (Hsched h Hrx ltac:(lra)) as (Htm & _ & Hfire).
    eexists. split; [exact Htm | exact Hfire].
  - intros h Hrx Hone. exact (proj1 (Hdrop h Hrx ltac:(lra))).
Qed.

(** C7 on a connected link without loss and a random source that always
    returns one half. *)
Lemma C7_send_never_throws_witness :
  (forall n : nat, (0 <= 1 # 2 < 1)%Q)
  /\ exists w',
       NetworkLink.send (fun _ => 1 # 2) jittery_connected [1; 2; 3] empty_world
       = Js.Ok w'
       /\ exists d, NetworkLink.timers w' = [(d, [1; 2; 3])].
Proof.
  assert (Hr : forall n : nat, (0 <= 1 # 2 < 1)%Q) by (intros _; lra).
  split; [exact Hr|].
  destruct (C7_send_never_throws unit (fun _ => 1 # 2) jittery_connected [1; 2; 3]
              empty_world Hr) as (w' & Hsend & _ & _ & Hzero & _).
  exists w'. split; [exact Hsend|].
  destruct (Hzero (NetworkLink.Wrapped tt) eq_refl ltac:(reflexivity)) as (d & Htm & _).
  exists d. exact Htm.
Defined.

(** C7 fails as stated in one detail: a frame lost to the loss draw is not
    dropped silently, the console receives a warning for it as it does for a
    frame without a receiver. *)
Lemma C7_counterexample :
  let random := fun _ : nat => (1 # 2)%Q in
  exists w',
    NetworkLink.send random lossy_connected [1; 2; 3] empty_world = Js.Ok w'
    /\ (random (NetworkLink.rng_pos empty_world)
        < NetworkLink.lossRate lossy_connected)%Q
    /\ NetworkLink.timers w' = []
    /\ NetworkLink.console w' = [NetworkLink.WarnDropped 3]
    /\ NetworkLink.console w' <> NetworkLink.console empty_world.
Proof.
  eexists. split; [vm_compute; reflexivity|].
  split; [reflexivity|]. split; [reflexivity|]. split; [reflexivity|].
  discriminate.
Qed.

(** ** The delay in double precision *)

Section Doubles.
Import Floats.PrimFloat Floats.SpecFloat Floats.FloatAxioms.
#[local] Set Warnings "-inexact-float".
Local Open Scope float_scope.







End Doubles.

(** ** Further properties of the network header *)

Section IPv4Bytes.
Variable Number : string -> Z.
Variable o : IPv4Header.opts.
Variable payload : list Z.

Let h := IPv4Header.new o.

Lemma pack_unsummed_bytes :
  IPv4Header.pack_unsummed Number h payload
  = Js.Ok (map Js.to_uint8 (ipv4_fixed Number h payload 0)
           ++ padded_options (IPv4Header.o_optionsBytes o)).
Proof.
  pose proof (ceil_div4_bounds
                (Z.of_nat (length (IPv4Header.o_optionsBytes o))) ltac:(lia)) as Hc.
  unfold IPv4Header.pack_unsummed, padded_options, ipv4_fixed.
  assert (Hihl : IPv4Header.ihl h
                 = 5 + Js.ceil_div4 (Z.of_nat (length (IPv4Header.o_optionsBytes o))))
    by reflexivity.
  assert (Hopts : IPv4Header.optionsBytes h = IPv4Header.o_optionsBytes o) by reflexivity.
  rewrite Hopts.
  set (c := Js.ceil_div4 (Z.of_nat (length (IPv4Header.o_optionsBytes o)))) in *.
  unfold Js.new_Uint8Array.
  destruct (Z.ltb_spec (IPv4Header.ihl h * 4) 0) as [Hneg|_]; [lia|].
  replace (Z.to_nat (IPv4Header.ihl h * 4)) with (20 + Z.to_nat (4 * c))%nat by lia.
  rewrite replicate_add.
  change (replicate 20 0) with
    [0; 0; 0; 0; 0; 0; 0; 0; 0; 0; 0; 0; 0; 0; 0; 0; 0; 0; 0; 0].
  cbv beta zeta delta [Js.bind Js.store_opt]. cbn [app map].
  store_front.
  change (Js.band (Js.sar 0 8) 255) with 0. change (Js.band 0 255) with 0.
  destruct ((5 <? IPv4Header.ihl h) && negb (length (IPv4Header.o_optionsBytes o) =? 0)%nat)
    eqn:Hset.
  - etransitivity;
      [apply (set_at_options
                [_; _; _; _; _; _; _; _; _; _; _; _; _; _; _; _; _; _; _; _]);
       [reflexivity | lia]|].
    reflexivity.
  - assert (length (IPv4Header.o_optionsBytes o) = 0%nat) as Hz.
    { apply andb_false_iff in Hset as [Hset|Hset].
      - apply Z.ltb_ge in Hset. lia.
      - apply negb_false_iff, Nat.eqb_eq in Hset. exact Hset. }
    destruct (IPv4Header.o_optionsBytes o) eqn:Ho; [|simpl in Hz; lia].
    simpl length. rewrite Nat.sub_0_r. reflexivity.
Qed.

Lemma ipv4_fixed_bytes_ok (ck : Z) :
  bytes_ok (map Js.to_uint8 (ipv4_fixed Number h payload ck)).
Proof. apply bytes_ok_map_to_uint8. Qed.

Lemma padded_options_ok (opts : list Z) : bytes_ok (padded_options opts).
Proof.
  apply bytes_ok_app; [apply bytes_ok_map_to_uint8 | apply bytes_ok_replicate0].
Qed.

(** [pack]: the same bytes with the checksum of the unsummed header in
    bytes 10 and 11. *)
Lemma pack_bytes :
  let u := map Js.to_uint8 (ipv4_fixed Number h payload 0)
           ++ padded_options (IPv4Header.o_optionsBytes o) in
  IPv4Header.pack Number h payload
  = Js.Ok (map Js.to_uint8 (ipv4_fixed Number h payload (ipChecksum u))
           ++ padded_options (IPv4Header.o_optionsBytes o)).
Proof.
  intros u. unfold IPv4Header.pack. rewrite pack_unsummed_bytes.
  cbn [Js.bind]. fold u. f_equal.
Qed.
End IPv4Bytes.

Lemma at0_hd (x : Z) (l : list Z) : Js.at0 (x :: l) 0 = x.
Proof. reflexivity. Qed.

Lemma at0_tl (x : Z) (l : list Z) (i : nat) : Js.at0 (x :: l) (S i) = Js.at0 l i.
Proof. reflexivity. Qed.

Ltac at0_front := repeat (rewrite at0_hd || rewrite at0_tl).

Lemma lor_shiftl_add (hi lo k : Z) :
  0 <= k -> 0 <= lo < 2 ^ k -> Z.lor (Z.shiftl hi k) lo = hi * 2 ^ k + lo.
Proof.
  intros Hk Hlo.
  assert (Hdisj : Z.land (Z.shiftl hi k) lo = 0).
  { apply Z.bits_inj'. intros i Hi.
    rewrite Z.land_spec, Z.shiftl_spec, Z.bits_0 by lia.
    destruct (Z.ltb_spec i k).
    - by rewrite (Z.testbit_neg_r hi) by lia.
    - rewrite <- (Z.mod_small lo (2 ^ k)) by lia.
      rewrite Z.mod_pow2_bits_high by lia. apply andb_false_r. }
  rewrite <- Z.lxor_lor by exact Hdisj.
  rewrite <- Z.add_nocarry_lxor by exact Hdisj.
  rewrite Z.shiftl_mul_pow2 by lia. lia.
Qed.

Lemma version_nibble (x : Z) :
  Js.sar (Js.to_uint8 (Js.bor (Js.shl 4 4) (Js.band x 0x0F))) 4 = 4.
Proof.
  change 15 with (Z.ones 4). rewrite (band_ones x 4) by lia.
  change (2 ^ 4) with 16.
  pose proof (Z.mod_pos_bound x 16 ltac:(lia)) as Hn.
  assert (Hall : forallb (fun k => Js.sar (Js.to_uint8
                                     (Js.bor (Js.shl 4 4) (Z.of_nat k))) 4 =? 4)
                         (seq 0 16) = true) by (vm_compute; reflexivity).
  rewrite forallb_forall in Hall.
  specialize (Hall (Z.to_nat (x mod 16))).
  rewrite Z2Nat.id in Hall by lia.
  apply Z.eqb_eq, Hall. apply in_seq. lia.
Qed.

Lemma dscp_ecn_byte (x y : Z) :
  let b := Js.to_uint8 (Js.bor (Js.shl (Js.band x 0x3F) 2) (Js.band y 0x03)) in
  Js.sar b 2 = x mod 64 /\ Js.band b 0x03 = y mod 4.
Proof.
  change 63 with (Z.ones 6). change 3 with (Z.ones 2) at 1 2.
  rewrite (band_ones x 6), (band_ones y 2) by lia.
  change (2 ^ 6) with 64. change (2 ^ 2) with 4. change (Z.ones 2) with 3.
  pose proof (Z.mod_pos_bound x 64 ltac:(lia)) as Hx.
  pose proof (Z.mod_pos_bound y 4 ltac:(lia)) as Hy.
  assert (Hall : forallb (fun k =>
                    let b := Js.to_uint8 (Js.bor (Js.shl (Z.of_nat k / 4) 2)
                                                 (Z.of_nat k mod 4)) in
                    (Js.sar b 2 =? Z.of_nat k / 4)
                    && (Js.band b 3 =? Z.of_nat k mod 4))
                  (seq 0 256) = true) by (vm_compute; reflexivity).
  rewrite forallb_forall in Hall.
  specialize (Hall (Z.to_nat (x mod 64 * 4 + y mod 4))).
  rewrite Z2Nat.id in Hall by lia.
  replace ((x mod 64 * 4 + y mod 4) / 4) with (x mod 64) in Hall
    by (apply (Z.div_unique _ _ _ (y mod 4)); lia).
  replace ((x mod 64 * 4 + y mod 4) mod 4) with (y mod 4) in Hall
    by (apply (Z.mod_unique _ _ (x mod 64)); lia).
  cbn zeta in Hall. apply andb_true_iff in Hall; [|apply in_seq; lia].
  destruct Hall as [H1 H2]. split; by apply Z.eqb_eq.
Qed.

(** The flags-and-fragment word of a header with flags [df], [mf] and a
    fragment offset [fo]. *)
Lemma frag_field (df mf : bool) (fo : Z) :
  let flags := Js.band (Js.bor (Js.bor (Js.shl 0 2) (Js.shl (Js.bit df) 1))
                               (Js.bit mf)) 0x7 in
  Js.band (Js.bor (Js.shl flags 13) (Js.band fo 0x1FFF)) 0xFFFF
  = (2 * Js.bit df + Js.bit mf) * 8192 + fo mod 8192.
Proof.
  cbn zeta.
  change 8191 with (Z.ones 13). rewrite (band_ones fo 13) by lia.
  change (2 ^ 13) with 8192.
  pose proof (Z.mod_pos_bound fo 8192 ltac:(lia)) as Hfo.
  set (F := fo mod 8192) in *.
  rewrite band_65535.
  assert (Hor : forall c v, 0 <= c <= 3 -> v = c * 8192 -> Js.bor v F = v + F).
  { intros c v Hc ->. unfold Js.bor. rewrite !to_int32_small by lia.
    pose proof (lor_shiftl_add c F 13 ltac:(lia) ltac:(lia)) as Hl.
    rewrite Z.shiftl_mul_pow2 in Hl by lia. exact Hl. }
  destruct df, mf; cbn zeta;
    match goal with
    | |- (Js.bor ?a F) mod _ = _ =>
        let v := eval vm_compute in a in change a with v
    end.
  - rewrite (Hor 3) by lia. rewrite Z.mod_small; simpl Js.bit; lia.
  - rewrite (Hor 2) by lia. rewrite Z.mod_small; simpl Js.bit; lia.
  - rewrite (Hor 1) by lia. rewrite Z.mod_small; simpl Js.bit; lia.
  - rewrite (Hor 0) by lia. rewrite Z.mod_small; simpl Js.bit; lia.
Qed.

Lemma frag_field_parse (df mf : bool) (F : Z) :
  0 <= F < 8192 ->
  let ff := (2 * Js.bit df + Js.bit mf) * 8192 + F in
  negb (Js.band (Js.sar ff 14) 1 =? 0) = df
  /\ negb (Js.band (Js.sar ff 13) 1 =? 0) = mf
  /\ Js.band ff 0x1FFF = F.
Proof.
  intros HF ff.
  assert (H14 : Js.band (Js.sar ff 14) 1 = (ff / 16384) mod 2)
    by exact (sar_band_ones ff 14 1 ltac:(lia) ltac:(lia) ltac:(lia) ltac:(lia)).
  assert (H13 : Js.band (Js.sar ff 13) 1 = (ff / 8192) mod 2)
    by exact (sar_band_ones ff 13 1 ltac:(lia) ltac:(lia) ltac:(lia) ltac:(lia)).
  assert (H0 : Js.band ff 0x1FFF = ff mod 8192)
    by exact (band_ones ff 13 ltac:(lia)).
  rewrite H14, H13, H0. subst ff.
  destruct df, mf; cbn [Js.bit]; repeat split.
  all: try (apply negb_true_iff, Z.eqb_neq); try (apply negb_false_iff, Z.eqb_eq).
  all: Z.div_mod_to_equations; lia.
Qed.

Lemma to_uint8_band_255 (x : Z) : Js.to_uint8 (Js.band x 0xFF) = x mod 256.
Proof. rewrite band_255. unfold Js.to_uint8. apply Z.mod_mod. lia. Qed.

Lemma ipv4_parse_pack (Number : string -> Z) (o : IPv4Header.opts)
    (payload : list Z) :
  let words := 5 + Js.ceil_div4 (Z.of_nat (length (IPv4Header.o_optionsBytes o))) in
  exists b : list Z,
    IPv4Header.pack Number (IPv4Header.new o) payload = Js.Ok b
    /\ IPv4Header.parse b
       = {| IPv4Header.Parsed.ver := 4;
            IPv4Header.Parsed.ihl := words mod 16;
            IPv4Header.Parsed.dscp := IPv4Header.o_dscp o mod 64;
            IPv4Header.Parsed.ecn := IPv4Header.o_ecn o mod 4;
            IPv4Header.Parsed.totalLength :=
              (words * 4 + Z.of_nat (length payload)) mod 65536;
            IPv4Header.Parsed.id := IPv4Header.o_id o mod 65536;
            IPv4Header.Parsed.df := IPv4Header.o_df o;
            IPv4Header.Parsed.mf := IPv4Header.o_mf o;
            IPv4Header.Parsed.fragOffset := IPv4Header.o_fragOffset o mod 8192;
            IPv4Header.Parsed.ttl := Some (IPv4Header.o_ttl o mod 256);
            IPv4Header.Parsed.proto := Some (IPv4Header.o_protocol o mod 256);
            IPv4Header.Parsed.src :=
              IPv4Header.dotted (address_bytes Number (IPv4Header.o_src o)) 0;
            IPv4Header.Parsed.dst :=
              IPv4Header.dotted (address_bytes Number (IPv4Header.o_dst o)) 0 |}.
Proof.
  intros words. eexists. split; [apply pack_bytes|].
  unfold IPv4Header.parse, ipv4_fixed. cbn [map app]. at0_front.
  cbn [IPv4Header.new IPv4Header.ihl IPv4Header.dscp IPv4Header.ecn IPv4Header.id
       IPv4Header.df IPv4Header.mf IPv4Header.fragOffset IPv4Header.ttl
       IPv4Header.protocol IPv4Header.src IPv4Header.dst].
  fold words.
  destruct (dscp_ecn_byte (IPv4Header.o_dscp o) (IPv4Header.o_ecn o)) as [Hd He].
  cbn zeta in Hd, He.
  rewrite !total_length_field, frag_field.
  pose proof (Z.mod_pos_bound (IPv4Header.o_fragOffset o) 8192 ltac:(lia)) as HF.
  destruct (frag_field_parse (IPv4Header.o_df o) (IPv4Header.o_mf o) _ HF)
    as (Hdf & Hmf & Hfo). cbn zeta in Hdf, Hmf, Hfo.
  assert (Hff : ((2 * Js.bit (IPv4Header.o_df o) + Js.bit (IPv4Header.o_mf o)) * 8192
                 + IPv4Header.o_fragOffset o mod 8192) mod 65536
                = (2 * Js.bit (IPv4Header.o_df o) + Js.bit (IPv4Header.o_mf o)) * 8192
                  + IPv4Header.o_fragOffset o mod 8192).
  { apply Z.mod_small. destruct (IPv4Header.o_df o), (IPv4Header.o_mf o);
      cbn [Js.bit]; lia. }
  rewrite Hff, Hdf, Hmf, Hfo, Hd, He, version_nibble, version_ihl_nibble.
  rewrite band_65535, Z.mod_mod by lia.
  f_equal.
  - cbn. f_equal. unfold Js.to_uint8. rewrite band_255. apply Z.mod_mod. lia.
  - cbn. f_equal. unfold Js.to_uint8. rewrite band_255. apply Z.mod_mod. lia.
Qed.

(** X1. Decoding an encoded network header gives back every field of the
    field set, each reduced to the width of its place in the header. *)
Theorem X1_ipv4_parse_pack (Number : string -> Z) (o : IPv4Header.opts)
    (payload : list Z) :
  let words := 5 + Js.ceil_div4 (Z.of_nat (length (IPv4Header.o_optionsBytes o))) in
  exists b : list Z,
    IPv4Header.pack Number (IPv4Header.new o) payload = Js.Ok b
    /\ IPv4Header.parse b
       = {| IPv4Header.Parsed.ver := 4;
            IPv4Header.Parsed.ihl := words mod 16;
            IPv4Header.Parsed.dscp := IPv4Header.o_dscp o mod 64;
            IPv4Header.Parsed.ecn := IPv4Header.o_ecn o mod 4;
            IPv4Header.Parsed.totalLength :=
              (words * 4 + Z.of_nat (length payload)) mod 65536;
            IPv4Header.Parsed.id := IPv4Header.o_id o mod 65536;
            IPv4Header.Parsed.df := IPv4Header.o_df o;
            IPv4Header.Parsed.mf := IPv4Header.o_mf o;
            IPv4Header.Parsed.fragOffset := IPv4Header.o_fragOffset o mod 8192;
            IPv4Header.Parsed.ttl := Some (IPv4Header.o_ttl o mod 256);
            IPv4Header.Parsed.proto := Some (IPv4Header.o_protocol o mod 256);
            IPv4Header.Parsed.src :=
              IPv4Header.dotted (address_bytes Number (IPv4Header.o_src o)) 0;
            IPv4Header.Parsed.dst :=
              IPv4Header.dotted (address_bytes Number (IPv4Header.o_dst o)) 0 |}.
Proof. exact (ipv4_parse_pack Number o payload). Qed.

Lemma sum_words_cons2 (a b : Z) (l : list Z) :
  ChecksumSpec.sum_words (a :: b :: l) = a * 256 + b + ChecksumSpec.sum_words l.
Proof. reflexivity. Qed.

Lemma fold_norm_cong (t : Z) : exists k, fold_norm t = t + 65535 * k.
Proof.
  unfold fold_norm. destruct (Z.eqb_spec t 0) as [->|Hne]; [by exists 0|].
  exists (- ((t - 1) / 65535)).
  pose proof (Z.div_mod (t - 1) 65535 ltac:(lia)). lia.
Qed.

Lemma checksum_bytes (ck : Z) :
  0 <= ck < 65536 ->
  Js.to_uint8 (Js.band (Js.sar ck 8) 0xFF) * 256 + Js.to_uint8 (Js.band ck 0xFF) = ck.
Proof.
  intros Hck. rewrite sar8_band_255, band_255.
  pose proof (Z.mod_pos_bound (ck / 256) 256 ltac:(lia)).
  pose proof (Z.mod_pos_bound ck 256 ltac:(lia)).
  rewrite !to_uint8_id by lia. rewrite join_word. by apply Z.mod_small.
Qed.

(** X2. A packed network header passes the receiver's check of the Internet
    checksum: the one's-complement sum over the whole header, checksum field
    included, is 0xFFFF, so [ipChecksum] of the header is 0. *)
Theorem X2_packed_header_verifies (Number : string -> Z) (o : IPv4Header.opts)
    (payload : list Z) :
  exists b : list Z,
    IPv4Header.pack Number (IPv4Header.new o) payload = Js.Ok b
    /\ ChecksumSpec.ones_sum b = 65535
    /\ ipChecksum b = 0.
Proof.
  eexists. split; [apply pack_bytes|].
  set (rest := padded_options (IPv4Header.o_optionsBytes o)).
  set (u := map Js.to_uint8 (ipv4_fixed Number (IPv4Header.new o) payload 0) ++ rest).
  assert (Hu : bytes_ok u).
  { apply bytes_ok_app; [apply bytes_ok_map_to_uint8 | apply padded_options_ok]. }
  set (ck := ipChecksum u).
  set (b := map Js.to_uint8 (ipv4_fixed Number (IPv4Header.new o) payload ck) ++ rest).
  assert (Hb : bytes_ok b).
  { apply bytes_ok_app; [apply bytes_ok_map_to_uint8 | apply padded_options_ok]. }
  pose proof (ones_sum_range u Hu) as Hr.
  pose proof (sum_words_nonneg u Hu) as Hnn.
  assert (Hck : ck = 65535 - fold_norm (ChecksumSpec.sum_words u)).
  { unfold ck. rewrite ipChecksum_spec by done.
    unfold ChecksumSpec.checksum, ChecksumSpec.complement16.
    rewrite Z.mod_small by lia. unfold ChecksumSpec.ones_sum.
    by rewrite fold_carries_norm. }
  pose proof (fold_norm_range (ChecksumSpec.sum_words u)) as Hn.
  assert (Hsum : ChecksumSpec.sum_words b = ChecksumSpec.sum_words u + ck).
  { unfold b, u, ipv4_fixed. cbn [map app]. rewrite !sum_words_cons2.
    rewrite (checksum_bytes ck) by lia.
    change (Js.to_uint8 (Js.band (Js.sar 0 8) 255)) with 0.
    change (Js.to_uint8 (Js.band 0 255)) with 0. lia. }
  assert (Hones : ChecksumSpec.ones_sum b = 65535).
  { unfold ChecksumSpec.ones_sum.
    rewrite fold_carries_norm by (by apply sum_words_nonneg).
    rewrite Hsum. symmetry.
    destruct (fold_norm_cong (ChecksumSpec.sum_words u)) as [k Hk].
    apply (fold_norm_unique _ _ k); [lia|lia| |lia].
    split; [lia|]. intros Hz.
    assert (ChecksumSpec.sum_words u = 0) as H0 by lia.
    rewrite H0 in Hck. change (fold_norm 0) with 0 in Hck. lia. }
  split; [exact Hones|].
  rewrite ipChecksum_spec by done.
  unfold ChecksumSpec.checksum, ChecksumSpec.complement16. rewrite Hones. reflexivity.
Qed.

(** X3. A packed network header is a whole number of 32-bit words: twenty
    fixed bytes, then the option bytes as given, then fewer than four zero
    bytes of padding. *)
Theorem X3_ipv4_options_padded (Number : string -> Z) (o : IPv4Header.opts)
    (payload : list Z) :
  let opts := IPv4Header.o_optionsBytes o in
  exists (b : list Z) (pad : nat),
    IPv4Header.pack Number (IPv4Header.new o) payload = Js.Ok b
    /\ (pad < 4)%nat
    /\ length b = (20 + length opts + pad)%nat
    /\ (length b mod 4 = 0)%nat
    /\ take (length opts) (drop 20 b) = map Js.to_uint8 opts
    /\ drop (20 + length opts) b = replicate pad 0.
Proof.
  intros opts.
  pose proof (ceil_div4_bounds (Z.of_nat (length opts)) ltac:(lia)) as Hc.
  eexists _, (Z.to_nat (4 * Js.ceil_div4 (Z.of_nat (length opts))) - length opts)%nat.
  split; [apply pack_bytes|]. fold opts. unfold padded_options.
  set (c := Js.ceil_div4 (Z.of_nat (length opts))) in *.
  set (front := map Js.to_uint8 _).
  assert (Hf : length front = 20%nat) by reflexivity.
  split; [lia|]. split.
  { rewrite !length_app, length_map, length_replicate, Hf. lia. }
  split.
  { rewrite !length_app, length_map, length_replicate, Hf.
    replace (20 + (length opts + (Z.to_nat (4 * c) - length opts)))%nat
      with ((5 + Z.to_nat c) * 4)%nat by lia.
    apply Nat.Div0.mod_mul. }
  split.
  - rewrite (drop_app_length' front) by done.
    apply take_app_length'. by rewrite length_map.
  - rewrite <- Hf, <- drop_drop, drop_app_length.
    rewrite drop_app_length'; [done | by rewrite length_map].
Qed.

Lemma split_dot_no_dot (s : string) : no_dot s = true -> split_dot s = [s].
Proof.
  induction s as [|c s IH]; simpl; [done|].
  intros H. apply andb_true_iff in H as [Hc Hs].
  apply negb_true_iff in Hc. rewrite Hc, (IH Hs). reflexivity.
Qed.

Lemma split_dot_app (s t : string) :
  no_dot s = true ->
  split_dot (s ++ String "."%char t) = s :: split_dot t.
Proof.
  induction s as [|c s IH]; simpl.
  - reflexivity.
  - intros H. apply andb_true_iff in H as [Hc Hs].
    apply negb_true_iff in Hc. rewrite Hc, (IH Hs). reflexivity.
Qed.

Lemma pretty_byte_no_dot (z : Z) : 0 <= z < 256 -> no_dot (pretty z) = true.
Proof.
  intros Hz.
  assert (Hall : forallb (fun n => no_dot (pretty (Z.of_nat n))) (seq 0 256) = true)
    by (vm_compute; reflexivity).
  rewrite forallb_forall in Hall.
  specialize (Hall (Z.to_nat z)). rewrite Z2Nat.id in Hall by lia.
  apply Hall, in_seq. lia.
Qed.

Lemma Number_decimal_pretty (z : Z) :
  0 <= z < 256 -> Number_decimal (pretty z) = z.
Proof.
  intros Hz.
  assert (Hall : forallb (fun n => Number_decimal (pretty (Z.of_nat n)) =? Z.of_nat n)
                         (seq 0 256) = true)
    by (vm_compute; reflexivity).
  rewrite forallb_forall in Hall.
  specialize (Hall (Z.to_nat z)). rewrite Z2Nat.id in Hall by lia.
  apply Z.eqb_eq, Hall, in_seq. lia.
Qed.

(** X4. An address written as four decimal numbers below 256 separated by
    dots is packed as those four bytes, and [parse] renders the packed bytes
    as the same text, provided [Number] reads a decimal numeral as the number
    it writes. *)
Theorem X4_address_round_trip (Number : string -> Z) (o : IPv4Header.opts)
    (payload : list Z) (a b c d : Z) :
  (forall z, 0 <= z < 256 -> Number (pretty z) = z) ->
  0 <= a < 256 -> 0 <= b < 256 -> 0 <= c < 256 -> 0 <= d < 256 ->
  ipToBytes Number (dotted_quad a b c d) = [a; b; c; d]
  /\ exists hdr : list Z,
       IPv4Header.pack Number (IPv4Header.new (set_src o (dotted_quad a b c d))) payload
       = Js.Ok hdr
       /\ take 4 (drop 12 hdr) = [a; b; c; d]
       /\ IPv4Header.Parsed.src (IPv4Header.parse hdr) = dotted_quad a b c d.
Proof.
  intros HN Ha Hb Hc Hd.
  assert (Hip : ipToBytes Number (dotted_quad a b c d) = [a; b; c; d]).
  { unfold ipToBytes.
    change (dotted_quad a b c d)
      with (pretty a ++ String "."%char
              (pretty b ++ String "."%char (pretty c ++ String "."%char (pretty d))))%string.
    rewrite !split_dot_app by (by apply pretty_byte_no_dot).
    rewrite split_dot_no_dot by (by apply pretty_byte_no_dot).
    cbn [map]. rewrite !HN by done. rewrite !band_255.
    by rewrite !Z.mod_small by lia. }
  split; [exact Hip|].
  destruct (ipv4_parse_pack Number (set_src o (dotted_quad a b c d)) payload)
    as (hdr & Hpack & Hparse).
  exists hdr. split; [exact Hpack|].
  split.
  - rewrite pack_bytes in Hpack. injection Hpack as <-.
    unfold ipv4_fixed. cbn [map app drop take].
    cbn [IPv4Header.new IPv4Header.src set_src IPv4Header.o_src].
    rewrite Hip. cbn. by rewrite !to_uint8_id by lia.
  - rewrite Hparse. cbn [IPv4Header.Parsed.src set_src IPv4Header.o_src].
    unfold address_bytes. rewrite Hip. cbn [map]. cbn.
    rewrite !to_uint8_id by lia. reflexivity.
Qed.

(** X4 at the client's address 10.0.0.2, with decimal numerals read in base
    ten. *)
Lemma X4_address_round_trip_witness :
  ipToBytes Number_decimal "10.0.0.2" = [10; 0; 0; 2]
  /\ exists hdr : list Z,
       IPv4Header.pack Number_decimal
         (IPv4Header.new (set_src IPv4Header.defaults "10.0.0.2")) [] = Js.Ok hdr
       /\ IPv4Header.Parsed.src (IPv4Header.parse hdr) = "10.0.0.2"%string.
Proof.
  destruct (X4_address_round_trip Number_decimal IPv4Header.defaults [] 10 0 0 2
              Number_decimal_pretty ltac:(lia) ltac:(lia) ltac:(lia) ltac:(lia))
    as (Hip & hdr & Hpack & _ & Hsrc).
  split; [exact Hip|]. exists hdr. split; [exact Hpack | exact Hsrc].
Defined.

(** ** Further properties of the transport header *)

Lemma to_int32_testbit (x i : Z) :
  0 <= i < 32 -> Z.testbit (Js.to_int32 x) i = Z.testbit x i.
Proof.
  intros Hi. destruct (to_int32_eq x) as [q Hq].
  rewrite <- (Z.mod_pow2_bits_low (Js.to_int32 x) 32 i) by lia.
  rewrite <- (Z.mod_pow2_bits_low x 32 i) by lia.
  f_equal. rewrite Hq. rewrite Z.mul_comm. apply Z.mod_add. lia.
Qed.

(** [(w << 4) & 0xF0] keeps the low four bits of [w], moved up by four. *)
Lemma data_offset_byte (w : Z) :
  Js.band (Js.shl w 4) 0xF0 = (w mod 16) * 16.
Proof.
  unfold Js.band, Js.shl. rewrite (Z.mod_small 4 32) by lia.
  rewrite (to_int32_small (Js.to_int32 _)) by apply to_int32_range.
  rewrite (to_int32_small 240) by lia.
  apply Z.bits_inj'. intros i Hi.
  rewrite Z.land_spec.
  change ((w mod 16) * 16) with ((w mod 2 ^ 4) * 2 ^ 4).
  rewrite <- Z.shiftl_mul_pow2 by lia.
  rewrite (Z.shiftl_spec (w mod 2 ^ 4)) by lia.
  destruct (Z.ltb_spec i 4) as [Hlt|Hge].
  - rewrite (Z.testbit_neg_r _ (i - 4)) by lia.
    replace (Z.testbit 240 i) with false; [apply andb_false_r|].
    assert (i = 0 \/ i = 1 \/ i = 2 \/ i = 3) as [->|[->|[->| ->]]] by lia; reflexivity.
  - destruct (Z.ltb_spec i 8) as [Hlt8|Hge8].
    + rewrite to_int32_testbit by lia. rewrite Z.shiftl_spec by lia.
      rewrite to_int32_testbit by lia.
      rewrite Z.mod_pow2_bits_low by lia.
      replace (Z.testbit 240 i) with true; [apply andb_true_r|].
      assert (i = 4 \/ i = 5 \/ i = 6 \/ i = 7) as [->|[->|[->| ->]]] by lia; reflexivity.
    + rewrite Z.mod_pow2_bits_high by lia.
      replace (Z.testbit 240 i) with false; [apply andb_false_r|].
      symmetry. change 240 with (240 mod 2 ^ 8).
      apply Z.mod_pow2_bits_high. lia.
Qed.

Lemma data_offset_parse (w : Z) :
  Js.band (Js.sar (Js.to_uint8 (Js.band (Js.shl w 4) 0xF0)) 4) 0x0F = w mod 16.
Proof.
  rewrite data_offset_byte.
  pose proof (Z.mod_pos_bound w 16 ltac:(lia)) as Hn.
  rewrite to_uint8_id by lia.
  change 15 with (Z.ones 4). rewrite sar_band_ones by lia.
  change (2 ^ 4) with 16. rewrite Z.div_mul by lia. apply Z.mod_mod. lia.
Qed.

Section TCPBuffer.
Variable o : TCPHeader.opts.
Variable payload : list Z.

Let h := TCPHeader.new o.
Let w := TCPHeader.o_dataOffsetWords o
         + Js.ceil_div4 (Z.of_nat (length (TCPHeader.o_optionsBytes o))).

(** [pack] fails only in the allocation of the buffer or in the copy of
    the options; otherwise the buffer keeps the length it was allocated
    with. *)
Lemma tcp_pack_cases :
  (w < 0 -> TCPHeader.pack h payload = Js.Throw Js.RangeError)
  /\ (0 <= w ->
      exists B : list Z,
        length B = Z.to_nat (4 * w)
        /\ TCPHeader.pack h payload
           = if (5 <? w) && negb (length (TCPHeader.o_optionsBytes o) =? 0)%nat
             then Js.set_at B (TCPHeader.o_optionsBytes o) 20
             else Js.Ok B).
Proof.
  unfold TCPHeader.pack.
  change (TCPHeader.dataOffsetWords h) with w.
  change (TCPHeader.optionsBytes h) with (TCPHeader.o_optionsBytes o).
  unfold Js.new_Uint8Array. split.
  - intros Hneg. destruct (Z.ltb_spec (w * 4) 0); [reflexivity|lia].
  - intros Hpos. destruct (Z.ltb_spec (w * 4) 0); [lia|].
    cbn [Js.bind]. eexists. split; [|reflexivity].
    unfold TCPHeader.store_be32, Js.store. cbn [foldl].
    rewrite !length_insert, length_replicate. lia.
Qed.
End TCPBuffer.

(** X5. With a base data offset of at most 15 words [TCPHeader.pack]
    throws a [RangeError] in two cases and returns a buffer in every other:
    it throws when the data offset (base plus option words) is negative, and
    when the base is below 5 words while there are option bytes and the data
    offset exceeds 5 (the options then do not fit behind byte 20); otherwise
    it returns a buffer of four times the data offset bytes. A larger base
    is left out: the header is as long as the caller's number says, and the
    engine refuses lengths beyond its limit. *)
Theorem X5_tcp_pack_range_errors (o : TCPHeader.opts) (payload : list Z) :
  let d := TCPHeader.o_dataOffsetWords o in
  let opts := TCPHeader.o_optionsBytes o in
  let w := d + Js.ceil_div4 (Z.of_nat (length opts)) in
  (w < 0 -> TCPHeader.pack (TCPHeader.new o) payload = Js.Throw Js.RangeError)
  /\ (d < 5 -> 5 < w -> opts <> [] ->
      TCPHeader.pack (TCPHeader.new o) payload = Js.Throw Js.RangeError)
  /\ (0 <= w -> d <= 15 -> 5 <= d \/ w <= 5 \/ opts = [] ->
      exists b : list Z,
        TCPHeader.pack (TCPHeader.new o) payload = Js.Ok b
        /\ Z.of_nat (length b) = 4 * w).
Proof.
  intros d opts w.
  pose proof (ceil_div4_bounds (Z.of_nat (length opts)) ltac:(lia)) as Hc.
  destruct (tcp_pack_cases o payload) as [Hneg Hpos]. fold opts d w in Hneg, Hpos.
  split; [exact Hneg|]. split.
  - intros Hd Hw Hopts. destruct (Hpos ltac:(lia)) as (B & HB & ->).
    destruct (Z.ltb_spec 5 w); [|lia].
    destruct opts as [|x opts'] eqn:E; [done|]. cbn [negb Nat.eqb length andb].
    unfold Js.set_at. rewrite HB.
    destruct (Nat.ltb_spec (Z.to_nat (4 * w)) (20 + length (x :: opts'))) as [_|Hge];
      [reflexivity|]. simpl length in *. lia.
  - intros Hw _ Hcase. destruct (Hpos Hw) as (B & HB & ->).
    destruct ((5 <? w) && negb (length opts =? 0)%nat) eqn:Hset.
    + apply andb_true_iff in Hset as [H5 Hne].
      apply Z.ltb_lt in H5. apply negb_true_iff, Nat.eqb_neq in Hne.
      assert (5 <= d) as Hd.
      { destruct Hcase as [?|[?|Hnil]]; [done|lia|]. rewrite Hnil in Hne. done. }
      unfold Js.set_at. rewrite HB.
      destruct (Nat.ltb_spec (Z.to_nat (4 * w)) (20 + length opts)) as [Hlt|_]; [lia|].
      eexists. split; [reflexivity|].
      rewrite !length_app, length_take, length_map, length_drop, HB. lia.
    + exists B. split; [reflexivity|lia].
Qed.

(** X5 at a base of -1 (the allocation fails), at a base of 3 words with
    12 option bytes (the copy of the options fails), and at a base of 5 words
    with 6 option bytes (a header of 28 bytes). *)
Lemma X5_tcp_pack_range_errors_witness :
  TCPHeader.pack (TCPHeader.new (set_offset_options TCPHeader.defaults (-1) [])) []
  = Js.Throw Js.RangeError
  /\ TCPHeader.pack
       (TCPHeader.new (set_offset_options TCPHeader.defaults 3 (replicate 12 1))) []
     = Js.Throw Js.RangeError
  /\ exists b,
       TCPHeader.pack
         (TCPHeader.new (set_offset_options TCPHeader.defaults 5 [1; 2; 3; 4; 5; 6])) []
       = Js.Ok b
       /\ Z.of_nat (length b) = 28.
Proof.
  split; [|split].
  - destruct (X5_tcp_pack_range_errors
                (set_offset_options TCPHeader.defaults (-1) []) []) as (Hneg & _ & _).
    apply Hneg. vm_compute. reflexivity.
  - destruct (X5_tcp_pack_range_errors
                (set_offset_options TCPHeader.defaults 3 (replicate 12 1)) [])
      as (_ & Hthrow & _).
    apply Hthrow; [simpl; lia | vm_compute; reflexivity | discriminate].
  - destruct (X5_tcp_pack_range_errors
                (set_offset_options TCPHeader.defaults 5 [1; 2; 3; 4; 5; 6]) [])
      as (_ & _ & Hok).
    destruct (Hok ltac:(vm_compute; discriminate) ltac:(simpl; lia)
                ltac:(left; simpl; lia)) as (b & Hb & Hlen).
    exists b. split; [exact Hb | exact Hlen].
Defined.

Section TCPLayout.
Variable o : TCPHeader.opts.
Variable payload : list Z.
Hypothesis base_offset : 5 <= TCPHeader.o_dataOffsetWords o.

Let opts := TCPHeader.o_optionsBytes o.
Let w := TCPHeader.o_dataOffsetWords o + Js.ceil_div4 (Z.of_nat (length opts)).

Lemma tcp_layout :
  exists (front : list Z) (pad : nat),
    TCPHeader.pack (TCPHeader.new o) payload
    = Js.Ok (front ++ map Js.to_uint8 opts ++ replicate pad 0)
    /\ length front = 20%nat
    /\ bytes_ok front
    /\ Z.of_nat (20 + length opts + pad) = 4 * w
    /\ TCPHeader.Parsed.dataOffsetBytes
         (TCPHeader.parse (front ++ map Js.to_uint8 opts ++ replicate pad 0))
       = 4 * (w mod 16).
Proof.
  pose proof (ceil_div4_bounds (Z.of_nat (length opts)) ltac:(lia)) as Hc.
  destruct (tcp_pack_shape o payload base_offset)
    as (front & Hb & Hlen & Hok & _ & _ & _ & _ & _ & H12 & _).
  eexists front, _. split; [exact Hb|]. split; [exact Hlen|]. split; [exact Hok|].
  change (TCPHeader.dataOffsetWords (TCPHeader.new o)) with w in *.
  split; [fold opts; lia|].
  unfold TCPHeader.parse, Js.at0. cbn [TCPHeader.Parsed.dataOffsetBytes].
  rewrite lookup_app_l by lia. rewrite H12. cbn [from_option id].
  change (Js.band (Js.sar (id (Js.to_uint8 (Js.band (Js.shl w 4) 240))) 4) 15)
    with (Js.band (Js.sar (Js.to_uint8 (Js.band (Js.shl w 4) 240)) 4) 15).
  rewrite data_offset_parse. lia.
Qed.
End TCPLayout.

(** X6. With a base data offset of 5 to 15 words and any option bytes, a
    packed transport header is twenty fixed bytes, the option bytes as given
    and zero padding up to four times the data offset; the offset that
    [parse] reads back is four times the data offset modulo 16, which is the
    length of the header as long as the data offset is at most 15 words. *)
Theorem X6_tcp_options_and_offset (o : TCPHeader.opts) (payload : list Z) :
  5 <= TCPHeader.o_dataOffsetWords o <= 15 ->
  let opts := TCPHeader.o_optionsBytes o in
  let w := TCPHeader.o_dataOffsetWords o + Js.ceil_div4 (Z.of_nat (length opts)) in
  exists b : list Z,
    TCPHeader.pack (TCPHeader.new o) payload = Js.Ok b
    /\ Z.of_nat (length b) = 4 * w
    /\ take (length opts) (drop 20 b) = map Js.to_uint8 opts
    /\ Forall (fun x => x = 0) (drop (20 + length opts) b)
    /\ TCPHeader.Parsed.dataOffsetBytes (TCPHeader.parse b) = 4 * (w mod 16)
    /\ (w <= 15 ->
        TCPHeader.Parsed.dataOffsetBytes (TCPHeader.parse b) = Z.of_nat (length b)).
Proof.
  intros [Hbase _] opts w.
  destruct (tcp_layout o payload Hbase) as (front & pad & Hb & Hlen & _ & Hw & Hoff).
  fold opts w in Hb, Hw, Hoff.
  eexists. split; [exact Hb|].
  assert (Hl : Z.of_nat (length (front ++ map Js.to_uint8 opts ++ replicate pad 0))
               = 4 * w).
  { rewrite !length_app, length_map, length_replicate, Hlen. lia. }
  split; [exact Hl|]. split.
  { rewrite (drop_app_length' front) by done.
    apply take_app_length'. by rewrite length_map. }
  split.
  { rewrite <- Hlen, <- drop_drop, drop_app_length.
    rewrite drop_app_length' by (by rewrite length_map).
    apply Forall_replicate. reflexivity. }
  split; [exact Hoff|].
  intros H15. rewrite Hoff, Hl.
  pose proof (ceil_div4_bounds (Z.of_nat (length opts)) ltac:(lia)).
  rewrite Z.mod_small by lia. reflexivity.
Qed.

(** X6 at a base of 5 words with five option bytes: a header of 28 bytes,
    the options at bytes 20 to 24, three zero bytes behind them, and 28 read
    back as the offset; and with 44 option bytes, a header of 64 bytes that
    announces an offset of 0. *)
Lemma X6_tcp_options_and_offset_witness :
  let o := set_offset_options TCPHeader.defaults 5 [1; 2; 3; 4; 5] in
  let o' := set_offset_options TCPHeader.defaults 5 (replicate 44 7) in
  5 <= TCPHeader.o_dataOffsetWords o <= 15
  /\ 5 <= TCPHeader.o_dataOffsetWords o' <= 15
  /\ (exists b : list Z,
        TCPHeader.pack (TCPHeader.new o) [9; 9] = Js.Ok b
        /\ Z.of_nat (length b) = 28
        /\ take 5 (drop 20 b) = [1; 2; 3; 4; 5]
        /\ Forall (fun x => x = 0) (drop 25 b)
        /\ TCPHeader.Parsed.dataOffsetBytes (TCPHeader.parse b) = 28)
  /\ (exists b' : list Z,
        TCPHeader.pack (TCPHeader.new o') [9; 9] = Js.Ok b'
        /\ Z.of_nat (length b') = 64
        /\ TCPHeader.Parsed.dataOffsetBytes (TCPHeader.parse b') = 0).
Proof.
  intros o o'.
  assert (H : 5 <= TCPHeader.o_dataOffsetWords o <= 15) by (simpl; lia).
  assert (H' : 5 <= TCPHeader.o_dataOffsetWords o' <= 15) by (simpl; lia).
  split; [exact H|]. split; [exact H'|]. split.
  - destruct (X6_tcp_options_and_offset o [9; 9] H)
      as (b & Hb & Hlen & Hopts & Hpad & Hoff & _).
    exists b. split; [exact Hb|]. split; [exact Hlen|]. split; [exact Hopts|].
    split; [exact Hpad | exact Hoff].
  - destruct (X6_tcp_options_and_offset o' [9; 9] H')
      as (b' & Hb' & Hlen' & _ & _ & Hoff' & _).
    exists b'. split; [exact Hb'|]. split; [exact Hlen' | exact Hoff'].
Defined.

(** A frame built from two packed headers and its payload, and what
    [onFrame] makes of it. *)
Lemma encapsulation (Number : string -> Z)
    (oi : IPv4Header.opts) (ot : TCPHeader.opts) (pl : list Z) :
  bytes_ok pl ->
  (length (IPv4Header.o_optionsBytes oi) <= 40)%nat ->
  5 <= TCPHeader.o_dataOffsetWords ot ->
  TCPHeader.o_dataOffsetWords ot
  + Js.ceil_div4 (Z.of_nat (length (TCPHeader.o_optionsBytes ot))) <= 15 ->
  exists tcpHdr ipHdr : list Z,
    TCPHeader.pack (TCPHeader.new ot) pl = Js.Ok tcpHdr
    /\ cat tcpHdr pl = Js.Ok (tcpHdr ++ pl)
    /\ IPv4Header.pack Number (IPv4Header.new oi) (tcpHdr ++ pl) = Js.Ok ipHdr
    /\ cat ipHdr (tcpHdr ++ pl) = Js.Ok (ipHdr ++ tcpHdr ++ pl)
    /\ forall s : Server.t, Forall bytes_ok (Server.reassembly s) ->
         exists r, Server.onFrame s (ipHdr ++ tcpHdr ++ pl) = Js.Ok (pushed s pl, r).
Proof.
  intros Hpl Hio Hbase Hw.
  destruct (tcp_layout ot pl Hbase) as (tf & tpad & Ht & Htlen & Htok & Htw & Htoff).
  set (tcpHdr := tf ++ map Js.to_uint8 (TCPHeader.o_optionsBytes ot) ++ replicate tpad 0) in *.
  assert (Htok' : bytes_ok tcpHdr).
  { apply bytes_ok_app; [done|].
    apply bytes_ok_app; [apply bytes_ok_map_to_uint8 | apply bytes_ok_replicate0]. }
  pose proof (ceil_div4_bounds
                (Z.of_nat (length (TCPHeader.o_optionsBytes ot))) ltac:(lia)) as Hct.
  pose proof (ceil_div4_bounds
                (Z.of_nat (length (IPv4Header.o_optionsBytes oi))) ltac:(lia)) as Hci.
  assert (Htl : Z.of_nat (length tcpHdr)
                = TCPHeader.Parsed.dataOffsetBytes (TCPHeader.parse tcpHdr)).
  { rewrite Htoff. unfold tcpHdr.
    rewrite !length_app, length_map, length_replicate, Htlen.
    rewrite Z.mod_small by lia. lia. }
  destruct (pack_shape Number oi (tcpHdr ++ pl))
    as (u & ipHdr & _ & Hi & _ & Hiok & Hilen & _ & _ & Hsame & Hu0 & _).
  destruct (ipv4_parse_pack Number oi (tcpHdr ++ pl)) as (ipHdr' & Hi' & Hparse).
  rewrite Hi in Hi'. injection Hi' as <-.
  exists tcpHdr, ipHdr.
  split; [exact Ht|]. split; [by apply cat_bytes|]. split; [exact Hi|].
  split; [apply cat_bytes; [done|by apply bytes_ok_app]|].
  intros s Hs. unfold Server.onFrame.
  assert (Hihl : IPv4Header.Parsed.ihl (IPv4Header.parse (ipHdr ++ tcpHdr ++ pl))
                 = IPv4Header.Parsed.ihl (IPv4Header.parse ipHdr)).
  { unfold IPv4Header.parse, Js.at0. cbn [IPv4Header.Parsed.ihl].
    rewrite lookup_app_l; [done|].
    change (IPv4Header.ihl (IPv4Header.new oi))
      with (5 + Js.ceil_div4 (Z.of_nat (length (IPv4Header.o_optionsBytes oi)))) in Hilen.
    lia. }
  rewrite Hihl, Hparse. cbn [IPv4Header.Parsed.ihl].
  change (IPv4Header.ihl (IPv4Header.new oi))
    with (5 + Js.ceil_div4 (Z.of_nat (length (IPv4Header.o_optionsBytes oi)))) in Hilen.
  rewrite Z.mod_small by lia.
  unfold Js.slice_from.
  rewrite (drop_app_length' ipHdr) by lia.
  assert (Hoff : TCPHeader.Parsed.dataOffsetBytes (TCPHeader.parse (tcpHdr ++ pl))
                 = TCPHeader.Parsed.dataOffsetBytes (TCPHeader.parse tcpHdr)).
  { unfold TCPHeader.parse, Js.at0. cbn [TCPHeader.Parsed.dataOffsetBytes].
    rewrite lookup_app_l; [done|]. unfold tcpHdr. rewrite length_app. lia. }
  rewrite Hoff, <- Htl, Nat2Z.id, drop_app_length.
  cbn [Server.reassembly].
  rewrite concat_bytes by (apply Forall_app; split; [done|by constructor]).
  cbn [Js.bind]. unfold pushed.
  destruct (has_blank_line _); eexists; reflexivity.
Qed.

(** X7. Encapsulation and decapsulation agree for every pair of headers
    whose lengths fit their 4-bit fields: for a network header with at most
    40 option bytes and a transport header with a base of at least 5 words and
    a data offset of at most 15, the frame [ipHdr ++ tcpHdr ++ payload] is
    built without an error and [onFrame] pushes exactly the payload on the
    reassembly buffer. *)
Theorem X7_encapsulation_round_trip (Number : string -> Z)
    (oi : IPv4Header.opts) (ot : TCPHeader.opts) (pl : list Z) :
  bytes_ok pl ->
  (length (IPv4Header.o_optionsBytes oi) <= 40)%nat ->
  5 <= TCPHeader.o_dataOffsetWords ot ->
  TCPHeader.o_dataOffsetWords ot
  + Js.ceil_div4 (Z.of_nat (length (TCPHeader.o_optionsBytes ot))) <= 15 ->
  exists tcpHdr ipHdr : list Z,
    TCPHeader.pack (TCPHeader.new ot) pl = Js.Ok tcpHdr
    /\ cat tcpHdr pl = Js.Ok (tcpHdr ++ pl)
    /\ IPv4Header.pack Number (IPv4Header.new oi) (tcpHdr ++ pl) = Js.Ok ipHdr
    /\ cat ipHdr (tcpHdr ++ pl) = Js.Ok (ipHdr ++ tcpHdr ++ pl)
    /\ forall s : Server.t, Forall bytes_ok (Server.reassembly s) ->
         exists r, Server.onFrame s (ipHdr ++ tcpHdr ++ pl) = Js.Ok (pushed s pl, r).
Proof. exact (encapsulation Number oi ot pl). Qed.

(** X7 at the default headers and a three-byte payload. *)
Lemma X7_encapsulation_round_trip_witness :
  bytes_ok [71; 69; 84]
  /\ exists tcpHdr ipHdr r,
       TCPHeader.pack (TCPHeader.new TCPHeader.defaults) [71; 69; 84] = Js.Ok tcpHdr
       /\ IPv4Header.pack Number_decimal (IPv4Header.new IPv4Header.defaults)
            (tcpHdr ++ [71; 69; 84]) = Js.Ok ipHdr
       /\ Server.onFrame demo_server (ipHdr ++ tcpHdr ++ [71; 69; 84])
          = Js.Ok (pushed demo_server [71; 69; 84], r).
Proof.
  assert (Hb : bytes_ok [71; 69; 84]) by (repeat constructor; lia).
  split; [exact Hb|].
  destruct (X7_encapsulation_round_trip Number_decimal IPv4Header.defaults
              TCPHeader.defaults [71; 69; 84] Hb ltac:(simpl; lia) ltac:(simpl; lia)
              ltac:(vm_compute; discriminate))
    as (tcpHdr & ipHdr & Ht & _ & Hi & _ & Hon).
  destruct (Hon demo_server ltac:(constructor)) as [r Hr].
  exists tcpHdr, ipHdr, r. split; [exact Ht|]. split; [exact Hi | exact Hr].
Defined.

(** ** Further properties of the receivers *)

Lemma nibble_range (x : Z) : 0 <= Js.band x 0x0F < 16.
Proof.
  change 15 with (Z.ones 4). rewrite band_ones by lia.
  apply Z.mod_pos_bound. lia.
Qed.

Lemma onFrame_total (s : Server.t) (bytes : list Z) :
  exists (s' : Server.t) (r : option (string * Z)) (all : list Z),
    Server.onFrame s bytes = Js.Ok (s', r)
    /\ Server.reassembly s' = Server.reassembly s ++ [drop (payload_offset bytes) bytes]
    /\ (payload_offset bytes <= 120)%nat
    /\ Server.ip s' = Server.ip s /\ Server.port s' = Server.port s
    /\ concat (Server.reassembly s') = Js.Ok all
    /\ (is_Some r <-> has_blank_line all = true).
Proof.
  unfold Server.onFrame, payload_offset.
  set (k1 := Z.to_nat (IPv4Header.Parsed.ihl (IPv4Header.parse bytes) * 4)).
  set (tcpBytes := Js.slice_from bytes k1).
  set (k2 := Z.to_nat (TCPHeader.Parsed.dataOffsetBytes (TCPHeader.parse tcpBytes))).
  cbn [Server.reassembly]. rewrite concat_ok. cbn [Js.bind].
  assert (Hk1 : (k1 <= 60)%nat).
  { unfold k1, IPv4Header.parse. cbn [IPv4Header.Parsed.ihl].
    pose proof (nibble_range (Js.at0 bytes 0)). lia. }
  assert (Hk2 : (k2 <= 60)%nat).
  { unfold k2, TCPHeader.parse. cbn [TCPHeader.Parsed.dataOffsetBytes].
    pose proof (nibble_range (Js.sar (Js.at0 tcpBytes 12) 4)). lia. }
  assert (Hdrop : Js.slice_from tcpBytes k2 = drop (k1 + k2) bytes).
  { unfold tcpBytes, Js.slice_from. rewrite drop_drop. reflexivity. }
  rewrite Hdrop.
  destruct (has_blank_line _) eqn:Hbl; eexists _, _, _;
    (split; [reflexivity|]); cbn [Server.reassembly Server.ip Server.port];
    rewrite concat_ok;
    (split; [reflexivity|]); (split; [lia|]); (split; [reflexivity|]);
    (split; [reflexivity|]); (split; [reflexivity|]); rewrite Hbl.
  - split; [done | by eexists].
  - split; [intros [x Hx]; discriminate | discriminate].
Qed.

(** X8. [onFrame] never throws and never rejects a frame: whatever bytes
    arrive, also none at all or fewer than a header, it pushes exactly one
    chunk on the reassembly buffer, the part of the frame behind the offset
    that the two length nibbles announce (at most 120 bytes in), and leaves
    the server's address and port alone; it asks for a response exactly when
    the bytes accumulated so far hold CR LF CR LF. *)
Theorem X8_onFrame_accepts_anything (s : Server.t) (bytes : list Z) :
  exists (s' : Server.t) (r : option (string * Z)) (all : list Z),
    Server.onFrame s bytes = Js.Ok (s', r)
    /\ Server.reassembly s' = Server.reassembly s ++ [drop (payload_offset bytes) bytes]
    /\ (payload_offset bytes <= 120)%nat
    /\ Server.ip s' = Server.ip s /\ Server.port s' = Server.port s
    /\ concat (Server.reassembly s') = Js.Ok all
    /\ (is_Some r <-> has_blank_line all = true).
Proof. exact (onFrame_total s bytes). Qed.

Lemma starts_with_app (pat l t : list Z) :
  starts_with pat l = true -> starts_with pat (l ++ t) = true.
Proof.
  revert l. induction pat as [|p ps IH]; intros [|x xs] H; simpl in *; try done.
  apply andb_true_iff in H as [H1 H2]. rewrite H1. by apply IH.
Qed.

Lemma includes_bytes_app (pat l t : list Z) :
  includes_bytes pat l = true -> includes_bytes pat (l ++ t) = true.
Proof.
  induction l as [|x xs IH]; intros H.
  - simpl in H. rewrite orb_false_r in H.
    destruct pat; [by destruct t|discriminate].
  - cbn [includes_bytes] in H. apply orb_true_iff in H as [H|H].
    + change ((x :: xs) ++ t) with (x :: (xs ++ t)). cbn [includes_bytes].
      change (x :: (xs ++ t)) with ((x :: xs) ++ t).
      by rewrite (starts_with_app _ _ _ H).
    + change ((x :: xs) ++ t) with (x :: (xs ++ t)). cbn [includes_bytes].
      rewrite (IH H). apply orb_true_r.
Qed.

(** X9. The reassembly buffer is never cleared: once a frame has completed
    a request (the accumulated bytes hold a blank line), every frame that
    arrives afterwards, whatever it holds, asks for a response again. *)
Theorem X9_completed_buffer_answers_again (s s1 : Server.t) (f1 f2 : list Z)
    (dest : string * Z) :
  Server.onFrame s f1 = Js.Ok (s1, Some dest) ->
  exists s2 dest2,
    Server.onFrame s1 f2 = Js.Ok (s2, Some dest2)
    /\ length (Server.reassembly s2) = S (S (length (Server.reassembly s))).
Proof.
  intros H1.
  destruct (onFrame_total s f1)
    as (s1' & r1 & all1 & Hrun1 & Hre1 & _ & _ & _ & Hc1 & Hr1).
  rewrite H1 in Hrun1. injection Hrun1 as <- <-.
  destruct (onFrame_total s1 f2)
    as (s2 & r2 & all2 & Hrun2 & Hre2 & _ & _ & _ & Hc2 & Hr2).
  assert (Hbl : has_blank_line all2 = true).
  { rewrite concat_ok in Hc1, Hc2. injection Hc1 as <-. injection Hc2 as <-.
    rewrite Hre2, map_app, concat_app.
    apply includes_bytes_app. apply Hr1. by eexists. }
  apply Hr2 in Hbl as [dest2 ->].
  exists s2, dest2. split; [exact Hrun2|].
  rewrite Hre2, Hre1, !length_app. simpl. lia.
Qed.

(** X9 at a frame that carries a blank line, followed by an empty frame. *)
Lemma X9_completed_buffer_answers_again_witness :
  exists s1 dest s2 dest2,
    Server.onFrame demo_server blank_line_frame = Js.Ok (s1, Some dest)
    /\ Server.onFrame s1 [] = Js.Ok (s2, Some dest2).
Proof.
  assert (H1 : exists s1 dest,
             Server.onFrame demo_server blank_line_frame = Js.Ok (s1, Some dest))
    by (eexists _, _; vm_compute; reflexivity).
  destruct H1 as (s1 & dest & H1).
  destruct (X9_completed_buffer_answers_again demo_server s1 blank_line_frame []
              dest H1) as (s2 & dest2 & H2 & _).
  exists s1, dest, s2, dest2. split; [exact H1 | exact H2].
Defined.

Lemma ipv4_parse_app (hdr t : list Z) :
  (20 <= length hdr)%nat -> IPv4Header.parse (hdr ++ t) = IPv4Header.parse hdr.
Proof.
  intros Hlen. unfold IPv4Header.parse, IPv4Header.dotted, Js.at0.
  by rewrite !lookup_app_l by lia.
Qed.

Lemma tcp_parse_app (hdr t : list Z) :
  (16 <= length hdr)%nat -> TCPHeader.parse (hdr ++ t) = TCPHeader.parse hdr.
Proof.
  intros Hlen. unfold TCPHeader.parse, Js.at0.
  by rewrite !lookup_app_l by lia.
Qed.

Lemma be32_app (hdr t : list Z) (off : nat) :
  (off + 3 < length hdr)%nat -> be32 (hdr ++ t) off = be32 hdr off.
Proof.
  intros Hlen. unfold be32, Js.at0. by rewrite !lookup_app_l by lia.
Qed.

Section ClientFrames.
Variable Number : string -> Z.
Variable c : Client.t.
Variable dstHostIp : string.
Variable dstPort : Z.

Lemma frames_from_lookup (nsegments : nat) (segments : list (list Z)) :
  forall (i : nat) (frames : list (list Z)),
    Client.frames_from Number c dstHostIp dstPort nsegments i segments
    = Js.Ok frames ->
    length frames = length segments
    /\ forall j pl, segments !! j = Some pl ->
         exists f, frames !! j = Some f
                   /\ Client.frame Number c dstHostIp dstPort nsegments (i + j) pl
                      = Js.Ok f.
Proof.
  induction segments as [|pl0 rest IH]; intros i frames H; cbn [Client.frames_from] in H.
  - injection H as <-. split; [done|]. intros j pl Hj. done.
  - destruct (Client.frame Number c dstHostIp dstPort nsegments i pl0) as [f0|e] eqn:Hf0;
      [|discriminate].
    cbn [Js.bind] in H.
    destruct (Client.frames_from Number c dstHostIp dstPort nsegments (S i) rest)
      as [fs|e] eqn:Hfs; [|discriminate].
    cbn [Js.bind] in H. injection H as <-.
    destruct (IH (S i) fs Hfs) as [Hlen Hnth].
    split; [simpl; lia|].
    intros [|j] pl Hj; simpl in Hj.
    + injection Hj as <-. exists f0. split; [done|]. by rewrite Nat.add_0_r.
    + destruct (Hnth j pl Hj) as (f & Hf & Hframe).
      exists f. split; [done|]. by rewrite <- Nat.add_succ_comm.
Qed.

(** The fields of one frame of the client, as a receiver parses them. *)
Lemma frame_fields (nsegments i : nat) (pl f : list Z) :
  bytes_ok pl -> (length pl <= 600)%nat ->
  Client.frame Number c dstHostIp dstPort nsegments i pl = Js.Ok f ->
  length f = (40 + length pl)%nat
  /\ drop 40 f = pl
  /\ IPv4Header.Parsed.ihl (IPv4Header.parse f) = 5
  /\ IPv4Header.Parsed.totalLength (IPv4Header.parse f) = Z.of_nat (40 + length pl)
  /\ IPv4Header.Parsed.id (IPv4Header.parse f) = (0xA000 + Z.of_nat i) mod 65536
  /\ IPv4Header.Parsed.df (IPv4Header.parse f) = true
  /\ IPv4Header.Parsed.mf (IPv4Header.parse f) = false
  /\ IPv4Header.Parsed.ttl (IPv4Header.parse f) = Some 64
  /\ IPv4Header.Parsed.proto (IPv4Header.parse f) = Some 6
  /\ TCPHeader.Parsed.srcPort (TCPHeader.parse (drop 20 f)) = Client.port c mod 65536
  /\ TCPHeader.Parsed.dstPort (TCPHeader.parse (drop 20 f)) = dstPort mod 65536
  /\ TCPHeader.Parsed.dataOffsetBytes (TCPHeader.parse (drop 20 f)) = 20
  /\ TCPHeader.Parsed.windowSize (TCPHeader.parse (drop 20 f)) = 65535
  /\ TCPHeader.Parsed.flagsHex (TCPHeader.parse (drop 20 f))
     = (if (i =? nsegments - 1)%nat then "0x19" else "0x18")%string
  /\ be32 (drop 20 f) 4 = 20000
  /\ be32 (drop 20 f) 8 = 10000
  /\ IPv4Header.Parsed.src (IPv4Header.parse f)
     = IPv4Header.dotted (address_bytes Number (Client.ip c)) 0.
Proof.
  intros Hpl Hlen Hf. unfold Client.frame in Hf.
  match type of Hf with
  | context [TCPHeader.pack (TCPHeader.new ?o) pl] =>
      destruct (tcp_parse_pack o pl ltac:(simpl; lia))
        as (tcpHdr & Ht & _ & Hsp & Hdp & Hws & Hfh & Hseq & Hack);
      destruct (tcp_layout o pl ltac:(simpl; lia))
        as (tfront & tpad & Ht' & Htlen & Htok & Htw & Htoff)
  end.
  rewrite Ht in Ht'. injection Ht' as Hteq.
  cbn [TCPHeader.o_optionsBytes TCPHeader.o_dataOffsetWords length map app] in Htw, Hteq, Htoff.
  change (Js.ceil_div4 (Z.of_nat 0)) with 0 in Htw, Htoff.
  assert (tpad = 0%nat) by lia. subst tpad. cbn [replicate] in Hteq, Htoff.
  rewrite app_nil_r in Hteq, Htoff. subst tfront.
  rewrite Ht in Hf. cbn [Js.bind] in Hf.
  rewrite (cat_bytes tcpHdr pl) in Hf by done. cbn [Js.bind] in Hf.
  match type of Hf with
  | context [IPv4Header.pack Number (IPv4Header.new ?o) ?p] =>
      destruct (ipv4_parse_pack Number o p) as (ipHdr & Hi & Hparse);
      destruct (pack_shape Number o p)
        as (u & ipHdr' & _ & Hi' & _ & Hiok & Hilen & _)
  end.
  rewrite Hi in Hi'. injection Hi' as <-.
  assert (Hil : length ipHdr = 20%nat)
    by (apply Nat2Z.inj; rewrite Hilen; reflexivity).
  assert (Htl : length tcpHdr = 20%nat) by exact Htlen.
  rewrite Hi in Hf. cbn [Js.bind] in Hf.
  rewrite cat_bytes in Hf; [|done|by apply bytes_ok_app].
  injection Hf as <-.
  rewrite !(drop_app_length' ipHdr _ 20) by lia.
  rewrite ipv4_parse_app by lia. rewrite tcp_parse_app by lia.
  rewrite !be32_app by lia.
  rewrite Hparse, Hsp, Hdp, Hws, Hfh, Hseq, Hack, Htoff.
  cbn [IPv4Header.Parsed.ihl IPv4Header.Parsed.totalLength IPv4Header.Parsed.id
       IPv4Header.Parsed.df IPv4Header.Parsed.mf IPv4Header.Parsed.ttl
       IPv4Header.Parsed.proto IPv4Header.Parsed.src IPv4Header.o_src
       IPv4Header.o_optionsBytes IPv4Header.o_id
       IPv4Header.o_df IPv4Header.o_mf IPv4Header.o_ttl IPv4Header.o_protocol
       TCPHeader.o_srcPort TCPHeader.o_dstPort TCPHeader.o_windowSize
       TCPHeader.o_seq TCPHeader.o_ack TCPHeader.o_flags length].
  change (Js.ceil_div4 (Z.of_nat 0)) with 0.
  rewrite !length_app.
  split; [lia|]. split.
  { replace 40%nat with (length ipHdr + length tcpHdr)%nat by lia.
    rewrite <- drop_drop, drop_app_length, drop_app_length. reflexivity. }
  split; [reflexivity|].
  split; [rewrite Z.mod_small by lia; lia|].
  split; [reflexivity|]. split; [reflexivity|]. split; [reflexivity|].
  split; [reflexivity|]. split; [reflexivity|]. split; [reflexivity|].
  split; [reflexivity|]. split; [reflexivity|]. split; [reflexivity|].
  split; [by destruct (i =? nsegments - 1)%nat|].
  split; [reflexivity|]. split; reflexivity.
Qed.
End ClientFrames.

(** X10. The frames that [Client.send] hands to the link, as a receiver
    parses them: frame [i] is 40 header bytes and segment [i]; its identifier
    is 0xA000 + i, its total length 40 plus the segment, DF is set, MF clear;
    the flags are ACK and PSH, with FIN on the last frame only; and every
    frame carries the same sequence number 20000 and acknowledgment number
    10000 (the sequence number does not advance with the bytes sent). *)
Theorem X10_client_frames (Number : string -> Z) (c : Client.t) (msg : list Z)
    (dstHostIp : string) (dstPort : Z) :
  bytes_ok msg ->
  exists segments frames : list (list Z),
    segment msg 600 = Some segments
    /\ Client.send Number c msg dstHostIp dstPort = Some (Js.Ok frames)
    /\ length frames = length segments
    /\ forall i pl, segments !! i = Some pl ->
         exists f,
           frames !! i = Some f
           /\ length f = (40 + length pl)%nat
           /\ drop 40 f = pl
           /\ IPv4Header.Parsed.totalLength (IPv4Header.parse f)
              = Z.of_nat (40 + length pl)
           /\ IPv4Header.Parsed.id (IPv4Header.parse f) = (0xA000 + Z.of_nat i) mod 65536
           /\ IPv4Header.Parsed.df (IPv4Header.parse f) = true
           /\ IPv4Header.Parsed.mf (IPv4Header.parse f) = false
           /\ TCPHeader.Parsed.srcPort (TCPHeader.parse (drop 20 f))
              = Client.port c mod 65536
           /\ TCPHeader.Parsed.dstPort (TCPHeader.parse (drop 20 f)) = dstPort mod 65536
           /\ TCPHeader.Parsed.flagsHex (TCPHeader.parse (drop 20 f))
              = (if (i =? length segments - 1)%nat then "0x19" else "0x18")%string
           /\ be32 (drop 20 f) 4 = 20000
           /\ be32 (drop 20 f) 8 = 10000.
Proof.
  intros Hmsg.
  destruct (segment_spec msg 600 ltac:(lia)) as (segs & Hseg & Hnth & _ & _).
  assert (Hok : Forall bytes_ok segs).
  { apply Forall_lookup. intros i x Hx.
    rewrite (Hnth i) in Hx by (by eapply lookup_lt_Some).
    injection Hx as <-. by apply slices_bytes_ok. }
  destruct (frames_from_carries Number c dstHostIp dstPort (length segs) segs Hok 0%nat)
    as (frames & Hframes & _).
  destruct (frames_from_lookup Number c dstHostIp dstPort (length segs) segs 0 frames
              Hframes) as [Hlen Hlookup].
  exists segs, frames. split; [exact Hseg|].
  split; [unfold Client.send; by rewrite Hseg, Hframes|]. split; [exact Hlen|].
  intros i pl Hi. destruct (Hlookup i pl Hi) as (f & Hf & Hframe).
  assert (Hpl : bytes_ok pl) by (by eapply Forall_lookup_1 in Hok).
  assert (Hpl600 : (length pl <= 600)%nat).
  { rewrite (Hnth i) in Hi by (by eapply lookup_lt_Some).
    injection Hi as <-. unfold Js.slice. rewrite length_take. lia. }
  destruct (frame_fields Number c dstHostIp dstPort (length segs) i pl f Hpl Hpl600 Hframe)
    as (H1 & H2 & _ & H4 & H5 & H6 & H7 & _ & _ & H10 & H11 & _ & _ & H14 & H15 & H16 & _).
  exists f. split; [exact Hf|]. split; [exact H1|]. split; [exact H2|].
  split; [exact H4|]. split; [exact H5|]. split; [exact H6|]. split; [exact H7|].
  split; [exact H10|]. split; [exact H11|]. split; [exact H14|].
  split; [exact H15 | exact H16].
Qed.

(** X10 at a 601-byte message from the demonstration client: two frames,
    FIN on the second only. *)
Lemma X10_client_frames_witness :
  bytes_ok msg_601
  /\ exists f0 f1,
       Client.send Number_decimal demo_client msg_601 "104.18.32.47" 443
       = Some (Js.Ok [f0; f1])
       /\ TCPHeader.Parsed.flagsHex (TCPHeader.parse (drop 20 f0)) = "0x18"%string
       /\ TCPHeader.Parsed.flagsHex (TCPHeader.parse (drop 20 f1)) = "0x19"%string.
Proof.
  assert (Hb : bytes_ok msg_601).
  { apply bytes_ok_app; [apply Forall_replicate; lia | repeat constructor; lia]. }
  split; [exact Hb|].
  destruct (X10_client_frames Number_decimal demo_client msg_601 "104.18.32.47" 443 Hb)
    as (segs & frames & Hseg & Hsend & Hlen & Hall).
  vm_compute in Hseg. injection Hseg as <-.
  destruct frames as [|f0 [|f1 [|f2 rest]]]; try discriminate Hlen.
  exists f0, f1. split; [exact Hsend|].
  destruct (Hall 0%nat _ eq_refl) as (g0 & Hg0 & Hf0).
  destruct (Hall 1%nat _ eq_refl) as (g1 & Hg1 & Hf1).
  injection Hg0 as <-. injection Hg1 as <-.
  split; [apply Hf0 | apply Hf1].
Defined.

(** ** Request and response texts *)

Lemma toBytes_app (s t : string) : toBytes (s ++ t) = toBytes s ++ toBytes t.
Proof.
  unfold toBytes. induction s as [|c s IH]; [done|].
  change (String c s ++ t)%string with (String c (s ++ t)).
  cbn [list_ascii_of_string map app]. by rewrite IH.
Qed.

Lemma toBytes_ok (s : string) : bytes_ok (toBytes s).
Proof.
  unfold toBytes, bytes_ok. induction s as [|c s IH]; simpl; constructor; [|exact IH].
  pose proof (nat_ascii_bounded c). lia.
Qed.

Lemma string_append_assoc (s t u : string) :
  ((s ++ t) ++ u = s ++ (t ++ u))%string.
Proof.
  induction s as [|c s IH]; [done|].
  change (String c ((s ++ t) ++ u) = String c (s ++ (t ++ u)))%string.
  by rewrite IH.
Qed.

Lemma join_snoc2 (sep : string) (lines : list string) (a b : string) :
  lines <> [] ->
  join sep (lines ++ [a; b]) = (join sep lines ++ sep ++ a ++ sep ++ b)%string.
Proof.
  induction lines as [|l rest IH]; [done|]. intros _.
  destruct rest as [|l' rest'].
  - reflexivity.
  - change (join sep ((l :: l' :: rest') ++ [a; b]))
      with (l ++ sep ++ join sep ((l' :: rest') ++ [a; b]))%string.
    rewrite IH by done.
    change (join sep (l :: l' :: rest')) with (l ++ sep ++ join sep (l' :: rest'))%string.
    by rewrite !string_append_assoc.
  Qed.

Lemma includes_bytes_middle (pat x y : list Z) :
  includes_bytes pat (x ++ pat ++ y) = true.
Proof.
  induction x as [|a x IH].
  - cbn [app]. destruct (pat ++ y) eqn:E.
    + destruct pat; [reflexivity|discriminate].
    + rewrite <- E. cbn [includes_bytes].
      assert (Hs : starts_with pat (pat ++ y) = true).
      { clear. induction pat as [|p ps IHp]; simpl; [done|].
        by rewrite Z.eqb_refl, IHp. }
      rewrite E in *. cbn [includes_bytes]. by rewrite Hs.
  - change ((a :: x) ++ pat ++ y) with (a :: (x ++ pat ++ y)).
    cbn [includes_bytes]. rewrite IH. apply orb_true_r.
Qed.

Lemma blank_line_after (head body : string) :
  has_blank_line (toBytes (head ++ CRLF ++ EmptyString ++ CRLF ++ body)) = true.
Proof.
  rewrite !toBytes_app. change (toBytes EmptyString) with (@nil Z).
  cbn [app]. unfold has_blank_line.
  rewrite (app_assoc (toBytes CRLF)).
  change (toBytes CRLF ++ toBytes CRLF) with [13; 10; 13; 10].
  apply includes_bytes_middle.
Qed.

Lemma request_text_shape (dev : string -> option string) :
  exists head,
    h2ToHttp11 dev = (head ++ CRLF ++ EmptyString ++ CRLF ++ EmptyString)%string.
Proof. unfold h2ToHttp11. cbv zeta. eexists. apply join_snoc2. discriminate. Qed.

Lemma response_text_shape (status : Z) (reason : string)
    (headers : list (string * string)) (body : string) :
  exists head,
    buildHttpResponse status reason headers body
    = (head ++ CRLF ++ EmptyString ++ CRLF ++ body)%string.
Proof. unfold buildHttpResponse. cbv zeta. eexists. apply join_snoc2. discriminate. Qed.

(** X11. Every request text that [h2ToHttp11] writes and every response
    text that [buildHttpResponse] writes holds the blank line that the
    receivers wait for, whatever the fields are and also when fields are
    missing: the request ends with it, the response has it before the
    body. *)
Theorem X11_texts_hold_blank_line (dev : string -> option string)
    (status : Z) (reason : string) (headers : list (string * string))
    (body : string) :
  (exists head, h2ToHttp11 dev = (head ++ CRLF ++ CRLF)%string)
  /\ has_blank_line (toBytes (h2ToHttp11 dev)) = true
  /\ (exists head,
        buildHttpResponse status reason headers body
        = (head ++ CRLF ++ CRLF ++ body)%string)
  /\ has_blank_line (toBytes (buildHttpResponse status reason headers body)) = true.
Proof.
  destruct (request_text_shape dev) as [h1 H1].
  destruct (response_text_shape status reason headers body) as [h2 H2].
  split; [exists h1; exact H1|]. split; [rewrite H1; apply blank_line_after|].
  split; [exists h2; exact H2|]. rewrite H2. apply blank_line_after.
Qed.

Lemma onFrame_result (s : Server.t) (bytes : list Z) :
  let k := Z.to_nat (IPv4Header.Parsed.ihl (IPv4Header.parse bytes) * 4) in
  let chunks := Server.reassembly s ++ [drop (payload_offset bytes) bytes] in
  Server.onFrame s bytes
  = Js.Ok ({| Server.ip := Server.ip s; Server.port := Server.port s;
              Server.reassembly := chunks |},
           if has_blank_line (List.concat (map (map Js.to_uint8) chunks))
           then Some (IPv4Header.Parsed.src (IPv4Header.parse bytes),
                      TCPHeader.Parsed.srcPort (TCPHeader.parse (drop k bytes)))
           else None).
Proof.
  intros k chunks. unfold Server.onFrame. cbn [Server.reassembly].
  rewrite concat_ok. cbn [Js.bind].
  unfold Js.slice_from. rewrite drop_drop.
  fold k. change (k + _)%nat with (payload_offset bytes). fold chunks.
  by destruct (has_blank_line _).
Qed.

Lemma rx_onFrame_result (c : ClientRx.t) (bytes : list Z) :
  let chunks := ClientRx.inbox c ++ [drop (payload_offset bytes) bytes] in
  ClientRx.onFrame c bytes
  = Js.Ok ({| ClientRx.client := ClientRx.client c; ClientRx.inbox := chunks |},
           has_blank_line (List.concat (map (map Js.to_uint8) chunks))).
Proof.
  intros chunks. unfold ClientRx.onFrame. cbn [ClientRx.inbox].
  rewrite concat_ok. cbn [Js.bind].
  unfold Js.slice_from. rewrite drop_drop. reflexivity.
Qed.

Lemma concat_to_uint8 (arr : list (list Z)) :
  Forall bytes_ok arr -> List.concat (map (map Js.to_uint8) arr) = List.concat arr.
Proof.
  induction 1 as [|b rest Hb _ IH]; simpl; [done|].
  by rewrite map_to_uint8_id, IH.
Qed.

Lemma segments_ok (msg : list Z) (M : nat) (segs : list (list Z)) :
  bytes_ok msg ->
  (forall i, (i < length segs)%nat ->
     segs !! i = Some (Js.slice msg (i * M) ((i + 1) * M))) ->
  Forall bytes_ok segs /\ Forall (fun pl => (length pl <= M)%nat) segs.
Proof.
  intros Hmsg Hnth. split; apply Forall_lookup; intros i x Hx;
    rewrite (Hnth i) in Hx by (by eapply lookup_lt_Some); injection Hx as <-.
  - by apply slices_bytes_ok.
  - unfold Js.slice. rewrite length_take. lia.
Qed.

(** The request frames at a server with an empty buffer. *)
Lemma request_answered (Number : string -> Z) (c : Client.t)
    (dev : string -> option string) (dstHostIp : string) (dstPort : Z)
    (sip : string) (sport : Z) :
  let msg := toBytes (h2ToHttp11 dev) in
  let s := {| Server.ip := sip; Server.port := sport; Server.reassembly := [] |} in
  exists (init : list (list Z)) (last : list Z) (s1 s2 : Server.t),
    Client.send Number c msg dstHostIp dstPort = Some (Js.Ok (init ++ [last]))
    /\ Server.onFrames s init = Js.Ok s1
    /\ Server.onFrame s1 last
       = Js.Ok (s2, Some (IPv4Header.dotted (address_bytes Number (Client.ip c)) 0,
                          Client.port c mod 65536))
    /\ concat (Server.reassembly s2) = Js.Ok msg.
Proof.
  intros msg s.
  assert (Hmsg : bytes_ok msg) by apply toBytes_ok.
  assert (Hblank : has_blank_line msg = true).
  { unfold msg. destruct (request_text_shape dev) as [h ->]. apply blank_line_after. }
  destruct (segment_spec msg 600 ltac:(lia)) as (segs & Hseg & Hnth & Hcount & Hcat).
  destruct (segments_ok msg 600 segs Hmsg Hnth) as [Hok H600].
  destruct (frames_from_carries Number c dstHostIp dstPort (length segs) segs Hok 0%nat)
    as (frames & Hframes & Hcarry).
  destruct (frames_from_lookup Number c dstHostIp dstPort (length segs) segs 0 frames
              Hframes) as [Hlen Hlookup].
  assert (Hne : segs <> []).
  { intros ->. simpl in Hcat. subst msg. rewrite <- Hcat in Hblank. discriminate. }
  destruct (exists_last Hne) as (sinit & slast & ->).
  apply Forall2_app_inv_r in Hcarry as (finit & fl & Hcinit & Hclast & ->).
  inversion Hclast as [|flast ? ? ? Hcl Hnil]; subst.
  inversion Hnil; subst. clear Hclast Hnil.
  apply Forall_app in Hok as [Hoki Hokl]. apply Forall_app in H600 as [_ H600l].
  inversion Hokl as [|? ? Hsl _]; subst. inversion H600l as [|? ? Hsl600 _]; subst.
  pose proof (Forall2_length _ _ _ Hcinit) as Hleni.
  assert (Hall : Forall (fun a => carries (fst a) (snd a) /\ bytes_ok (snd a))
                        (zip finit sinit)).
  { clear -Hcinit Hoki.
    induction Hcinit as [|f pl fs pls Hc _ IH]; simpl; [constructor|].
    inversion Hoki; subst. constructor; [by split|by apply IH]. }
  assert (Hfst : map fst (zip finit sinit) = finit).
  { clear -Hleni. revert sinit Hleni.
    induction finit as [|f fs IH]; intros [|p ps] Hl; simpl in *; try lia; [done|].
    f_equal. apply IH. lia. }
  assert (Hsnd : map snd (zip finit sinit) = sinit).
  { clear -Hleni. revert sinit Hleni.
    induction finit as [|f fs IH]; intros [|p ps] Hl; simpl in *; try lia; [done|].
    f_equal. apply IH. lia. }
  pose proof (onFrames_carries (zip finit sinit) Hall s ltac:(constructor)) as Hrun.
  rewrite Hfst, Hsnd in Hrun. subst s.
  cbn [Server.reassembly Server.ip Server.port app] in Hrun.
  destruct (Hlookup (length sinit) slast) as (f & Hf & Hframe).
  { by rewrite lookup_app_r, Nat.sub_diag by lia. }
  rewrite lookup_app_r in Hf by lia.
  replace (length sinit - length finit)%nat with 0%nat in Hf by lia.
  injection Hf as <-.
  destruct (frame_fields Number c dstHostIp dstPort _ _ slast flast Hsl Hsl600 Hframe)
    as (_ & Hdrop & Hihl & _ & _ & _ & _ & _ & _ & Hsp & _ & Hoff & _ & _ & _ & _ & Hsrc).
  assert (Hpo : payload_offset flast = 40%nat).
  { unfold payload_offset. rewrite Hihl. unfold Js.slice_from.
    change (Z.to_nat (5 * 4)) with 20%nat. rewrite Hoff. reflexivity. }
  eexists finit, flast, _, _.
  split; [unfold Client.send; by rewrite Hseg, Hframes|].
  split; [exact Hrun|].
  rewrite onFrame_result. cbn [Server.reassembly Server.ip Server.port].
  rewrite Hpo, Hdrop, Hihl, Hsrc. change (Z.to_nat (5 * 4)) with 20%nat. rewrite Hsp.
  assert (Hall2 : Forall bytes_ok (sinit ++ [slast]))
    by (apply Forall_app; split; [done|by constructor]).
  rewrite concat_to_uint8 by done. rewrite Hcat, Hblank.
  split; [reflexivity|]. cbn [Server.reassembly].
  rewrite concat_bytes by done. by rewrite Hcat.
Qed.

(** X12. A request is answered to its sender. The frames that [Client.send]
    makes of any request text of [h2ToHttp11] are at least one; handed in
    order to a server with an empty buffer, the frames before the last are
    accepted and the last makes the server answer to the address text that
    [parse] reads from the client's address bytes and to the client's port
    modulo 65536, with the request text reassembled. This holds for every
    destination address and port the client sends to, and for every address
    and port of the server. *)
Theorem X12_request_is_answered (Number : string -> Z) (c : Client.t)
    (dev : string -> option string) (dstHostIp : string) (dstPort : Z)
    (sip : string) (sport : Z) :
  let msg := toBytes (h2ToHttp11 dev) in
  let s := {| Server.ip := sip; Server.port := sport; Server.reassembly := [] |} in
  exists (init : list (list Z)) (last : list Z) (s1 s2 : Server.t),
    Client.send Number c msg dstHostIp dstPort = Some (Js.Ok (init ++ [last]))
    /\ Server.onFrames s init = Js.Ok s1
    /\ Server.onFrame s1 last
       = Js.Ok (s2, Some (IPv4Header.dotted (address_bytes Number (Client.ip c)) 0,
                          Client.port c mod 65536))
    /\ concat (Server.reassembly s2) = Js.Ok msg.
Proof. exact (request_answered Number c dev dstHostIp dstPort sip sport). Qed.

Section ResponseFrames.
Variable Number : string -> Z.
Variable s : Server.t.
Variable dstIp : string.
Variable dstPort : Z.

(** A frame of the server is built without an error and a receiver finds
    the payload behind the offset that the headers announce. *)
Lemma response_frame (nsegments i : nat) (pl : list Z) :
  bytes_ok pl ->
  exists f, ServerSend.frame Number s dstIp dstPort nsegments i pl = Js.Ok f
            /\ drop (payload_offset f) f = pl.
Proof.
  intros Hpl. unfold ServerSend.frame.
  match goal with
  | |- context [TCPHeader.pack (TCPHeader.new ?ot) pl] =>
      match goal with
      | |- context [IPv4Header.pack Number (IPv4Header.new ?oi) _] =>
          destruct (encapsulation Number oi ot pl Hpl ltac:(simpl; lia)
                      ltac:(simpl; lia) ltac:(vm_compute; discriminate))
            as (tcpHdr & ipHdr & Ht & Hc1 & Hi & Hc2 & Hon)
      end
  end.
  rewrite Ht. cbn [Js.bind]. rewrite Hc1. cbn [Js.bind].
  rewrite Hi. cbn [Js.bind]. rewrite Hc2.
  eexists. split; [reflexivity|].
  destruct (Hon demo_server ltac:(constructor)) as [r Hr].
  rewrite onFrame_result in Hr. unfold pushed in Hr.
  cbn [Server.reassembly Server.ip Server.port demo_server app] in Hr.
  by injection Hr.
Qed.

Lemma response_frames (nsegments : nat) (segments : list (list Z)) :
  Forall bytes_ok segments ->
  forall i, exists frames,
    ServerSend.frames_from Number s dstIp dstPort nsegments i segments
    = Js.Ok frames
    /\ Forall2 (fun f pl => drop (payload_offset f) f = pl) frames segments.
Proof.
  induction 1 as [|pl rest Hpl _ IH]; intros i; cbn [ServerSend.frames_from].
  - exists []. split; [done|constructor].
  - destruct (response_frame nsegments i pl Hpl) as (f & Hf & Hc).
    destruct (IH (S i)) as (fs & Hfs & Hcs).
    rewrite Hf. cbn [Js.bind]. rewrite Hfs. cbn [Js.bind].
    exists (f :: fs). split; [done|by constructor].
Qed.
End ResponseFrames.

Lemma rx_onFrames_spec (frames segs : list (list Z)) :
  Forall2 (fun f pl => drop (payload_offset f) f = pl) frames segs ->
  Forall bytes_ok segs ->
  forall c : ClientRx.t, Forall bytes_ok (ClientRx.inbox c) ->
    exists flags : list bool,
      ClientRx.onFrames c frames
      = Js.Ok ({| ClientRx.client := ClientRx.client c;
                  ClientRx.inbox := ClientRx.inbox c ++ segs |}, flags)
      /\ length flags = length segs
      /\ forall i, (i < length segs)%nat ->
           flags !! i
           = Some (has_blank_line
                     (List.concat (ClientRx.inbox c ++ take (S i) segs))).
Proof.
  induction 1 as [|f pl fs pls Hf _ IH]; intros Hok c Hc; cbn [ClientRx.onFrames].
  - exists []. rewrite app_nil_r. split; [by destruct c|].
    split; [done|]. simpl. lia.
  - inversion Hok as [|? ? Hpl Hpls]; subst.
    rewrite rx_onFrame_result. cbn [Js.bind fst snd].
    assert (Hc1 : Forall bytes_ok (ClientRx.inbox c ++ [drop (payload_offset f) f]))
      by (apply Forall_app; split; [done|by constructor]).
    destruct (IH Hpls {| ClientRx.client := ClientRx.client c;
                         ClientRx.inbox :=
                           ClientRx.inbox c ++ [drop (payload_offset f) f] |} Hc1)
      as (flags & Hrun & Hlen & Hflags).
    rewrite Hrun. cbn [Js.bind fst snd ClientRx.client ClientRx.inbox].
    rewrite concat_to_uint8 by done.
    eexists. split; [by rewrite <- app_assoc|].
    split; [simpl; lia|].
    intros [|i] Hi.
    + reflexivity.
    + cbn [lookup list_lookup]. simpl in Hi. rewrite Hflags by lia.
      cbn [ClientRx.inbox]. by rewrite <- app_assoc.
Qed.

Lemma concat_take_segments (msg : list Z) (M : nat) (segs : list (list Z)) :
  (forall i, (i < length segs)%nat ->
     segs !! i = Some (Js.slice msg (i * M) ((i + 1) * M))) ->
  forall k, (k <= length segs)%nat -> List.concat (take k segs) = take (k * M) msg.
Proof.
  intros Hnth. induction k as [|k IH]; intros Hk.
  - by rewrite take_0.
  - rewrite (take_S_r _ _ _ (Hnth k ltac:(lia))).
    rewrite concat_app, IH by lia. simpl. rewrite app_nil_r.
    unfold Js.slice. replace ((k + 1) * M - k * M)%nat with M by lia.
    rewrite take_take_drop. f_equal. lia.
Qed.

(** The response frames at a client with an empty inbox. *)
Lemma response_inbox (Number : string -> Z) (s : Server.t)
    (text : string) (dstIp : string) (dstPort : Z) (cl : Client.t) :
  let bytes := toBytes text in
  exists (frames : list (list Z)) (flags : list bool) (c' : ClientRx.t),
    ServerSend.sendResponse Number s text dstIp dstPort = Some (Js.Ok frames)
    /\ length frames = ((length bytes + 700 - 1) / 700)%nat
    /\ ClientRx.onFrames {| ClientRx.client := cl; ClientRx.inbox := [] |} frames
       = Js.Ok (c', flags)
    /\ ClientRx.client c' = cl
    /\ concat (ClientRx.inbox c') = Js.Ok bytes
    /\ length flags = length frames
    /\ forall i, (i < length frames)%nat ->
         flags !! i = Some (has_blank_line (take ((i + 1) * 700) bytes)).
Proof.
  intros bytes.
  assert (Hmsg : bytes_ok bytes) by apply toBytes_ok.
  destruct (segment_spec bytes 700 ltac:(lia)) as (segs & Hseg & Hnth & Hcount & Hcat).
  destruct (segments_ok bytes 700 segs Hmsg Hnth) as [Hok _].
  destruct (response_frames Number s dstIp dstPort (length segs) segs Hok 0%nat)
    as (frames & Hframes & Hcarry).
  pose proof (Forall2_length _ _ _ Hcarry) as Hlen.
  destruct (rx_onFrames_spec frames segs Hcarry Hok
              {| ClientRx.client := cl; ClientRx.inbox := [] |} ltac:(constructor))
    as (flags & Hrun & Hfl & Hflags).
  cbn [ClientRx.client ClientRx.inbox app] in Hrun, Hflags.
  eexists frames, flags, _.
  split; [unfold ServerSend.sendResponse; fold bytes; by rewrite Hseg, Hframes|].
  split; [lia|]. split; [exact Hrun|]. split; [reflexivity|].
  cbn [ClientRx.inbox]. split; [by rewrite concat_bytes, Hcat|].
  split; [lia|].
  intros i Hi. rewrite Hflags by lia.
  rewrite (concat_take_segments bytes 700 segs Hnth) by lia.
  by replace (S i) with (i + 1)%nat by lia.
Qed.

(** X13. A response reaches the inbox. [sendResponse] cuts any response
    text into ceil(n / 700) frames without an error; handed in order to a
    client with an empty inbox, they leave the bytes of the text in the
    inbox, and the response view is printed after frame [i] exactly when
    the first [(i + 1) * 700] bytes of the text hold a blank line: once the
    blank line has arrived, after every further frame again. *)
Theorem X13_response_reaches_inbox (Number : string -> Z) (s : Server.t)
    (text : string) (dstIp : string) (dstPort : Z) (cl : Client.t) :
  let bytes := toBytes text in
  exists (frames : list (list Z)) (flags : list bool) (c' : ClientRx.t),
    ServerSend.sendResponse Number s text dstIp dstPort = Some (Js.Ok frames)
    /\ length frames = ((length bytes + 700 - 1) / 700)%nat
    /\ ClientRx.onFrames {| ClientRx.client := cl; ClientRx.inbox := [] |} frames
       = Js.Ok (c', flags)
    /\ ClientRx.client c' = cl
    /\ concat (ClientRx.inbox c') = Js.Ok bytes
    /\ length flags = length frames
    /\ forall i, (i < length frames)%nat ->
         flags !! i = Some (has_blank_line (take ((i + 1) * 700) bytes)).
Proof. exact (response_inbox Number s text dstIp dstPort cl). Qed.

(** ** Checksum, segmentation and concatenation on any input *)

Lemma sum_words_snoc0 (b : list Z) :
  ChecksumSpec.sum_words (b ++ [0]) = ChecksumSpec.sum_words b.
Proof.
  revert b. fix IH 1. intros [|hi [|lo rest]].
  - reflexivity.
  - unfold ChecksumSpec.sum_words. simpl. lia.
  - specialize (IH rest). unfold ChecksumSpec.sum_words in *. simpl.
    change (rest ++ [0]) with (rest ++ [0]) in IH. rewrite IH. reflexivity.
Qed.

Lemma sum_words_padding (b : list Z) (n : nat) :
  ChecksumSpec.sum_words (b ++ replicate n 0) = ChecksumSpec.sum_words b.
Proof.
  revert b. induction n as [|n IH]; intros b.
  - by rewrite app_nil_r.
  - change (replicate (S n) 0) with ([0] ++ replicate n 0).
    by rewrite app_assoc, IH, sum_words_snoc0.
Qed.

Lemma sum_words_zero (b : list Z) :
  bytes_ok b -> (ChecksumSpec.sum_words b = 0 <-> Forall (fun x => x = 0) b).
Proof.
  revert b. fix IH 1. intros [|hi [|lo rest]] Hb.
  - split; [constructor|reflexivity].
  - inversion Hb; subst. unfold ChecksumSpec.sum_words. simpl. split.
    + intros H0. constructor; [lia|constructor].
    + intros H0. inversion H0; subst. lia.
  - inversion Hb as [|? ? Hhi Hb']; subst. inversion Hb' as [|? ? Hlo Hb'']; subst.
    specialize (IH rest Hb''). pose proof (sum_words_nonneg rest Hb'') as Hnn.
    unfold ChecksumSpec.sum_words in *. simpl. split.
    + intros H0. constructor; [lia|]. constructor; [lia|]. apply IH. lia.
    + intros H0. inversion H0 as [|? ? -> H1]; subst. inversion H1 as [|? ? -> H2]; subst.
      apply IH in H2. lia.
Qed.

Lemma ipChecksum_fold_norm (b : list Z) :
  bytes_ok b -> ipChecksum b = 65535 - fold_norm (ChecksumSpec.sum_words b).
Proof.
  intros Hb. rewrite ipChecksum_spec by done.
  unfold ChecksumSpec.checksum, ChecksumSpec.complement16, ChecksumSpec.ones_sum.
  rewrite fold_carries_norm by (by apply sum_words_nonneg).
  pose proof (fold_norm_range (ChecksumSpec.sum_words b)).
  by rewrite Z.mod_small by lia.
Qed.

(** X14. [ipChecksum] on any buffer of bytes, of even or odd length: the
    result is a 16-bit value; zero bytes appended to the buffer do not
    change it (a last byte without a partner counts as the high byte of a
    word); and it is 0xFFFF exactly for the buffers that hold nothing but
    zero bytes, the empty buffer among them. *)
Theorem X14_checksum_zero_padding (b : list Z) (n : nat) :
  bytes_ok b ->
  0 <= ipChecksum b <= 65535
  /\ ipChecksum (b ++ replicate n 0) = ipChecksum b
  /\ (ipChecksum b = 65535 <-> Forall (fun x => x = 0) b).
Proof.
  intros Hb.
  assert (Hpad : bytes_ok (b ++ replicate n 0))
    by (apply bytes_ok_app; [done | apply bytes_ok_replicate0]).
  rewrite !ipChecksum_fold_norm by done. rewrite sum_words_padding.
  pose proof (fold_norm_range (ChecksumSpec.sum_words b)) as Hr.
  split; [lia|]. split; [reflexivity|].
  rewrite <- (sum_words_zero b Hb). unfold fold_norm.
  destruct (Z.eqb_spec (ChecksumSpec.sum_words b) 0) as [->|Hne]; [done|].
  pose proof (Z.mod_pos_bound (ChecksumSpec.sum_words b - 1) 65535 ltac:(lia)).
  lia.
Qed.

(** X14 at a three-byte buffer padded with five zero bytes. *)
Lemma X14_checksum_zero_padding_witness :
  bytes_ok [69; 0; 7]
  /\ ipChecksum ([69; 0; 7] ++ replicate 5 0) = ipChecksum [69; 0; 7].
Proof.
  assert (Hb : bytes_ok [69; 0; 7]) by (repeat constructor; lia).
  split; [exact Hb|].
  exact (proj1 (proj2 (X14_checksum_zero_padding [69; 0; 7] 5 Hb))).
Defined.

Lemma segment_loop_stuck (bytes : list Z) (i : nat) :
  (i < length bytes)%nat ->
  forall (fuel : nat) (out : list (list Z)), segment_loop fuel bytes 0 i out = None.
Proof.
  intros Hi. induction fuel as [|fuel IH]; intros out; [reflexivity|].
  cbn [segment_loop].
  destruct (Nat.ltb_spec i (length bytes)) as [_|Hge]; [|lia].
  rewrite Nat.add_0_r. apply IH.
Qed.

(** X15. With a maximum segment size of 0 the loop of [segment] never
    ends on a non-empty input: the index stays where it is, below the
    length, and every round pushes one more empty slice, so no amount of
    loop rounds produces a result. On the empty input [segment] returns no
    slice for every maximum segment size, 0 included. *)
Theorem X15_segment_zero_mss (bytes : list Z) (mss : nat) :
  segment [] mss = Some []
  /\ (bytes <> [] ->
      segment bytes 0 = None
      /\ forall (fuel : nat) (out : list (list Z)),
           segment_loop fuel bytes 0 0 out = None).
Proof.
  split; [reflexivity|]. intros Hne.
  assert (Hlen : (0 < length bytes)%nat) by (destruct bytes; [done|simpl; lia]).
  split; [apply segment_loop_stuck, Hlen|]. apply segment_loop_stuck, Hlen.
Qed.

(** X15 at a one-byte input. *)
Lemma X15_segment_zero_mss_witness :
  [7] <> @nil Z /\ segment [7] 0 = None.
Proof.
  assert (Hne : [7] <> @nil Z) by discriminate.
  split; [exact Hne|].
  exact (proj1 (proj2 (X15_segment_zero_mss [7] 0) Hne)).
Defined.

(** X16. [cat] and [concat] never throw: the fresh array always has room
    for what is copied into it. [concat] of a list of arrays is their
    elements in order, each reduced to a byte, and as long as the sum of the
    lengths; [cat a b] is [concat [a; b]]; and joining two lists of chunks
    separately and then with [cat] gives what [concat] gives on the whole
    list, so the buffer that a receiver rebuilds at every frame grows by
    exactly the new payload. *)
Theorem X16_cat_concat_total (a b : list Z) (arr arr' : list (list Z)) :
  cat a b = concat [a; b]
  /\ (exists out,
        concat arr = Js.Ok out
        /\ out = List.concat (map (map Js.to_uint8) arr)
        /\ length out = length (List.concat arr)
        /\ bytes_ok out)
  /\ (do x <- concat arr; do y <- concat arr'; cat x y) = concat (arr ++ arr')
  /\ concat [] = Js.Ok [].
Proof.
  split.
  { rewrite cat_ok, concat_ok. simpl. by rewrite app_nil_r. }
  assert (Hok : forall l : list (list Z),
             bytes_ok (List.concat (map (map Js.to_uint8) l))).
  { induction l as [|x l IH]; simpl; [constructor|].
    apply bytes_ok_app; [apply bytes_ok_map_to_uint8 | exact IH]. }
  split.
  { eexists. split; [apply concat_ok|]. split; [reflexivity|]. split; [|apply Hok].
    induction arr as [|x l IH]; simpl; [done|].
    by rewrite !length_app, length_map, IH. }
  split; [|apply concat_ok].
  rewrite !concat_ok. cbn [Js.bind]. rewrite cat_bytes by apply Hok.
  by rewrite map_app, concat_app.
Qed.

(** ** Further properties of the link *)




(** X18. Connecting again replaces the receiver, also for frames that
    are on their way. Once [connect] has accepted a link, it accepts every
    further function receiver on it; it leaves the pending timers alone;
    and a timer of [send] that fires afterwards calls the new receiver with
    its frame, not the receiver that was connected when the frame was
    sent. *)
Theorem X18_reconnect_rebinds (R : Type) (l0 l : NetworkLink.t R) (f g : R)
    (w0 w1 w : NetworkLink.world) :
  NetworkLink.connect l0 (NetworkLink.Function f) w0 = Js.Ok (l, w1) ->
  exists l' w',
    NetworkLink.connect l (NetworkLink.Function g) w = Js.Ok (l', w')
    /\ l' = NetworkLink.set_rx l0 (NetworkLink.Wrapped g)
    /\ NetworkLink.timers w' = NetworkLink.timers w
    /\ forall tm : Q * list Z,
         NetworkLink.fire l tm = Some (f, snd tm)
         /\ NetworkLink.fire l' tm = Some (g, snd tm).
Proof.
  intros Hconn. unfold NetworkLink.connect in *.
  destruct (String.eqb (NetworkLink.medium l0) EmptyString) eqn:E1; [discriminate|].
  destruct (negb (NetworkLink.includes NetworkLink.ACCEPTED_MEDIA (NetworkLink.medium l0)))
    eqn:E2; [discriminate|].
  destruct (Qle_bool (NetworkLink.rateGbps l0) 0) eqn:E3; [discriminate|].
  injection Hconn as <- _.
  cbn [NetworkLink.set_rx NetworkLink.medium NetworkLink.rateGbps].
  rewrite E1, E2, E3.
  eexists _, _. split; [reflexivity|]. split; [reflexivity|]. split; [reflexivity|].
  intros tm. split; reflexivity.
Qed.

(** X18 on the numbered link: a frame sent while receiver 1 is connected
    is delivered to receiver 2 after the second [connect]. *)
Lemma X18_reconnect_rebinds_witness :
  NetworkLink.connect numbered_link (NetworkLink.Function 1%nat) empty_world
  = Js.Ok (NetworkLink.set_rx numbered_link (NetworkLink.Wrapped 1%nat),
           NetworkLink.console_put NetworkLink.LogConnected empty_world)
  /\ exists l' w',
       NetworkLink.connect
         (NetworkLink.set_rx numbered_link (NetworkLink.Wrapped 1%nat))
         (NetworkLink.Function 2%nat) empty_world = Js.Ok (l', w')
       /\ NetworkLink.fire l' (0%Q, [1; 2; 3]) = Some (2%nat, [1; 2; 3]).
Proof.
  assert (H : NetworkLink.connect numbered_link (NetworkLink.Function 1%nat) empty_world
              = Js.Ok (NetworkLink.set_rx numbered_link (NetworkLink.Wrapped 1%nat),
                       NetworkLink.console_put NetworkLink.LogConnected empty_world))
    by reflexivity.
  split; [exact H|].
  destruct (X18_reconnect_rebinds nat numbered_link _ 1%nat 2%nat empty_world _
              empty_world H) as (l' & w' & Hc & _ & _ & Hfire).
  exists l', w'. split; [exact Hc|]. exact (proj2 (Hfire (0%Q, [1; 2; 3]))).
Defined.

(** ** The exchange *)

Lemma blank_line_nonempty (b : list Z) : has_blank_line b = true -> b <> [].
Proof. intros H ->. discriminate. Qed.

(** X19. One exchange, every frame delivered in the order it was sent.
    The client's request reaches a server with an empty buffer, whose
    address and port play no role; the last request frame makes the server
    answer; [sendResponse] turns the server's response text into at least one
    frame for the address and port that the request came from; these frames
    leave exactly the response text in the client's empty inbox, and after
    the last of them the response view is printed. *)
Theorem X19_exchange (Number : string -> Z) (c : Client.t)
    (dev : string -> option string) (dstHostIp : string) (dstPort : Z)
    (sip : string) (sport : Z) (now : Z) :
  let s := {| Server.ip := sip; Server.port := sport; Server.reassembly := [] |} in
  exists (init : list (list Z)) (final : list Z) (s1 s2 : Server.t)
         (dst : string) (port : Z)
         (frames : list (list Z)) (flags : list bool) (c' : ClientRx.t),
    Client.send Number c (toBytes (h2ToHttp11 dev)) dstHostIp dstPort
    = Some (Js.Ok (init ++ [final]))
    /\ Server.onFrames s init = Js.Ok s1
    /\ Server.onFrame s1 final = Js.Ok (s2, Some (dst, port))
    /\ port = Client.port c mod 65536
    /\ ServerSend.sendResponse Number s2 (response_text now) dst port
       = Some (Js.Ok frames)
    /\ frames <> []
    /\ ClientRx.onFrames {| ClientRx.client := c; ClientRx.inbox := [] |} frames
       = Js.Ok (c', flags)
    /\ concat (ClientRx.inbox c') = Js.Ok (toBytes (response_text now))
    /\ last flags = Some true.
Proof.
  intros s.
  destruct (request_answered Number c dev dstHostIp dstPort sip sport)
    as (init & final & s1 & s2 & Hsend & Hinit & Hfinal & _).
  match type of Hfinal with
  | _ = Js.Ok (_, Some (?d, ?p)) =>
      destruct (response_inbox Number s2 (response_text now) d p c)
        as (frames & flags & c' & Hresp & Hcount & Hrun & _ & Hinbox & Hlen & Hflags)
  end.
  cbn zeta in *.
  assert (Hblank : has_blank_line (toBytes (response_text now)) = true).
  { unfold response_text. cbv zeta.
    match goal with
    | |- context [buildHttpResponse ?st ?r ?h ?b] =>
        destruct (response_text_shape st r h b) as [hd ->]
    end.
    apply blank_line_after. }
  pose proof (blank_line_nonempty _ Hblank) as Hne.
  assert (Hpos : (0 < length (toBytes (response_text now)))%nat).
  { destruct (toBytes (response_text now)); [done|simpl; lia]. }
  assert (Hfr : (0 < length frames)%nat).
  { rewrite Hcount. apply Nat.div_str_pos. lia. }
  assert (Hcover : (length (toBytes (response_text now)) <= length frames * 700)%nat).
  { rewrite Hcount.
    pose proof (Nat.div_mod (length (toBytes (response_text now)) + 700 - 1) 700
                  ltac:(lia)) as Hdm.
    pose proof (Nat.mod_upper_bound (length (toBytes (response_text now)) + 700 - 1) 700
                  ltac:(lia)) as Hmb.
    lia. }
  eexists init, final, s1, s2, _, _, frames, flags, c'.
  split; [exact Hsend|]. split; [exact Hinit|]. split; [exact Hfinal|].
  split; [reflexivity|]. split; [exact Hresp|].
  split; [by destruct frames; [simpl in Hfr; lia|]|].
  split; [exact Hrun|]. split; [exact Hinbox|].
  rewrite last_lookup, Hlen. rewrite Hflags by lia.
  replace (Nat.pred (length frames) + 1)%nat with (length frames) by lia.
  rewrite take_ge by lia. by rewrite Hblank.
Qed.

Section RequestFrames.
Variable Number : string -> Z.
Variable c : Client.t.
Variable dstHostIp : string.
Variable dstPort : Z.

Lemma request_frames_payload (msg : list Z) :
  bytes_ok msg ->
  exists segs frames,
    segment msg 600 = Some segs
    /\ Client.send Number c msg dstHostIp dstPort = Some (Js.Ok frames)
    /\ List.concat segs = msg
    /\ Forall bytes_ok segs
    /\ Forall2 (fun f pl => drop (payload_offset f) f = pl) frames segs.
Proof.
  intros Hmsg.
  destruct (segment_spec msg 600 ltac:(lia)) as (segs & Hseg & Hnth & _ & Hcat).
  destruct (segments_ok msg 600 segs Hmsg Hnth) as [Hok H600].
  destruct (frames_from_carries Number c dstHostIp dstPort (length segs) segs Hok 0%nat)
    as (frames & Hframes & _).
  destruct (frames_from_lookup Number c dstHostIp dstPort (length segs) segs 0 frames
              Hframes) as [Hlen Hlookup].
  exists segs, frames. split; [exact Hseg|].
  split; [unfold Client.send; by rewrite Hseg, Hframes|].
  split; [exact Hcat|]. split; [exact Hok|].
  apply Forall2_same_length_lookup_2; [exact Hlen|].
  intros i f pl Hf Hpl.
  destruct (Hlookup i pl Hpl) as (f' & Hf' & Hframe).
  rewrite Hf in Hf'. injection Hf' as <-.
  destruct (frame_fields Number c dstHostIp dstPort _ _ pl f
              ltac:(by eapply Forall_lookup_1 in Hok)
              ltac:(by eapply Forall_lookup_1 in H600) Hframe)
    as (_ & Hdrop & Hihl & _ & _ & _ & _ & _ & _ & _ & _ & Hoff & _).
  unfold payload_offset. rewrite Hihl. unfold Js.slice_from.
  change (Z.to_nat (5 * 4)) with 20%nat. rewrite Hoff. exact Hdrop.
Qed.
End RequestFrames.

(** X20. In [main] the client hears itself and the server hears nothing.
    The set-up succeeds; the link the client sends on is the link its own
    [onFrame] is connected to, so every frame sent on it is scheduled (the
    loss rate is 0) and its timer calls the client's callback, as do the
    timers of the server's return link; no party holds the link that calls
    the server as a link to send on. The request frames of [Client.send],
    delivered in order, leave the request text in the client's own inbox,
    and after the last one the client prints it as a response. *)
Theorem X20_main_client_hears_itself (Number : string -> Z) (random : nat -> Q)
    (c : Client.t) (dev : string -> option string) (dstHostIp : string)
    (dstPort : Z) (w : NetworkLink.world) :
  (forall n, (0 <= random n < 1)%Q) ->
  exists (ls : Main.links) (p : Main.parties) (w0 : NetworkLink.world),
    Main.setup w = Js.Ok (ls, p, w0)
    /\ (forall (frame : list Z) (w1 : NetworkLink.world),
          exists d w2,
            NetworkLink.send random (ls (Main.client_link p)) frame w1 = Js.Ok w2
            /\ NetworkLink.timers w2 = NetworkLink.timers w1 ++ [(d, frame)]
            /\ NetworkLink.fire (ls (Main.client_link p)) (d, frame)
               = Some (Main.ClientEndpoint, frame))
    /\ (forall tm, NetworkLink.fire (ls (Main.server_linkBack p)) tm
                   = Some (Main.ClientEndpoint, snd tm))
    /\ (forall i tm, NetworkLink.fire (ls i) tm = Some (Main.ServerEndpoint, snd tm) ->
          i <> Main.client_link p /\ i <> Main.server_linkBack p)
    /\ exists frames flags c',
         Client.send Number c (toBytes (h2ToHttp11 dev)) dstHostIp dstPort
         = Some (Js.Ok frames)
         /\ ClientRx.onFrames {| ClientRx.client := c; ClientRx.inbox := [] |} frames
            = Js.Ok (c', flags)
         /\ concat (ClientRx.inbox c') = Js.Ok (toBytes (h2ToHttp11 dev))
         /\ last flags = Some true.
Proof.
  intros Hrand.
  eexists _, _, _. split; [reflexivity|].
  cbn [Main.client_link Main.server_linkBack Main.update Main.link_id_eqb fst snd].
  split.
  { intros frame w1.
    match goal with
    | |- context [NetworkLink.send random ?l frame w1] =>
        destruct (send_cases Main.endpoint random l frame w1)
          as (w2 & Hsend & _ & _ & Hsched);
        destruct (Hsched (NetworkLink.Wrapped Main.ClientEndpoint) eq_refl) as (Htm & _ & _)
    end.
    { pose proof (Hrand (NetworkLink.rng_pos w1)). cbn. lra. }
    eexists _, w2. split; [exact Hsend|]. split; [exact Htm|]. reflexivity. }
  split; [intros tm; reflexivity|].
  split.
  { intros [|] tm Hfire; [split; discriminate|]. discriminate Hfire. }
  assert (Hmsg : bytes_ok (toBytes (h2ToHttp11 dev))) by apply toBytes_ok.
  destruct (request_frames_payload Number c dstHostIp dstPort _ Hmsg)
    as (segs & frames & _ & Hsend & Hcat & Hok & Hpay).
  destruct (rx_onFrames_spec frames segs Hpay Hok
              {| ClientRx.client := c; ClientRx.inbox := [] |} ltac:(constructor))
    as (flags & Hrun & Hfl & Hflags).
  cbn [ClientRx.client ClientRx.inbox app] in Hrun, Hflags.
  eexists frames, flags, _. split; [exact Hsend|]. split; [exact Hrun|].
  cbn [ClientRx.inbox]. split; [by rewrite concat_bytes, Hcat|].
  assert (Hblank : has_blank_line (toBytes (h2ToHttp11 dev)) = true).
  { destruct (request_text_shape dev) as [h ->]. apply blank_line_after. }
  assert (Hne : segs <> []).
  { intros ->. simpl in Hcat. rewrite <- Hcat in Hblank. discriminate. }
  assert (Hpos : (0 < length segs)%nat) by (destruct segs; [done|simpl; lia]).
  rewrite last_lookup, Hfl, Hflags by lia.
  replace (S (Nat.pred (length segs))) with (length segs) by lia.
  by rewrite firstn_all, Hcat, Hblank.
Qed.

(** X20 with a random source that always returns one half and the
    demonstration client. *)
Lemma X20_main_client_hears_itself_witness :
  (forall n : nat, (0 <= 1 # 2 < 1)%Q)
  /\ exists ls p w0,
       Main.setup empty_world = Js.Ok (ls, p, w0)
       /\ NetworkLink.fire (ls (Main.client_link p)) (0%Q, [1; 2; 3])
          = Some (Main.ClientEndpoint, [1; 2; 3]).
Proof.
  assert (H1 : forall n : nat, (0 <= 1 # 2 < 1)%Q) by (intros _; lra).
  split; [exact H1|].
  destruct (X20_main_client_hears_itself Number_decimal (fun _ => 1 # 2) demo_client
              (fun _ => None) "104.18.32.47" 443 empty_world H1)
    as (ls & p & w0 & Hsetup & _ & Hback & _).
  exists ls, p, w0. split; [exact Hsetup|].
  injection Hsetup as <- <- _. reflexivity.
Defined.
